(** * Tool adapters of the cookbook notebooks

    A shallow embedding of the two tool classes that the agent notebooks
    define, [RetrieverTool] (notebooks/en/agents.ipynb) and
    [SQLExecutorTool] (notebooks/en/enterprise_cookbook_argilla.ipynb),
    together with the part of the Python run time they rely on: values and
    their [str]/[repr], truthiness, class and instance attributes held in a
    heap of shared objects, exceptions, and a log of the calls made to the
    wrapped external capability. *)

From Stdlib Require Import ZArith Ascii String List Bool Lia.
From Stdlib Require Import DecimalString Permutation.
From stdpp Require Import gmap strings list.

Import ListNotations.
Local Open Scope string_scope.
Local Open Scope Z_scope.
Local Open Scope list_scope.

(** ** Python values *)

Module Py.

(** A text is a sequence of characters, and a character of the model is a
    code point below 256, [ascii_of_N n] for the code point [n]:
    [String.length] is [len], and a position is a character's.  Texts with
    other characters are outside the model. *)

(** A [float] that reached the tools as a decimal literal and is only stored,
    compared and printed (never computed with) is kept as that literal:
    [f_mant / 10 ^ f_scale].  For at most 15 significant digits the literal
    and the binary64 value determine each other, and [repr] prints the
    literal without its trailing zeros.  The floats of the model are those:
    at most 15 significant digits, within the range of the normal binary64
    numbers; no infinity, no NaN, no negative zero. *)
Record pyfloat := { f_mant : Z; f_scale : nat }.

#[warnings="-register-all"]
Inductive pyval :=
| PyNone
| PyBool (b : bool)
| PyInt (n : Z)
| PyFloat (f : pyfloat)
| PyStr (s : string)
| PyList (xs : list pyval)
| PyTuple (xs : list pyval)
| PyDict (kvs : list (string * pyval)).

(** [isinstance(v, str)] *)
Definition isinstance_str (v : pyval) : bool :=
  match v with PyStr _ => true | _ => false end.

(** Truth value of an object, as tested by [if v:]. *)
Definition truthy (v : pyval) : bool :=
  match v with
  | PyNone => false
  | PyBool b => b
  | PyInt n => negb (n =? 0)
  | PyFloat f => negb (f_mant f =? 0)
  | PyStr s => negb (String.eqb s "")
  | PyList xs => negb (Nat.eqb (length xs) 0)
  | PyTuple xs => negb (Nat.eqb (length xs) 0)
  | PyDict kvs => negb (Nat.eqb (length kvs) 0)
  end.

(** *** Strings *)

(** [sub in s] *)
Fixpoint str_in (sub s : string) : bool :=
  String.prefix sub s
  || match s with
     | EmptyString => false
     | String _ s' => str_in sub s'
     end.

(** [c in s] for a one-character [c]; [str_in] specialised. *)
Fixpoint char_in (c : ascii) (s : string) : bool :=
  match s with
  | EmptyString => false
  | String a s' => Ascii.eqb c a || char_in c s'
  end.

(** [s.replace(old, new)] for one-character [old] and [new], which is all
    the notebooks call it with. *)
Fixpoint replace (old new : ascii) (s : string) : string :=
  match s with
  | EmptyString => EmptyString
  | String a s' =>
      String (if Ascii.eqb a old then new else a) (replace old new s')
  end.

(** [sep.join(parts)] *)
Definition join (sep : string) (parts : list string) : string :=
  String.concat sep parts.

Fixpoint string_rev_onto (acc s : string) : string :=
  match s with
  | EmptyString => acc
  | String a s' => string_rev_onto (String a acc) s'
  end.

Definition string_rev (s : string) : string := string_rev_onto EmptyString s.

Fixpoint zeros (n : nat) : string :=
  match n with O => EmptyString | S n' => String "0" (zeros n') end.

(** *** Numbers *)

Definition nat_digits (n : N) : string :=
  NilZero.string_of_uint (N.to_uint n).

Definition int_repr (n : Z) : string :=
  (if n <? 0 then "-" else "") +:+ nat_digits (Z.abs_N n).

Fixpoint drop_zeros (s : string) : string :=
  match s with
  | String "0" s' => drop_zeros s'
  | _ => s
  end.

Definition strip_trailing_zeros (s : string) : string :=
  string_rev (drop_zeros (string_rev s)).

Definition pad2 (s : string) : string :=
  if Nat.ltb (String.length s) 2 then "0" +:+ s else s.

(** [repr] of a float: the shortest digits [D], fixed notation while the
    decimal point sits within [-4 < decpt <= 16], exponent notation
    otherwise. *)
Definition float_repr (f : pyfloat) : string :=
  let m := f_mant f in
  if m =? 0 then "0.0" else
  let all := nat_digits (Z.abs_N m) in
  let D := strip_trailing_zeros all in
  let n := String.length D in
  let decpt := Z.of_nat (String.length all) - Z.of_nat (f_scale f) in
  let sign := if m <? 0 then "-" else "" in
  sign +:+
  (if (-4 <? decpt) && (decpt <=? 16) then
     if decpt <=? 0 then "0." +:+ zeros (Z.to_nat (- decpt)) +:+ D
     else if Z.of_nat n <=? decpt
          then D +:+ zeros (Z.to_nat decpt - n) +:+ ".0"
          else substring 0 (Z.to_nat decpt) D +:+ "."
               +:+ substring (Z.to_nat decpt) (n - Z.to_nat decpt) D
   else
     let e := decpt - 1 in
     substring 0 1 D
     +:+ (if Nat.ltb 1 n then "." +:+ substring 1 (n - 1) D else "")
     +:+ "e" +:+ (if e <? 0 then "-" else "+") +:+ pad2 (nat_digits (Z.abs_N e))).

(** *** [repr] and [str] *)

Definition hex_digit (n : N) : ascii :=
  match n with
  | 0%N => "0" | 1%N => "1" | 2%N => "2" | 3%N => "3" | 4%N => "4"
  | 5%N => "5" | 6%N => "6" | 7%N => "7" | 8%N => "8" | 9%N => "9"
  | 10%N => "a" | 11%N => "b" | 12%N => "c" | 13%N => "d" | 14%N => "e"
  | _ => "f"
  end%char.

Definition backslash : ascii := "\"%char.
Definition squote : ascii := "'"%char.
Definition dquote : ascii := ascii_of_N 34.

(** The characters that [str.isprintable] refuses: the controls below 32,
    DEL, the controls U+0080 to U+009F, the no-break space U+00A0 and the
    soft hyphen U+00AD. *)
Definition unprintable (a : ascii) : bool :=
  let n := N_of_ascii a in
  ((n <? 32) || (n =? 127) || ((128 <=? n) && (n <=? 160)) || (n =? 173))%N.

(** One character of a string literal delimited by [q]: the delimiter and
    the backslash are escaped, tab, newline and return have their letter, the
    other unprintable characters are written as hex escapes, and every other
    character is copied. *)
Definition repr_char (q : ascii) (a : ascii) : string :=
  let n := N_of_ascii a in
  if Ascii.eqb a q || Ascii.eqb a backslash then String backslash (String a "")
  else if (n =? 9)%N then String backslash "t"
  else if (n =? 10)%N then String backslash "n"
  else if (n =? 13)%N then String backslash "r"
  else if unprintable a
       then String backslash
              (String "x" (String (hex_digit (n / 16)) (String (hex_digit (n mod 16)) "")))
  else String a "".

Fixpoint repr_chars (q : ascii) (s : string) : string :=
  match s with
  | EmptyString => EmptyString
  | String a s' => repr_char q a +:+ repr_chars q s'
  end.

(** [repr] of a [str]: single quotes, unless the text has a single quote
    and no double quote. *)
Definition str_repr (s : string) : string :=
  let q := if char_in squote s && negb (char_in dquote s) then dquote else squote in
  String q (repr_chars q s +:+ String q "").

Fixpoint py_repr (v : pyval) : string :=
  match v with
  | PyNone => "None"
  | PyBool true => "True"
  | PyBool false => "False"
  | PyInt n => int_repr n
  | PyFloat f => float_repr f
  | PyStr s => str_repr s
  | PyList xs => "[" +:+ join ", " (List.map py_repr xs) +:+ "]"
  | PyTuple xs =>
      "(" +:+ join ", " (List.map py_repr xs)
      +:+ (if Nat.eqb (length xs) 1 then "," else "") +:+ ")"
  | PyDict kvs =>
      "{" +:+ join ", " (List.map (fun kv => str_repr (fst kv) +:+ ": " +:+ py_repr (snd kv)) kvs)
      +:+ "}"
  end.

(** [str(v)] *)
Definition py_str (v : pyval) : string :=
  match v with
  | PyStr s => s
  | _ => py_repr v
  end.

End Py.

Import Py.

(** ** The standard library's JSON reader

    [json.loads] is Python's, not the notebooks'.  The tool is verified for an
    arbitrary reader (a section variable below); this one serves the concrete
    scenarios.  It follows the reader's scanner: no white space skipped
    before a value except where the array, object and top-level loops do so,
    strict strings, numbers made of an integer part (a lone 0, or digits that
    start with a non-zero one), an optional fraction and an optional exponent.
    What the values of the model cannot hold is left out, and answered as a
    decode error here: a [\u] escape of a character from 256 on, and the
    literals NaN, Infinity and -Infinity.  A number with a fraction or an
    exponent is read as the decimal it writes, which is the float read when
    it is one of the floats of the model. *)

Module Json.

Definition is_ws (a : ascii) : bool :=
  match N_of_ascii a with
  | 32%N | 9%N | 10%N | 13%N => true
  | _ => false
  end.

Fixpoint skip_ws (s : string) : string :=
  match s with
  | String a s' => if is_ws a then skip_ws s' else s
  | EmptyString => s
  end.

Definition is_digit (a : ascii) : bool :=
  let n := N_of_ascii a in ((48 <=? n) && (n <=? 57))%N.

Definition hex_value (a : ascii) : option N :=
  let n := N_of_ascii a in
  if ((48 <=? n) && (n <=? 57))%N then Some (n - 48)%N
  else if ((97 <=? n) && (n <=? 102))%N then Some (n - 87)%N
  else if ((65 <=? n) && (n <=? 70))%N then Some (n - 55)%N
  else None.

(** The table of one-letter escapes. *)
Definition unescape (a : ascii) : option ascii :=
  match a with
  | "b"%char => Some (ascii_of_N 8)
  | "f"%char => Some (ascii_of_N 12)
  | "n"%char => Some (ascii_of_N 10)
  | "r"%char => Some (ascii_of_N 13)
  | "t"%char => Some (ascii_of_N 9)
  | "/"%char => Some "/"%char
  | _ => if Ascii.eqb a dquote || Ascii.eqb a backslash then Some a else None
  end.

Definition cons_char (a : ascii) (r : option (string * string)) : option (string * string) :=
  match r with
  | Some (body, rest) => Some (String a body, rest)
  | None => None
  end.

(** The text of a string literal, read from just after its opening quote. *)
Fixpoint scanstring (s : string) : option (string * string) :=
  match s with
  | EmptyString => None
  | String a s' =>
      if Ascii.eqb a dquote then Some (EmptyString, s')
      else if Ascii.eqb a backslash then
        match s' with
        | String "u" (String h1 (String h2 (String h3 (String h4 s'')))) =>
            match hex_value h1, hex_value h2, hex_value h3, hex_value h4 with
            | Some 0%N, Some 0%N, Some d3, Some d4 =>
                cons_char (ascii_of_N (16 * d3 + d4)) (scanstring s'')
            | _, _, _, _ => None
            end
        | String e s'' =>
            match unescape e with
            | Some c => cons_char c (scanstring s'')
            | None => None
            end
        | EmptyString => None
        end
      else if (N_of_ascii a <? 32)%N then None
      else cons_char a (scanstring s')
  end.

Fixpoint scan_digits (s : string) : string * string :=
  match s with
  | String a s' =>
      if is_digit a then let '(ds, rest) := scan_digits s' in (String a ds, rest)
      else (EmptyString, s)
  | EmptyString => (EmptyString, s)
  end.

Fixpoint digits_value (acc : Z) (ds : string) : Z :=
  match ds with
  | EmptyString => acc
  | String a ds' => digits_value (10 * acc + Z.of_N (N_of_ascii a - 48)) ds'
  end.

(** The integer part: a lone [0], or digits that start with a non-zero one. *)
Definition scan_int_part (s : string) : option (string * string) :=
  match s with
  | String "0" s' => Some ("0", s')
  | _ => match scan_digits s with
         | (EmptyString, _) => None
         | (ds, rest) => Some (ds, rest)
         end
  end.

Definition scan_frac (s : string) : string * string :=
  match s with
  | String "." s' =>
      match scan_digits s' with
      | (EmptyString, _) => (EmptyString, s)
      | (ds, rest) => (ds, rest)
      end
  | _ => (EmptyString, s)
  end.

(** The exponent, when one follows: its value and the rest. *)
Definition scan_exp (s : string) : option (Z * string) :=
  match s with
  | String e s' =>
      if Ascii.eqb e "e" || Ascii.eqb e "E" then
        let '(neg, s1) :=
          match s' with
          | String "-" s1 => (true, s1)
          | String "+" s1 => (false, s1)
          | _ => (false, s')
          end in
        match scan_digits s1 with
        | (EmptyString, _) => None
        | (ds, rest) =>
            Some (if neg : bool then - digits_value 0 ds else digits_value 0 ds, rest)
        end
      else None
  | EmptyString => None
  end.

Definition make_float (neg : bool) (ip fp : string) (e : Z) : pyval :=
  let m := digits_value 0 (ip +:+ fp) in
  let m := if neg then - m else m in
  let sh := e - Z.of_nat (String.length fp) in
  if 0 <=? sh
  then PyFloat {| f_mant := m * 10 ^ sh; f_scale := 0 |}
  else PyFloat {| f_mant := m; f_scale := Z.to_nat (- sh) |}.

Definition scan_number (s : string) : option (pyval * string) :=
  let '(neg, s0) :=
    match s with
    | String "-" s' => (true, s')
    | _ => (false, s)
    end in
  match scan_int_part s0 with
  | None => None
  | Some (ip, s1) =>
      let '(fp, s2) := scan_frac s1 in
      match scan_exp s2, fp with
      | None, EmptyString =>
          Some (PyInt (if neg then - digits_value 0 ip else digits_value 0 ip), s2)
      | None, _ => Some (make_float neg ip fp 0, s2)
      | Some (e, s3), _ => Some (make_float neg ip fp e, s3)
      end
  end.

(** [dict(pairs)]: a repeated key keeps its first place and takes the last
    value. *)
Fixpoint dict_set (k : string) (v : pyval) (kvs : list (string * pyval)) :
  list (string * pyval) :=
  match kvs with
  | [] => [(k, v)]
  | (k', v') :: r =>
      if String.eqb k k' then (k, v) :: r else (k', v') :: dict_set k v r
  end.

Definition dict_of_pairs (pairs : list (string * pyval)) : list (string * pyval) :=
  fold_left (fun d kv => dict_set (fst kv) (snd kv) d) pairs [].

Definition drop_prefix (p s : string) : option string :=
  if String.prefix p s
  then Some (substring (String.length p) (String.length s - String.length p) s)
  else None.

(** [scan_once], with the loops of the array and of the object readers.
    [fuel] bounds the nesting and the number of members. *)
Fixpoint scan_once (fuel : nat) (s : string) : option (pyval * string) :=
  match fuel with
  | O => None
  | S fuel' =>
      match s with
      | String "[" s1 =>
          match skip_ws s1 with
          | String "]" s2 => Some (PyList [], s2)
          | s2 => match scan_array fuel' s2 with
                  | Some (vs, s3) => Some (PyList vs, s3)
                  | None => None
                  end
          end
      | String "{" s1 =>
          match skip_ws s1 with
          | String "}" s2 => Some (PyDict [], s2)
          | s2 => match scan_object fuel' s2 with
                  | Some (kvs, s3) => Some (PyDict (dict_of_pairs kvs), s3)
                  | None => None
                  end
          end
      | String a s1 =>
          if Ascii.eqb a dquote then
            match scanstring s1 with
            | Some (body, s2) => Some (PyStr body, s2)
            | None => None
            end
          else
            match drop_prefix "null" s, drop_prefix "true" s, drop_prefix "false" s with
            | Some r, _, _ => Some (PyNone, r)
            | _, Some r, _ => Some (PyBool true, r)
            | _, _, Some r => Some (PyBool false, r)
            | _, _, _ => scan_number s
            end
      | EmptyString => None
      end
  end
with scan_array (fuel : nat) (s : string) : option (list pyval * string) :=
  match fuel with
  | O => None
  | S fuel' =>
      match scan_once fuel' s with
      | Some (v, s1) =>
          match skip_ws s1 with
          | String "]" s2 => Some ([v], s2)
          | String "," s2 =>
              match scan_array fuel' (skip_ws s2) with
              | Some (vs, s3) => Some (v :: vs, s3)
              | None => None
              end
          | _ => None
          end
      | None => None
      end
  end
with scan_object (fuel : nat) (s : string) : option (list (string * pyval) * string) :=
  match fuel with
  | O => None
  | S fuel' =>
      match s with
      | String q s0 =>
          if Ascii.eqb q dquote then
            match scanstring s0 with
            | Some (key, s1) =>
                match skip_ws s1 with
                | String ":" s2 =>
                    match scan_once fuel' (skip_ws s2) with
                    | Some (v, s3) =>
                        match skip_ws s3 with
                        | String "}" s4 => Some ([(key, v)], s4)
                        | String "," s4 =>
                            match scan_object fuel' (skip_ws s4) with
                            | Some (kvs, s5) => Some ((key, v) :: kvs, s5)
                            | None => None
                            end
                        | _ => None
                        end
                    | None => None
                    end
                | _ => None
                end
            | None => None
            end
          else None
      | EmptyString => None
      end
  end.

(** [json.loads(s)]: [None] stands for [JSONDecodeError]. *)
Definition loads (s : string) : option pyval :=
  let s0 := skip_ws s in
  match scan_once (2 * String.length s0 + 2) s0 with
  | Some (v, rest) =>
      match skip_ws rest with
      | EmptyString => Some v
      | _ => None
      end
  | None => None
  end.

End Json.

(** ** Run time: exceptions, shared objects, the log of external calls *)

Definition nl : string := String (ascii_of_N 10) EmptyString.

Inductive exn :=
| AssertionError (msg : string)
| TypeError (msg : string)
| AttributeError (name : string)
| KeyError (key : string)
| JSONDecodeError
| DatabaseError (msg : string)
| Unmodelled.

(** [Unmodelled] is no exception of the program: where an engine has to be
    a total function, it is the answer of the model of that engine to a
    request outside the part that is modelled, of which nothing is known
    here. *)

Inductive outcome (A : Type) :=
| Returns (a : A)
| Raises (e : exn).
Arguments Returns {A} a.
Arguments Raises {A} e.

(** A retrieved passage. *)
Record Document := { page_content : string; source_of : string }.

(** The wrapped vector store, an external capability known by its contract:
    for a query and an optional metadata filter it holds an ordered list of
    matching passages, and a search returns the first [k] of them.  A search
    that fails inside the library raises there and is not part of the
    contract. *)
Record VectorStore := { ranked : string -> pyval -> list Document }.

Definition similarity_search (vs : VectorStore) (query : string) (filter : pyval)
    (k : nat) : list Document :=
  firstn k (ranked vs query filter).

(** Calls that leave the tool layer. *)
Inductive event :=
| SimilaritySearch (query : string) (filter : pyval) (k : nat)
| Connect
| Execute (statement : string)
| Close.

Definition loc := positive.

(** What an attribute or a dict entry holds: an immutable value, a reference
    to a shared object, or the handle of a vector store. *)
Inductive value :=
| VPy (v : pyval)
| VRef (l : loc)
| VStore (vs : VectorStore).

Inductive object :=
| ODict (items : gmap string value)
| OClass (attrs : gmap string value)
| OInstance (cls : loc) (attrs : gmap string value).

(** The interpreter's objects, the state [resource] of the external resource
    behind the tool, and the calls made so far. *)
Record state (R : Type) := State {
  heap : gmap loc object;
  resource : R;
  log : list event
}.
Arguments State {R} heap resource log.
Arguments heap {R} s.
Arguments resource {R} s.
Arguments log {R} s.

Section Monad.
Context {R : Type}.

Definition M (A : Type) : Type := state R -> outcome A * state R.

Definition ret {A} (a : A) : M A := fun st => (Returns a, st).

Definition raise {A} (e : exn) : M A := fun st => (Raises e, st).

Definition bind {A B} (c : M A) (k : A -> M B) : M B :=
  fun st =>
    match c st with
    | (Returns a, st') => k a st'
    | (Raises e, st') => (Raises e, st')
    end.

(** [try: c finally: f] *)
Definition finally {A} (c : M A) (f : M unit) : M A :=
  fun st =>
    let '(r, st') := c st in
    match f st' with
    | (Returns _, st'') => (r, st'')
    | (Raises e, st'') => (Raises e, st'')
    end.

Definition emit (e : event) : M unit :=
  fun st => (Returns tt, State (heap st) (resource st) (log st ++ [e])).

Definition alloc (o : object) : M loc :=
  fun st =>
    let l := fresh (dom (heap st)) in
    (Returns l, State (<[l := o]> (heap st)) (resource st) (log st)).

(** Attribute lookup: the instance's own attributes, then its class's. *)
Definition lookup_attr (h : gmap loc object) (self : loc) (name : string) :
  option value :=
  match h !! self with
  | Some (OInstance cls attrs) =>
      match attrs !! name with
      | Some v => Some v
      | None =>
          match h !! cls with
          | Some (OClass cattrs) => cattrs !! name
          | _ => None
          end
      end
  | Some (OClass cattrs) => cattrs !! name
  | _ => None
  end.

(** [self.name] *)
Definition getattr (self : loc) (name : string) : M value :=
  fun st =>
    match lookup_attr (heap st) self name with
    | Some v => (Returns v, st)
    | None => (Raises (AttributeError name), st)
    end.

(** [self.name = v]: always on the instance. *)
Definition setattr (self : loc) (name : string) (v : value) : M unit :=
  fun st =>
    match heap st !! self with
    | Some (OInstance cls attrs) =>
        (Returns tt,
         State (<[self := OInstance cls (<[name := v]> attrs)]> (heap st))
               (resource st) (log st))
    | _ => (Raises (AttributeError name), st)
    end.

(** [d[key]] *)
Definition getitem (d : value) (key : string) : M value :=
  fun st =>
    match d with
    | VRef l =>
        match heap st !! l with
        | Some (ODict items) =>
            match items !! key with
            | Some v => (Returns v, st)
            | None => (Raises (KeyError key), st)
            end
        | _ => (Raises (TypeError "object is not subscriptable"), st)
        end
    | _ => (Raises (TypeError "object is not subscriptable"), st)
    end.

(** [d[key] = v]: in place, seen through every reference to [d]. *)
Definition setitem (d : value) (key : string) (v : value) : M unit :=
  fun st =>
    match d with
    | VRef l =>
        match heap st !! l with
        | Some (ODict items) =>
            (Returns tt,
             State (<[l := ODict (<[key := v]> items)]> (heap st))
                   (resource st) (log st))
        | _ => (Raises (TypeError "object does not support item assignment"), st)
        end
    | _ => (Raises (TypeError "object does not support item assignment"), st)
    end.
End Monad.

Notation "x <- c1 ;; c2" := (bind c1 (fun x => c2))
  (at level 100, c1 at next level, right associativity).
Notation "c1 ;;; c2" := (bind c1 (fun _ => c2))
  (at level 100, right associativity).

(** ** The base class [transformers.agents.Tool]

    The library's, not the notebooks': its constructor takes any arguments
    and sets [is_initialized]. *)
Module Tool.
Definition __init__ {R} (self : loc) : M (R := R) unit :=
  setattr self "is_initialized" (VPy (PyBool false)).
End Tool.

(** ** [RetrieverTool] (agents.ipynb) *)
Module RetrieverTool.
Section WithJson.
Context {R : Type}.
(** [json.loads]; [None] is a [JSONDecodeError]. *)
Variable json_loads : string -> option pyval.

Definition name : string := "retriever".
Definition description : string :=
  "Retrieves some documents from the knowledge base that have the closest embeddings to the input query.".
Definition query_description : string :=
  "The query to perform. This should be semantically close to your target documents. Use the affirmative form rather than a question.".
Definition output_type : string := "text".

(** The class statement: the three dicts of [inputs] and the class object
    that refers to them. *)
Definition class_statement : M (R := R) loc :=
  q <- alloc (ODict (<["type" := VPy (PyStr "text")]>
                      (<["description" := VPy (PyStr query_description)]> ∅))) ;;
  s <- alloc (ODict (<["type" := VPy (PyStr "text")]>
                      (<["description" := VPy (PyStr "")]> ∅))) ;;
  inputs <- alloc (ODict (<["query" := VRef q]> (<["source" := VRef s]> ∅))) ;;
  alloc (OClass (<["name" := VPy (PyStr name)]>
                  (<["description" := VPy (PyStr description)]>
                    (<["inputs" := VRef inputs]>
                      (<["output_type" := VPy (PyStr output_type)]> ∅))))).

Definition source_description (all_sources : pyval) : string :=
  "The source of the documents to search, as a str representation of a list. Possible values in the list are: "
  +:+ py_str all_sources
  +:+ ". If this argument is not provided, all sources will be searched.".

Definition __init__ (self : loc) (vectordb : value) (all_sources : pyval) :
  M (R := R) unit :=
  Tool.__init__ self ;;;
  setattr self "vectordb" vectordb ;;;
  inputs <- getattr self "inputs" ;;
  src <- getitem inputs "source" ;;
  setitem src "description" (VPy (PyStr (source_description all_sources))).

(** [RetrieverTool(vectordb, all_sources)] on the class at [cls]. *)
Definition new (cls : loc) (vectordb : value) (all_sources : pyval) :
  M (R := R) loc :=
  self <- alloc (OInstance cls ∅) ;;
  __init__ self vectordb all_sources ;;;
  ret self.

Definition no_documents : string :=
  "No documents found with this filtering. Try removing the source filter.".
Definition header : string := "Retrieved documents:" +:+ nl +:+ nl.
Definition separator : string := nl +:+ "===Document===" +:+ nl.

(** [self.vectordb.similarity_search(query, filter=filter, k=k)] *)
Definition call_similarity_search (self : loc) (query : string)
    (filter : pyval) (k : nat) : M (R := R) (list Document) :=
  vectordb <- getattr self "vectordb" ;;
  match vectordb with
  | VStore vs =>
      emit (SimilaritySearch query filter k) ;;;
      ret (similarity_search vs query filter k)
  | _ => raise (AttributeError "similarity_search")
  end.

(** The block under [if source:], which rebinds [source]. *)
Definition parse_source (source : pyval) : M (R := R) pyval :=
  if truthy source then
    let source :=
      if isinstance_str source && negb (str_in "[" (py_str source))
      then PyList [source]   (* if the source is not representing a list *)
      else source in
    match json_loads (replace squote dquote (py_str source)) with
    | Some v => ret v
    | None => raise JSONDecodeError
    end
  else ret source.

(** What the method returns for the passages found. *)
Definition render (docs : list Document) : string :=
  if Nat.eqb (length docs) 0 then no_documents
  else header +:+ join separator (List.map page_content docs).

Definition forward (self : loc) (query source : pyval) : M (R := R) string :=
  q <- match query with
       | PyStr q => ret q
       | _ => raise (AssertionError "Your search query must be a string")
       end ;;
  source <- parse_source source ;;
  docs <- call_similarity_search self q
            (if truthy source then PyDict [("source", source)] else PyNone) 3 ;;
  ret (render docs).
End WithJson.
End RetrieverTool.

(** ** The relational engine (SQLAlchemy over in-memory SQLite)

    External to the notebooks.  [SQLExecutorTool] is verified for an arbitrary
    engine (a section variable below); this model serves the receipts
    scenario.  It is a model of a part of the engine and says nothing
    outside it ([None], or [Unmodelled] from [execute]).  The part: tables made of INTEGER, VARCHAR and FLOAT columns
    with a primary key that is not a lone INTEGER column (which would stand
    for the row id), as [create_all] makes the two tables of the notebook;
    inserts of [None], booleans, integers, floats and texts where the stored
    value is beyond doubt; and the statements
    [SELECT * | column, ... FROM table [ORDER BY column [ASC | DESC]] [LIMIT n]]
    over the columns of such a table, when the order of the result does not
    depend on the plan that the engine chooses: the order asked for when no
    two rows tie, and without [ORDER BY] the order of insertion, unless the
    statement reads columns of the primary key only (the engine may then
    scan the index of the key instead of the table). *)

Module Sqlite.

(** A result row, and a stored row: the column values in schema order. *)
Abbreviation row := (list pyval).

Inductive coltype := Integer | VarChar (length : nat) | Float.

Record column := { col_name : string; col_type : coltype }.

Record table := { columns : list column; primary_key : list string; rows : list row }.

Definition database := list (string * table).

Definition names (t : table) : list string := List.map col_name (columns t).

Definition upper (a : ascii) : ascii :=
  let n := N_of_ascii a in
  if ((97 <=? n) && (n <=? 122))%N then ascii_of_N (n - 32) else a.

Fixpoint upper_string (s : string) : string :=
  match s with
  | EmptyString => EmptyString
  | String a s' => String (upper a) (upper_string s')
  end.

(** Names of tables and columns, and keywords, compare without case. *)
Definition same_name (a b : string) : bool :=
  String.eqb (upper_string a) (upper_string b).

Definition flush (cur : string) (acc : list string) : list string :=
  match cur with
  | EmptyString => acc
  | _ => string_rev cur :: acc
  end.

(** Words, with each comma and semicolon a token of its own; [cur] is the
    word being read, reversed, and [acc] the tokens read, reversed. *)
Fixpoint tokens_onto (cur : string) (acc : list string) (s : string) : list string :=
  match s with
  | EmptyString => List.rev (flush cur acc)
  | String a s' =>
      if Json.is_ws a then tokens_onto EmptyString (flush cur acc) s'
      else if Ascii.eqb a "," || Ascii.eqb a ";"
           then tokens_onto EmptyString (String a EmptyString :: flush cur acc) s'
           else tokens_onto (String a cur) acc s'
  end.

Definition tokenize (s : string) : list string := tokens_onto EmptyString [] s.

Record select := {
  sel_columns : option (list string);      (* [None]: the star *)
  sel_table : string;
  sel_order : option (string * bool);      (* column, descending *)
  sel_limit : option Z
}.

Definition is_keyword (k t : string) : bool := String.eqb k (upper_string t).

Definition is_letter (a : ascii) : bool :=
  let n := N_of_ascii (upper a) in ((65 <=? n) && (n <=? 90) || (n =? 95))%N.

Fixpoint all_name_chars (s : string) : bool :=
  match s with
  | EmptyString => true
  | String a s' => (is_letter a || Json.is_digit a) && all_name_chars s'
  end.

(** A bare identifier that is none of the keywords of the form above. *)
Definition is_name (t : string) : bool :=
  match t with
  | EmptyString => false
  | String a _ => is_letter a && all_name_chars t
  end
  && negb (is_keyword "FROM" t || is_keyword "ORDER" t || is_keyword "LIMIT" t
           || is_keyword "SELECT" t || is_keyword "BY" t
           || is_keyword "ASC" t || is_keyword "DESC" t).

(** [column, column, ...] up to [FROM]. *)
Fixpoint parse_columns (ts : list string) : option (list string * list string) :=
  match ts with
  | c :: "," :: ts' =>
      if is_name c then
        match parse_columns ts' with
        | Some (cs, rest) => Some (c :: cs, rest)
        | None => None
        end
      else None
  | c :: f :: ts' =>
      if is_name c && is_keyword "FROM" f then Some ([c], ts') else None
  | _ => None
  end.

Definition all_digits (s : string) : bool :=
  negb (String.eqb s "") && String.eqb (fst (Json.scan_digits s)) s.

Definition parse_limit (ts : list string) : option (option Z) :=
  match ts with
  | [] | [";"] => Some None
  | [l; n] | [l; n; ";"] =>
      if is_keyword "LIMIT" l && all_digits n
      then Some (Some (Json.digits_value 0 n))
      else None
  | _ => None
  end.

Definition parse_order (ts : list string) :
  option (option (string * bool) * list string) :=
  match ts with
  | o :: b :: c :: ts' =>
      if is_keyword "ORDER" o then
        if is_keyword "BY" b && is_name c then
          match ts' with
          | d :: ts'' =>
              if is_keyword "DESC" d then Some (Some (c, true), ts'')
              else if is_keyword "ASC" d then Some (Some (c, false), ts'')
              else Some (Some (c, false), ts')
          | [] => Some (Some (c, false), [])
          end
        else None
      else Some (None, ts)
  | _ => Some (None, ts)
  end.

Definition parse (statement : string) : option select :=
  match tokenize statement with
  | s :: ts =>
      if is_keyword "SELECT" s then
        match
          match ts with
          | "*" :: f :: ts' => if is_keyword "FROM" f then Some (None, ts') else None
          | _ => match parse_columns ts with
                 | Some (cs, rest) => Some (Some cs, rest)
                 | None => None
                 end
          end
        with
        | Some (cols, t :: ts1) =>
            if is_name t then
              match parse_order ts1 with
              | Some (ord, ts2) =>
                  match parse_limit ts2 with
                  | Some lim =>
                      Some {| sel_columns := cols; sel_table := t;
                              sel_order := ord; sel_limit := lim |}
                  | None => None
                  end
              | None => None
              end
            else None
        | _ => None
        end
      else None
  | [] => None
  end.

(** The storage classes in their sort order: NULL, then numbers by value,
    then text by its characters. *)
Definition class_rank (v : pyval) : Z :=
  match v with
  | PyNone => 0
  | PyInt _ | PyFloat _ | PyBool _ => 1
  | _ => 2
  end.

Definition as_decimal (v : pyval) : Z * nat :=
  match v with
  | PyInt n => (n, O)
  | PyBool b => (if b then 1 else 0, O)
  | PyFloat f => (f_mant f, f_scale f)
  | _ => (0, O)
  end.

Definition compare_values (a b : pyval) : comparison :=
  match Z.compare (class_rank a) (class_rank b) with
  | Eq =>
      match a, b with
      | PyStr x, PyStr y => String.compare x y
      | _, _ =>
          let '(ma, sa) := as_decimal a in
          let '(mb, sb) := as_decimal b in
          Z.compare (ma * 10 ^ Z.of_nat sb) (mb * 10 ^ Z.of_nat sa)
      end
  | c => c
  end.

Fixpoint index_of (c : string) (cols : list string) : option nat :=
  match cols with
  | [] => None
  | c' :: cols' =>
      if same_name c c' then Some O
      else match index_of c cols' with
           | Some i => Some (S i)
           | None => None
           end
  end.

Definition cell (i : nat) (r : row) : pyval := nth i r PyNone.

(** The values of the primary key of a stored row. *)
Definition key_of (t : table) (r : row) : list pyval :=
  List.map (fun c =>
              match index_of c (names t) with
              | Some i => cell i r
              | None => PyNone
              end) (primary_key t).

Fixpoint compare_keys (a b : list pyval) : comparison :=
  match a, b with
  | x :: a', y :: b' =>
      match compare_values x y with
      | Eq => compare_keys a' b'
      | c => c
      end
  | [], [] => Eq
  | [], _ :: _ => Lt
  | _ :: _, [] => Gt
  end.

(** [le_on i desc a b]: row [a] may stand before row [b]. *)
Definition le_on (i : nat) (desc : bool) (a b : row) : bool :=
  match compare_values (cell i a) (cell i b) with
  | Lt => negb desc
  | Eq => true
  | Gt => desc
  end.

Fixpoint insert_sorted (le : row -> row -> bool) (x : row) (l : list row) : list row :=
  match l with
  | [] => [x]
  | y :: l' => if le x y then x :: l else y :: insert_sorted le x l'
  end.

Definition sort_rows (le : row -> row -> bool) (l : list row) : list row :=
  fold_right (insert_sorted le) [] l.

(** Two neighbours of a sorted list that compare equal on column [i]. *)
Fixpoint ties (i : nat) (l : list row) : bool :=
  match l with
  | a :: ((b :: _) as l') =>
      match compare_values (cell i a) (cell i b) with
      | Eq => true
      | _ => ties i l'
      end
  | _ => false
  end.

Fixpoint find_table (name : string) (db : database) : option table :=
  match db with
  | [] => None
  | (n, t) :: db' => if same_name name n then Some t else find_table name db'
  end.

Fixpoint indexes_of (cs cols : list string) : option (list nat) :=
  match cs with
  | [] => Some []
  | c :: cs' =>
      match index_of c cols, indexes_of cs' cols with
      | Some i, Some is' => Some (i :: is')
      | _, _ => None
      end
  end.

Definition is_integer (ty : coltype) : bool :=
  match ty with Integer => true | _ => false end.

(** The tables of the model: a primary key made of columns of the table,
    other than a lone INTEGER column. *)
Definition keyed (t : table) : bool :=
  match primary_key t with
  | [] => false
  | [c] =>
      existsb (fun col => same_name c (col_name col) && negb (is_integer (col_type col)))
        (columns t)
  | cs => forallb (fun c => existsb (same_name c) (names t)) cs
  end.

(** Whether the primary-key index holds every column that is read. *)
Definition covered (t : table) (read : list nat) : bool :=
  forallb (fun i => existsb (fun c => match index_of c (names t) with
                                      | Some j => Nat.eqb i j
                                      | None => false
                                      end) (primary_key t)) read.

Definition run_select (db : database) (q : select) : option (list row) :=
  match find_table (sel_table q) db with
  | None => None
  | Some t =>
      match
        match sel_columns q with
        | None => Some None
        | Some cs => option_map Some (indexes_of cs (names t))
        end,
        match sel_order q with
        | None => Some None
        | Some (c, desc) => option_map (fun i => Some (i, desc)) (index_of c (names t))
        end
      with
      | Some proj, Some ord =>
          match
            match ord with
            | None =>
                let read :=
                  match proj with
                  | None => seq 0 (length (columns t))
                  | Some idx => idx
                  end in
                if covered t read then None else Some (rows t)
            | Some (i, desc) =>
                let sorted := sort_rows (le_on i desc) (rows t) in
                if ties i sorted then None else Some sorted
            end
          with
          | Some ordered =>
              let limited :=
                match sel_limit q with
                | None => ordered
                | Some n => firstn (Z.to_nat (Z.min n (Z.of_nat (length ordered)))) ordered
                end in
              if keyed t
                 && match sel_limit q with Some n => n <? 2 ^ 63 | None => true end
              then Some
                     match proj with
                     | None => limited
                     | Some idx => List.map (fun r => List.map (fun i => cell i r) idx) limited
                     end
              else None
          | None => None
          end
      | _, _ => None
      end
  end.

(** The rows that a statement of the model answers; [None] where the model
    does not say. *)
Definition answer (db : database) (statement : string) : option (list row) :=
  match parse statement with
  | Some q => run_select db q
  | None => None
  end.

(** [con.execute(text(statement))] followed by the fetch of every row; the
    statements of the model leave the database as it is. *)
Definition execute (db : database) (statement : string) : outcome (list row) * database :=
  match answer db statement with
  | Some result => (Returns result, db)
  | None => (Raises Unmodelled, db)
  end.

(** *** Inserts *)

Definition int64 (n : Z) : bool := (- 2 ^ 63 <=? n) && (n <? 2 ^ 63).

(** Integers that a float holds exactly, and the floats of the model. *)
Definition exact (n : Z) : bool := Z.abs n <? 10 ^ 15.

Definition float_ok (f : pyfloat) : bool := exact (f_mant f) && Nat.leb (f_scale f) 300.

(** The integer that a float is, if it is one. *)
Definition integral (f : pyfloat) : option Z :=
  let p := 10 ^ Z.of_nat (f_scale f) in
  if f_mant f mod p =? 0 then Some (f_mant f / p) else None.

(** The value that a column of type [ty] stores for [v], by the driver's
    adaptation and the affinity of the column; [None] where the model does
    not say. *)
Definition adapt (ty : coltype) (v : pyval) : option pyval :=
  match ty, v with
  | _, PyNone => Some PyNone
  | Integer, PyBool b => Some (PyInt (if b then 1 else 0))
  | Integer, PyInt n => if int64 n then Some (PyInt n) else None
  | Integer, PyFloat f =>
      if float_ok f then option_map PyInt (integral f) else None
  | Float, PyBool b => Some (PyFloat {| f_mant := if b then 1 else 0; f_scale := 0 |})
  | Float, PyInt n => if exact n then Some (PyFloat {| f_mant := n; f_scale := 0 |}) else None
  | Float, PyFloat f => if float_ok f then Some (PyFloat f) else None
  | VarChar _, PyStr s => Some (PyStr s)
  | _, _ => None
  end.

(** [values[c]] of the keyword arguments, [None] for a column not given. *)
Definition given (c : string) (values : list (string * pyval)) : pyval :=
  match List.find (fun kv => String.eqb c (fst kv)) values with
  | Some kv => snd kv
  | None => PyNone
  end.

Fixpoint adapt_all (cols : list column) (values : list (string * pyval)) : option row :=
  match cols with
  | [] => Some []
  | c :: cols' =>
      match adapt (col_type c) (given (col_name c) values), adapt_all cols' values with
      | Some v, Some r => Some (v :: r)
      | _, _ => None
      end
  end.

(** The row that [insert(table).values(...)] stores, in schema order, when
    every keyword is a column of the table; [None] where the model does not
    say. *)
Definition values_row (cols : list column) (values : list (string * pyval)) :
  option row :=
  if forallb (fun kv => existsb (fun c => String.eqb (fst kv) (col_name c)) cols) values
  then adapt_all cols values
  else None.

Definition is_none (v : pyval) : bool :=
  match v with PyNone => true | _ => false end.

Definition same_key (a b : list pyval) : bool :=
  match compare_keys a b with Eq => true | _ => false end.

(** An [insert] of the table with the given [values], run in a transaction
    of its own: the row goes after the rows present, unless a column of the
    primary key is NULL or the key is taken, which the engine refuses with
    an [IntegrityError] that leaves the table as it was; [None] where the
    model does not say. *)
Definition insert_values (t : table) (values : list (string * pyval)) :
  option (outcome table) :=
  if keyed t then
    match values_row (columns t) values with
    | Some r =>
        Some (if existsb is_none (key_of t r)
                 || existsb (fun r' => same_key (key_of t r') (key_of t r)) (rows t)
              then Raises (DatabaseError "IntegrityError")
              else Returns {| columns := columns t; primary_key := primary_key t;
                              rows := rows t ++ [r] |})
    | None => None
    end
  else None.

End Sqlite.

(** ** [SQLExecutorTool] (enterprise_cookbook_argilla.ipynb) *)
Module SQLExecutorTool.

(** [str(row)] of a result row: the text of the tuple of its values, where
    the library shortens a value whose [repr] exceeds 300 characters (lengths
    and positions count characters). *)
Definition trunc (v : pyval) : string :=
  let rep := py_repr v in
  let lenrep := String.length rep in
  if Nat.ltb 300 lenrep
  then substring 0 150 rep
       +:+ " ... (" +:+ nat_digits (N.of_nat (lenrep - 300)) +:+ " characters truncated) ... "
       +:+ substring (lenrep - 150) 150 rep
  else rep.

Definition str_row (r : list pyval) : string :=
  "(" +:+ join ", " (List.map trunc r)
  +:+ (if Nat.eqb (length r) 1 then "," else "") +:+ ")".

Section WithEngine.
(** The database behind the module-level [engine], and what executing a
    statement and fetching its rows answers and leaves behind. *)
Context {D : Type}.
Variable execute : D -> string -> outcome (list (list pyval)) * D.

Definition name : string := "sql_engine".
Definition output_type : string := "text".

(** [engine.connect()] *)
Definition connect : M (R := D) unit := emit Connect.

(** [text(query)]: the library builds the clause with a regular-expression
    substitution over [query], which only a string admits. *)
Definition text (query : pyval) : M (R := D) string :=
  match query with
  | PyStr q => ret q
  | _ => raise (TypeError "expected string or bytes-like object")
  end.

(** [con.execute(clause)] and the rows that iterating the result yields. *)
Definition con_execute (clause : string) : M (R := D) (list (list pyval)) :=
  fun st =>
    let '(r, d) := execute (resource st) clause in
    (r, State (heap st) d (log st ++ [Execute clause])).

Definition forward (query : pyval) : M (R := D) string :=
  let output := EmptyString in
  connect ;;;
  finally
    (clause <- text query ;;
     rows <- con_execute clause ;;
     ret (fold_left (fun output row => output +:+ (nl +:+ str_row row)) rows output))
    (emit Close).
End WithEngine.
End SQLExecutorTool.

(** ** The receipts table of the notebook *)
Module Receipts.

Definition dec (m : Z) (scale : nat) : pyval := PyFloat {| f_mant := m; f_scale := scale |}.

(** [metadata_obj.create_all(engine)] *)
Definition receipts : Sqlite.table :=
  {| Sqlite.columns :=
       [ {| Sqlite.col_name := "receipt_id"; Sqlite.col_type := Sqlite.Integer |};
         {| Sqlite.col_name := "customer_name"; Sqlite.col_type := Sqlite.VarChar 16 |};
         {| Sqlite.col_name := "price"; Sqlite.col_type := Sqlite.Float |};
         {| Sqlite.col_name := "tip"; Sqlite.col_type := Sqlite.Float |} ];
     Sqlite.primary_key := ["receipt_id"; "customer_name"];
     Sqlite.rows := [] |}.

Definition rows : list (list (string * pyval)) :=
  [ [("receipt_id", PyInt 1); ("customer_name", PyStr "Alan Payne");
     ("price", dec 1206 2); ("tip", dec 120 2)];
    [("receipt_id", PyInt 2); ("customer_name", PyStr "Alex Mason");
     ("price", dec 2386 2); ("tip", dec 24 2)];
    [("receipt_id", PyInt 3); ("customer_name", PyStr "Woodrow Wilson");
     ("price", dec 5343 2); ("tip", dec 543 2)];
    [("receipt_id", PyInt 4); ("customer_name", PyStr "Margaret James");
     ("price", dec 2111 2); ("tip", dec 100 2)] ].

(** [for row in rows: ... connection.execute(insert(receipts).values(...))];
    [None] when an insert does not store its row. *)
Fixpoint insert_all (t : Sqlite.table) (rs : list (list (string * pyval))) :
  option Sqlite.table :=
  match rs with
  | [] => Some t
  | r :: rs' =>
      match Sqlite.insert_values t r with
      | Some (Returns t') => insert_all t' rs'
      | _ => None
      end
  end.

(** The database once [rs] are inserted in that order. *)
Definition seeded (rs : list (list (string * pyval))) : option Sqlite.database :=
  option_map (fun t => [("receipts", t)]) (insert_all receipts rs).

Definition most_expensive : string :=
  "SELECT customer_name, price FROM receipts ORDER BY price DESC LIMIT 1".

Definition everything : string := "SELECT * from receipts".

(** The tool on a database in state [db], nothing logged yet. *)
Definition sql_engine (db : Sqlite.database) (query : pyval) :
  outcome string * state Sqlite.database :=
  SQLExecutorTool.forward Sqlite.execute query (State ∅ db []).

End Receipts.

(** ** A knowledge base for the concrete scenarios *)
Module Scenario.

Definition passages : list Document :=
  [ {| page_content := "Pipelines group a model with its preprocessing.";
       source_of := "transformers" |};
    {| page_content := "Datasets are memory-mapped Arrow tables.";
       source_of := "datasets" |};
    {| page_content := "A tokenizer turns text into input ids.";
       source_of := "transformers" |};
    {| page_content := "Trainer wraps the training loop.";
       source_of := "transformers" |};
    {| page_content := "Spaces host demos.";
       source_of := "hub-docs" |} ].

Definition names_of (v : pyval) : list string :=
  match v with
  | PyList xs =>
      flat_map (fun x => match x with PyStr s => [s] | _ => [] end) xs
  | _ => []
  end.

(** A store that ranks its passages in the order above, whatever the query,
    and keeps those whose source is one of the filter's. *)
Definition vectordb : VectorStore :=
  {| ranked := fun _ filter =>
       match filter with
       | PyNone => passages
       | PyDict [(_, wanted)] =>
           List.filter
             (fun d => existsb (String.eqb (source_of d)) (names_of wanted))
             passages
       | _ => []
       end |}.

Definition all_sources : pyval :=
  PyList [PyStr "transformers"; PyStr "datasets"; PyStr "hub-docs"].

(** The class statement, then [RetrieverTool(vectordb, all_sources)]. *)
Definition setup : outcome loc * state unit :=
  (cls <- RetrieverTool.class_statement ;;
   RetrieverTool.new cls (VStore vectordb) all_sources) (State ∅ tt []).

Definition tool : loc :=
  match fst setup with
  | Returns t => t
  | Raises _ => 1%positive
  end.

Definition session : state unit := snd setup.

Definition retriever (query source : pyval) : outcome string * state unit :=
  RetrieverTool.forward Json.loads tool query source session.

(** The same tool built on another store. *)
Definition retriever_on (vs : VectorStore) (query source : pyval) :
  outcome string * state unit :=
  RetrieverTool.forward Json.loads tool query source
    (snd ((cls <- RetrieverTool.class_statement ;;
           RetrieverTool.new cls (VStore vs) all_sources) (State ∅ tt []))).

(** A store with one passage, which quotes the marker of the tool, and a
    store with the two halves of that passage. *)
Definition quoting : VectorStore :=
  {| ranked := fun _ _ =>
       [ {| page_content := "Chunk one." +:+ nl +:+ "===Document===" +:+ nl +:+ "Chunk two.";
            source_of := "blog" |} ] |}.

Definition halves : VectorStore :=
  {| ranked := fun _ _ =>
       [ {| page_content := "Chunk one."; source_of := "blog" |};
         {| page_content := "Chunk two."; source_of := "blog" |} ] |}.

End Scenario.

(** ** More of Python's strings *)
Module Str.

(** [s.split(sep)] for a one-character [sep]: the pieces between the
    separators, empty ones included; never an empty list. *)
Fixpoint split (sep : ascii) (s : string) : list string :=
  match s with
  | EmptyString => [EmptyString]
  | String a s' =>
      if Ascii.eqb a sep then EmptyString :: split sep s'
      else match split sep s' with
           | piece :: pieces => String a piece :: pieces
           | [] => [String a EmptyString]
           end
  end.

(** [s.split(sep)] for a non-empty text [sep]: the pieces between the
    occurrences of [sep], found from the left; [skip] counts the characters
    still to pass of the occurrence just found. *)
Fixpoint split_at (sep : string) (skip : nat) (s : string) : list string :=
  match s with
  | EmptyString => [EmptyString]
  | String a s' =>
      match skip with
      | S skip' => split_at sep skip' s'
      | O =>
          if String.prefix sep s
          then EmptyString :: split_at sep (String.length sep - 1) s'
          else match split_at sep O s' with
               | piece :: pieces => String a piece :: pieces
               | [] => [String a EmptyString]
               end
      end
  end.

Definition split_on (sep s : string) : list string := split_at sep 0 s.

(** [s.endswith(suffix)] *)
Fixpoint endswith (s suffix : string) : bool :=
  String.eqb s suffix
  || match s with
     | EmptyString => false
     | String _ s' => endswith s' suffix
     end.

(** [s.startswith(prefix)] *)
Definition startswith (s prefix : string) : bool := String.prefix prefix s.

End Str.

(** ** The knowledge base of the retrieval notebook (agents.ipynb) *)
Module KnowledgeBase.

(** A row of the documentation dataset, with its two columns. *)
Record row := { text : string; source : string }.

(** [doc["source"].split("/")[1]]; [None] is the [IndexError] of a list with
    one element. *)
Definition second_component (source : string) : option string :=
  nth_error (Str.split "/" source) 1.

(** The comprehension that builds [source_docs]: it raises at the first row
    whose source has no second component. *)
Fixpoint source_docs (knowledge_base : list row) : option (list Document) :=
  match knowledge_base with
  | [] => Some []
  | doc :: rest =>
      match second_component (source doc) with
      | None => None
      | Some name =>
          match source_docs rest with
          | None => None
          | Some docs => Some ({| page_content := text doc; source_of := name |} :: docs)
          end
      end
  end.

(** [list(set([doc.metadata["source"] for doc in docs_processed]))]: the
    sources without repetition, in an order that the set decides. *)
Definition all_sources_of (docs : list Document) (sources : list string) : Prop :=
  NoDup sources /\ forall x, In x sources <-> In x (List.map source_of docs).

End KnowledgeBase.

(** ** The rest of the text-to-SQL notebook *)
Module SqlNotebook.

(** [f"  - {name}: {col_type}"], the type in the text the inspector's type
    object prints as. *)
Definition column_line (col : string * string) : string :=
  "  - " +:+ fst col +:+ ": " +:+ snd col.

(** [table_description], from the [(name, type)] pairs of
    [inspector.get_columns]. *)
Definition table_description (columns_info : list (string * string)) : string :=
  "Columns:" +:+ nl +:+ join nl (List.map column_line columns_info).

(** The class attribute [description] of [SQLExecutorTool]. *)
Definition description (table_description : string) : string :=
  "Allows you to perform SQL queries on the table. Returns a string representation of the result."
  +:+ nl +:+ "The table is named 'receipts'. Its description is as follows: "
  +:+ nl +:+ table_description.

Definition query_description : string :=
  "The query to perform. This should be correct SQL.".

(** The class statement of [SQLExecutorTool]: the two dicts of [inputs] and
    the class object. *)
Definition class_statement {R : Type} (table_description : string) : M (R := R) loc :=
  q <- alloc (ODict (<["type" := VPy (PyStr "text")]>
                      (<["description" := VPy (PyStr query_description)]> ∅))) ;;
  inputs <- alloc (ODict (<["query" := VRef q]> ∅)) ;;
  alloc (OClass (<["name" := VPy (PyStr SQLExecutorTool.name)]>
                  (<["description" := VPy (PyStr (description table_description))]>
                    (<["inputs" := VRef inputs]>
                      (<["output_type" := VPy (PyStr SQLExecutorTool.output_type)]> ∅))))).

(** [SQLExecutorTool()]: the class has no constructor of its own. *)
Definition new {R : Type} (cls : loc) : M (R := R) loc :=
  self <- alloc (OInstance cls ∅) ;;
  Tool.__init__ self ;;;
  ret self.

Definition updated_header : string :=
  "Allows you to perform SQL queries on the table. Beware that this tool's output is a string representation of the execution output."
  +:+ nl +:+ "It can use the following tables:".

(** The [table_description] of one round of the loop over the tables. *)
Definition table_block (get_columns : string -> list (string * string))
    (table : string) : string :=
  ("Table '" +:+ table +:+ "':" +:+ nl) +:+ table_description (get_columns table).

(** [updated_description] once the loop has run over [tables]. *)
Definition updated_description (get_columns : string -> list (string * string))
    (tables : list string) : string :=
  fold_left
    (fun updated table => updated +:+ ((nl +:+ nl) +:+ table_block get_columns table))
    tables updated_header.

(** [sql_tool = SQLExecutorTool()] followed by
    [sql_tool.description = updated_description]. *)
Definition updated_tool {R : Type} (cls : loc) (updated : string) : M (R := R) loc :=
  sql_tool <- new cls ;;
  setattr sql_tool "description" (VPy (PyStr updated)) ;;;
  ret sql_tool.

(** The seeding loop: each row is inserted in a transaction of its own, so a
    failing insert ends the loop with the earlier rows committed; [None]
    where the model of the engine does not say what an insert does. *)
Fixpoint insert_rows (t : Sqlite.table) (rows : list (list (string * pyval))) :
  option (outcome unit * Sqlite.table) :=
  match rows with
  | [] => Some (Returns tt, t)
  | row :: rows' =>
      match Sqlite.insert_values t row with
      | Some (Returns t') => insert_rows t' rows'
      | Some (Raises e) => Some (Raises e, t)
      | None => None
      end
  end.

(** The cell that prints the table: what [print(row)] for each row leaves
    on the standard output. *)
Definition printed (rows : list (list pyval)) : string :=
  fold_left (fun out row => out +:+ (SQLExecutorTool.str_row row +:+ nl)) rows EmptyString.

Definition select_all : string := "SELECT * from receipts".

Definition print_cell {D : Type}
    (execute : D -> string -> outcome (list (list pyval)) * D) : M (R := D) string :=
  SQLExecutorTool.connect ;;;
  finally
    (clause <- SQLExecutorTool.text (PyStr select_all) ;;
     rows <- SQLExecutorTool.con_execute execute clause ;;
     ret (printed rows))
    (emit Close).

End SqlNotebook.

(** ** The generation cells of the annotation notebook
       (enterprise_cookbook_argilla.ipynb) *)
Module Generation.

(** The exceptions of [output[0]["generated_text"]] and of a name that no
    cell has bound. *)
Inductive error :=
| IndexError
| KeyError (key : pyval)
| TypeError
| NameError (name : string).

(** [format_prompt]: the one user message, rendered by the tokenizer's chat
    template (the library's, with the flags of the cell). *)
Definition format_prompt (prompt : string) (tokenizer : pyval -> string) : string :=
  let messages := PyList [PyDict [("role", PyStr "user"); ("content", PyStr prompt)]] in
  let messages_tokenized := tokenizer messages in
  messages_tokenized.

Definition generation_params : list (string * pyval) :=
  [ ("temperature", PyFloat {| f_mant := 2; f_scale := 1 |});
    ("top_p", PyFloat {| f_mant := 60; f_scale := 2 |});
    ("top_k", PyNone);
    ("repetition_penalty", PyFloat {| f_mant := 10; f_scale := 1 |});
    ("do_sample", PyBool true);
    ("max_new_tokens", PyInt (512 * 2));
    ("return_full_text", PyBool false);
    ("seed", PyInt 42);
    ("max_time", PyNone);
    ("stream", PyBool false);
    ("use_cache", PyBool false);
    ("wait_for_model", PyBool false) ].

(** [{"inputs": prompt, "parameters": {**generation_params}}] *)
Definition payload (prompt : string) : pyval :=
  PyDict [("inputs", PyStr prompt); ("parameters", PyDict generation_params)].

Definition api_url (model : string) : string :=
  "https://api-inference.huggingface.co/models/" +:+ model.

(** [output[0]] on what [response.json()] gave. *)
Definition first_item (output : pyval) : error + pyval :=
  match output with
  | PyList (x :: _) | PyTuple (x :: _) => inr x
  | PyList [] | PyTuple [] => inl IndexError
  | PyStr (String a _) => inr (PyStr (String a EmptyString))
  | PyStr EmptyString => inl IndexError
  | PyDict _ => inl (KeyError (PyInt 0))
  | _ => inl TypeError
  end.

(** [item["generated_text"]] *)
Definition generated_text (item : pyval) : error + pyval :=
  match item with
  | PyDict kvs =>
      match List.find (fun kv => String.eqb (fst kv) "generated_text") kvs with
      | Some kv => inr (snd kv)
      | None => inl (KeyError (PyStr "generated_text"))
      end
  | _ => inl TypeError
  end.

Section WithService.
(** The tokenizers of the Hub, and the inference API: what a POST of a
    payload to a URL answers, decoded by [response.json()], and the service
    afterwards. Every request is taken to be answered with JSON. *)
Context {W : Type}.
Variable from_pretrained : string -> pyval -> string.
Variable post : W -> string -> pyval -> pyval * W.

(** What the formatting cell leaves bound. *)
Record formatted := {
  prompts_formatted_dic : gmap string (list string);
  prompt_formatted : option (list string)
}.

(** The formatting loop over the models, from the bindings [acc]. *)
Fixpoint format_loop (models : list string) (instructions_lst : list string)
    (acc : formatted) : formatted :=
  match models with
  | [] => acc
  | model :: models' =>
      let tokenizer := from_pretrained model in
      let prompt_formatted :=
        List.map (fun instruction => format_prompt instruction tokenizer) instructions_lst in
      format_loop models' instructions_lst
        {| prompts_formatted_dic := <[model := prompt_formatted]> (prompts_formatted_dic acc);
           prompt_formatted := Some prompt_formatted |}
  end.

(** The loop of the formatting cell, from the empty dict (the prints that
    follow it are not part of the model). *)
Definition format_cell (models instructions_lst : list string) : formatted :=
  format_loop models instructions_lst
    {| prompts_formatted_dic := ∅; prompt_formatted := None |}.

(** The service and the requests sent to it so far. *)
Record session := { world : W; sent : list (string * pyval) }.

(** [query(payload, api_url)] *)
Definition query (payload : pyval) (api_url : string) (s : session) : pyval * session :=
  let '(response, w) := post (world s) api_url payload in
  (response, {| world := w; sent := sent s ++ [(api_url, payload)] |}).

(** The inner loop over the prompts, [output_lst] as built so far. *)
Fixpoint generate (api_url : string) (prompts : list string) (output_lst : list pyval)
    (s : session) : (error + list pyval) * session :=
  match prompts with
  | [] => (inr output_lst, s)
  | prompt :: prompts' =>
      let '(output, s') := query (payload prompt) api_url s in
      match first_item output with
      | inl e => (inl e, s')
      | inr item =>
          match generated_text item with
          | inl e => (inl e, s')
          | inr text => generate api_url prompts' (output_lst ++ [text]) s'
          end
      end
  end.

(** What the generation cell leaves: the exception that ended it, if any,
    [output_dic] and the session. *)
Record generated := {
  raised : option error;
  output_dic : gmap string (list pyval);
  after : session
}.

(** The outer loop: it reads [prompt_formatted], whatever the model. *)
Fixpoint generation_loop (models : list string) (prompt_formatted : option (list string))
    (output_dic : gmap string (list pyval)) (s : session) : generated :=
  match models with
  | [] => {| raised := None; output_dic := output_dic; after := s |}
  | model :: models' =>
      match prompt_formatted with
      | None =>
          {| raised := Some (NameError "prompt_formatted");
             output_dic := output_dic; after := s |}
      | Some prompts =>
          match generate (api_url model) prompts [] s with
          | (inl e, s') => {| raised := Some e; output_dic := output_dic; after := s' |}
          | (inr output_lst, s') =>
              generation_loop models' prompt_formatted
                (<[model := output_lst]> output_dic) s'
          end
      end
  end.

(** The loop of the generation cell, from the empty [output_dic] and the
    bindings the formatting cell left (again without the prints). *)
Definition generation_cell (models : list string) (bound : formatted) (s : session) :
  generated :=
  generation_loop models (prompt_formatted bound) ∅ s.

End WithService.
End Generation.

(** The cell that builds the dataset: the three columns of
    [Dataset.from_dict], evaluated in the order of the dict display. *)
Definition dataset_columns (models : list string) (instructions_lst : list string)
    (output_dic : gmap string (list pyval)) :
  Generation.error + (list string * list pyval * list pyval) :=
  match nth_error models 0 with
  | None => inl Generation.IndexError
  | Some model_1 =>
      match output_dic !! model_1 with
      | None => inl (Generation.KeyError (PyStr model_1))
      | Some response_model_1 =>
          match nth_error models 1 with
          | None => inl Generation.IndexError
          | Some model_2 =>
              match output_dic !! model_2 with
              | None => inl (Generation.KeyError (PyStr model_2))
              | Some response_model_2 =>
                  inr (instructions_lst, response_model_1, response_model_2)
              end
          end
      end
  end.

(** Two services for the examples: one that answers every prompt, and one
    that answers an error object for the models of a given name. *)
Module Services.
Definition models_to_compare : list string :=
  ["mistralai/Mixtral-8x7B-Instruct-v0.1"; "meta-llama/Meta-Llama-3-70B-Instruct"].

Definition answering (w : nat) (url : string) (payload : pyval) : pyval * nat :=
  (PyList [PyDict [("generated_text", PyStr ("answer " +:+ nat_digits (N.of_nat w)))]], S w).

Definition failing_for (model : string) (w : nat) (url : string) (payload : pyval) :
  pyval * nat :=
  if String.eqb url (Generation.api_url model)
  then (PyDict [("error", PyStr "Model is currently loading")], S w)
  else answering w url payload.

(** A chat template that differs from model to model. *)
Definition template (model : string) (messages : pyval) : string :=
  "<" +:+ model +:+ ">" +:+ py_str messages.
End Services.

(** ** The endpoint URLs of the messages API notebook
       (tgi_messages_api_demo.ipynb) *)
Module Posixpath.

(** [os.path.join(a, b)] of the POSIX flavour, for two components. *)
Definition join (a b : string) : string :=
  let sep := "/" in
  let path := a in
  if Str.startswith b sep then b
  else if (String.eqb path "" || Str.endswith path sep)%bool then path +:+ b
  else path +:+ (sep +:+ b).

End Posixpath.

Module Tgi.

(** [base_url] of the OpenAI client and [openai_api_base] of the LangChain
    model. *)
Definition base_url (BASE_URL : string) : string := Posixpath.join BASE_URL "v1/".

(** [api_base] of the LlamaIndex model. *)
Definition api_base (BASE_URL : string) : string := BASE_URL +:+ "/v1/".

End Tgi.

(** ** The workflow that checks the names of the notebooks
       (.github/workflows) *)
Module Workflow.

(** File names are byte strings, and so are the texts of the pipeline. *)

(** What [find .] visits under [notebooks/]: the components of a path below
    the directory, and whether it is a regular file. *)
Record entry := { components : list string; regular : bool }.

(** [basename {}] *)
Definition basename (e : entry) : string := List.last (components e) EmptyString.

(** [-name '*.ipynb']: the pattern is matched against the base name, the
    star taking any bytes, a leading dot included. *)
Definition name_matches (e : entry) : bool := Str.endswith (basename e) ".ipynb".

(** The standard output of [find . -type f -name '*.ipynb' -exec basename {} \;]:
    each base name followed by a newline. *)
Fixpoint find (entries : list entry) : string :=
  match entries with
  | [] => EmptyString
  | e :: entries' =>
      if (regular e && name_matches e)%bool then (basename e +:+ nl) +:+ find entries'
      else find entries'
  end.

(** The lines that a filter reads: the pieces between the newlines, the
    empty piece after a final newline (or of an empty input) left out. *)
Fixpoint lines (input : string) : list string :=
  match input with
  | EmptyString => []
  | String a s' =>
      if Ascii.eqb a (ascii_of_N 10) then EmptyString :: lines s'
      else match lines s' with
           | line :: rest => String a line :: rest
           | [] => [String a EmptyString]
           end
  end.

(** The bracket expression [[A-Z]] of the C and C.UTF-8 locales: the
    letters A to Z. *)
Definition is_upper (c : ascii) : bool :=
  (N.leb 65 (N_of_ascii c) && N.leb (N_of_ascii c) 90)%bool.

Fixpoint has_upper (s : string) : bool :=
  match s with
  | EmptyString => false
  | String a s' => is_upper a || has_upper s'
  end.

Section WithLocale.
(** Whether a line is text in the locale of the runner: every line in the
    C locale, the lines that are valid UTF-8 in C.UTF-8. *)
Variable valid : string -> bool.

(** [grep '[A-Z]'] (GNU grep from 3.5 on): the selected lines, each followed
    by a newline; a selected line that is not text is withheld, with a
    message on the standard error only. *)
Definition grep (input : string) : string :=
  String.concat EmptyString
    (List.map (fun line => line +:+ nl)
       (List.filter (fun line => has_upper line && valid line) (lines input))).

(** [$(...)]: the output without its trailing newlines. *)
Fixpoint command_substitution (output : string) : string :=
  match output with
  | EmptyString => EmptyString
  | String a s' =>
      let rest := command_substitution s' in
      if (Ascii.eqb a (ascii_of_N 10) && String.eqb rest EmptyString)%bool then EmptyString
      else String a rest
  end.

(** [files=$(find ... | grep '[A-Z]' || true)] *)
Definition files (entries : list entry) : string :=
  command_substitution (grep (find entries)).

(** The step: what it prints and its exit status. *)
Definition check (entries : list entry) : string * nat :=
  let files := files entries in
  if negb (String.eqb files EmptyString)
  then (("The following files are not lowercase:" +:+ nl) +:+ (files +:+ nl), 1%nat)
  else ("All filenames are lowercase." +:+ nl, 0%nat).
End WithLocale.

End Workflow.

(** ** Vocabulary of the further properties *)

Definition newline : ascii := ascii_of_N 10.

(** The values a cell of a result row holds: NULL, an integer, a real or a
    text. *)
Definition scalar (v : pyval) : bool :=
  match v with
  | PyNone | PyInt _ | PyFloat _ | PyStr _ => true
  | _ => false
  end.


(** The lines that one table adds to the description. *)
Definition table_lines (get_columns : string -> list (string * string)) (table : string) :
  list string :=
  [""; "Table '" +:+ table +:+ "':"; "Columns:"]
  ++ match get_columns table with
     | [] => [""]
     | columns_info => List.map SqlNotebook.column_line columns_info
     end.


(** The columns that the inspector reports for the two tables of the
    notebook. *)
Definition notebook_columns (table : string) : list (string * string) :=
  if String.eqb table "receipts"
  then [("receipt_id", "INTEGER"); ("customer_name", "VARCHAR(16)");
        ("price", "FLOAT"); ("tip", "FLOAT")]
  else if String.eqb table "waiters"
  then [("receipt_id", "INTEGER"); ("waiter_name", "VARCHAR(16)")]
  else [].

(** Entries for the examples: a notebook with a capital, the same below a
    directory with a capital and itself in small letters, one with its
    extension in capitals, and a directory named like a notebook. *)
Definition capital_notebook : Workflow.entry :=
  {| Workflow.components := ["en"; "Agents.ipynb"]; Workflow.regular := true |}.
Definition capital_directory : Workflow.entry :=
  {| Workflow.components := ["EN"; "agents.ipynb"]; Workflow.regular := true |}.
Definition capital_extension : Workflow.entry :=
  {| Workflow.components := ["en"; "AGENTS.IPYNB"]; Workflow.regular := true |}.
Definition notebook_directory : Workflow.entry :=
  {| Workflow.components := ["Drafts.ipynb"]; Workflow.regular := false |}.

(** The lines that [grep] writes: those with a capital that are text. *)
Definition selected (valid : string -> bool) (line : string) : bool :=
  Workflow.has_upper line && valid line.

(** The C locale: every line is text. *)
Definition c_locale (line : string) : bool := true.

(** The entries whose base name the workflow looks at. *)
Definition examined (e : Workflow.entry) : bool :=
  Workflow.regular e && Workflow.name_matches e.

(** * Vocabulary of the properties *)

(** One line per row: a newline, then the text of the row. *)
Fixpoint row_lines (rows : list (list pyval)) : string :=
  match rows with
  | [] => EmptyString
  | r :: rows' => nl +:+ SQLExecutorTool.str_row r +:+ row_lines rows'
  end.

(** The rows that the inserts of [rs] store, one for each; [None] where the
    model of the engine does not say. *)
Fixpoint stored_rows (cols : list Sqlite.column) (rs : list (list (string * pyval))) :
  option (list Sqlite.row) :=
  match rs with
  | [] => Some []
  | r :: rs' =>
      match Sqlite.values_row cols r, stored_rows cols rs' with
      | Some s, Some ss => Some (s :: ss)
      | _, _ => None
      end
  end.




(** A marker: a newline, a text, a newline. *)
Definition between_newlines (inner : string) : string :=
  String (ascii_of_N 10) (inner +:+ String (ascii_of_N 10) "").

(** A receipt whose price and tip are given as integers. *)
Definition integer_price : list (list (string * pyval)) :=
  [[("receipt_id", PyInt 1); ("customer_name", PyStr "Int Price");
    ("price", PyInt 5); ("tip", PyInt 1)]].

(** The receipts of the notebook, stored. *)
Definition receipts_db : Sqlite.database :=
  match Receipts.seeded Receipts.rows with
  | Some db => db
  | None => []
  end.

(** The value that the block under [if source:] leaves in [source]. *)
Definition parsed_source (json_loads : string -> option pyval) (source : pyval) :
  outcome pyval :=
  if truthy source then
    match
      json_loads
        (replace squote dquote
           (py_str (if isinstance_str source && negb (str_in "[" (py_str source))
                    then PyList [source] else source)))
    with
    | Some v => Returns v
    | None => Raises JSONDecodeError
    end
  else Returns source.

(** [filter=({"source": source} if source else None)] *)
Definition filter_of (source : pyval) : pyval :=
  if truthy source then PyDict [("source", source)] else PyNone.

(** The lenient reading of the filter, in the words of the specification. *)

(** A bare value, one without [[], is put in one-element list form. *)
Definition list_form (s : string) : string :=
  if str_in "[" s then s else "[" +:+ str_repr s +:+ "]".

(** Structured parsing, once single quotes are double quotes. *)
Definition lenient_parse (json_loads : string -> option pyval) (s : string) :
  option pyval :=
  json_loads (replace squote dquote (list_form s)).

(** [self.inputs["source"]["description"]], as any reader of the tool's
    schema evaluates it. *)
Definition reported_description {R : Type} (self : loc) : M (R := R) value :=
  inputs <- getattr self "inputs" ;;
  src <- getitem inputs "source" ;;
  getitem src "description".

(** The class at [cls] holds the one [inputs] dict, at [li], whose entry for
    [source] is the dict at [ls]. *)
Definition class_inputs (h : gmap loc object) (cls li ls : loc) : Prop :=
  li <> ls
  /\ exists cattrs di ds,
       h !! cls = Some (OClass cattrs)
       /\ cattrs !! "inputs" = Some (VRef li)
       /\ h !! li = Some (ODict di)
       /\ di !! "source" = Some (VRef ls)
       /\ h !! ls = Some (ODict ds).

(** [t] is an instance of [cls] with no [inputs] attribute of its own. *)
Definition instance_of (h : gmap loc object) (cls t : loc) : Prop :=
  exists attrs, h !! t = Some (OInstance cls attrs) /\ attrs !! "inputs" = None.

Definition described (h : gmap loc object) (ls : loc) (d : string) : Prop :=
  exists ds, h !! ls = Some (ODict ds) /\ ds !! "description" = Some (VPy (PyStr d)).

(** Characters that [repr] writes as they are and that a JSON string holds
    as they are: no quote, no backslash, and printable. *)
Definition plain_char (a : ascii) : bool :=
  negb (Ascii.eqb a squote) && negb (Ascii.eqb a dquote)
  && negb (Ascii.eqb a backslash) && negb (unprintable a).

Fixpoint plain (s : string) : bool :=
  match s with
  | EmptyString => true
  | String a s' => plain_char a && plain s'
  end.

(** * Properties *)

(** ** Strings *)

Lemma append_cons (a : ascii) (s t : string) : String a s +:+ t = String a (s +:+ t).
Proof. reflexivity. Qed.

Lemma append_nil_l (s : string) : "" +:+ s = s.
Proof. reflexivity. Qed.

Lemma append_nil_r (s : string) : s +:+ "" = s.
Proof.
  induction s as [| a s IH]; [reflexivity |].
  now rewrite append_cons, IH.
Qed.

Lemma append_assoc (a b c : string) : (a +:+ b) +:+ c = a +:+ (b +:+ c).
Proof.
  induction a as [| x a IH]; [reflexivity |].
  now rewrite !append_cons, IH.
Qed.

Lemma prefix_append (p s : string) : String.prefix p (p +:+ s) = true.
Proof.
  induction p as [| a p IH]; [now destruct s |].
  rewrite append_cons. simpl.
  destruct (ascii_dec a a) as [_ | n]; [exact IH | now destruct n].
Qed.

Lemma str_in_unfold (sub s : string) :
  str_in sub s =
  String.prefix sub s
  || match s with
     | EmptyString => false
     | String _ s' => str_in sub s'
     end.
Proof. destruct s; reflexivity. Qed.

Lemma str_in_prefix (sub b : string) : str_in sub (sub +:+ b) = true.
Proof. rewrite str_in_unfold, prefix_append. reflexivity. Qed.

(** A text occurs in whatever surrounds it. *)
Lemma str_in_middle (a sub b : string) : str_in sub (a +:+ sub +:+ b) = true.
Proof.
  induction a as [| x a IH].
  - rewrite append_nil_l. apply str_in_prefix.
  - rewrite append_cons, str_in_unfold, IH. apply orb_true_r.
Qed.

Example repr_list_of_str :
  py_str (PyList [PyStr "transformers"; PyStr "blog"]) = "['transformers', 'blog']".
Proof. reflexivity. Qed.

Example repr_of_receipt_values :
  List.map py_repr [Receipts.dec 5343 2; Receipts.dec 120 2; Receipts.dec 100 2; Receipts.dec 24 2]
  = ["53.43"; "1.2"; "1.0"; "0.24"].
Proof. reflexivity. Qed.

(** ** The SQL tool *)

Lemma output_loop (rows : list (list pyval)) (output : string) :
  fold_left (fun output row => output +:+ (nl +:+ SQLExecutorTool.str_row row)) rows output
  = output +:+ row_lines rows.
Proof.
  revert output. induction rows as [| r rows IH]; intros output; simpl.
  - now rewrite append_nil_r.
  - rewrite IH. now rewrite !append_assoc.
Qed.

Section SqlTool.
Context {D : Type}.
Variable execute : D -> string -> outcome (list (list pyval)) * D.

(** The whole run on a string: one connection, one execution, the rows
    rendered, the connection closed also when the engine raises. *)
Lemma sql_forward_string (q : string) (st : state D) :
  SQLExecutorTool.forward execute (PyStr q) st
  = (match fst (execute (resource st) q) with
     | Returns rows => Returns (row_lines rows)
     | Raises e => Raises e
     end,
     State (heap st) (snd (execute (resource st) q))
           (log st ++ [Connect; Execute q; Close])).
Proof.
  unfold SQLExecutorTool.forward, SQLExecutorTool.connect, SQLExecutorTool.text,
    SQLExecutorTool.con_execute, finally, bind, ret, emit.
  simpl. destruct (execute (resource st) q) as [[rows | e] d]; simpl.
  - rewrite output_loop, append_nil_l, <- !app_assoc. reflexivity.
  - rewrite <- !app_assoc. reflexivity.
Qed.

(** On anything else the clause cannot be built: nothing is executed. *)
Lemma sql_forward_non_string (query : pyval) (st : state D) :
  isinstance_str query = false ->
  SQLExecutorTool.forward execute query st
  = (Raises (TypeError "expected string or bytes-like object"),
     State (heap st) (resource st) (log st ++ [Connect; Close])).
Proof.
  intros Hq.
  unfold SQLExecutorTool.forward, SQLExecutorTool.connect, SQLExecutorTool.text,
    finally, bind, raise, emit.
  destruct query; try discriminate Hq; simpl; rewrite <- app_assoc; reflexivity.
Qed.
End SqlTool.

Example receipts_db_rows :
  Receipts.seeded Receipts.rows = Some receipts_db
  /\ option_map Sqlite.rows (Sqlite.find_table "receipts" receipts_db)
     = Some [ [PyInt 1; PyStr "Alan Payne"; Receipts.dec 1206 2; Receipts.dec 120 2];
              [PyInt 2; PyStr "Alex Mason"; Receipts.dec 2386 2; Receipts.dec 24 2];
              [PyInt 3; PyStr "Woodrow Wilson"; Receipts.dec 5343 2; Receipts.dec 543 2];
              [PyInt 4; PyStr "Margaret James"; Receipts.dec 2111 2; Receipts.dec 100 2] ].
Proof. split; reflexivity. Qed.

(** The cell of the notebook that prints the table. *)
Example select_everything :
  fst (Receipts.sql_engine receipts_db (PyStr Receipts.everything))
  = Returns (nl +:+ "(1, 'Alan Payne', 12.06, 1.2)"
             +:+ nl +:+ "(2, 'Alex Mason', 23.86, 0.24)"
             +:+ nl +:+ "(3, 'Woodrow Wilson', 53.43, 5.43)"
             +:+ nl +:+ "(4, 'Margaret James', 21.11, 1.0)").
Proof. reflexivity. Qed.

(** C1. Whatever the order in which the four receipts of the notebook are
    inserted, the inserts succeed and the SQL tool, asked for
    [SELECT customer_name, price FROM receipts ORDER BY price DESC LIMIT 1],
    returns a string that contains [('Woodrow Wilson', 53.43)]: a newline
    followed by exactly that row. *)
Theorem C1_most_expensive_receipt (rs : list (list (string * pyval))) :
  Permutation rs Receipts.rows ->
  exists db out,
    Receipts.seeded rs = Some db
    /\ fst (Receipts.sql_engine db (PyStr Receipts.most_expensive)) = Returns out
    /\ out = nl +:+ "('Woodrow Wilson', 53.43)"
    /\ str_in "('Woodrow Wilson', 53.43)" out = true.
Proof.
  intros Hperm. symmetry in Hperm.
  apply permutations_Permutation in Hperm.
  vm_compute permutations in Hperm.
  repeat match type of Hperm with
         | _ ∈ _ :: _ => apply elem_of_cons in Hperm as [-> | Hperm]
         | _ ∈ [] => apply elem_of_nil in Hperm; destruct Hperm
         end;
    (eexists; eexists; repeat split; vm_compute; reflexivity).
Qed.

Lemma C1_most_expensive_receipt_witness :
  exists db out,
    Receipts.seeded (List.rev Receipts.rows) = Some db
    /\ fst (Receipts.sql_engine db (PyStr Receipts.most_expensive)) = Returns out
    /\ out = nl +:+ "('Woodrow Wilson', 53.43)"
    /\ str_in "('Woodrow Wilson', 53.43)" out = true.
Proof.
  apply (C1_most_expensive_receipt (List.rev Receipts.rows)).
  apply Permutation_sym, Permutation_rev.
Defined.

(** A successful insert keeps the schema and appends the row as stored. *)
Lemma insert_values_returns (t t' : Sqlite.table) (values : list (string * pyval)) :
  Sqlite.insert_values t values = Some (Returns t') ->
  exists r,
    Sqlite.values_row (Sqlite.columns t) values = Some r
    /\ Sqlite.columns t' = Sqlite.columns t
    /\ Sqlite.primary_key t' = Sqlite.primary_key t
    /\ Sqlite.rows t' = Sqlite.rows t ++ [r].
Proof.
  unfold Sqlite.insert_values.
  destruct (Sqlite.keyed t); [| discriminate].
  destruct (Sqlite.values_row (Sqlite.columns t) values) as [r |]; [| discriminate].
  destruct (_ || _); [discriminate |].
  intros [= <-]. exists r. auto.
Qed.








(** An integer given for a FLOAT column is stored, and printed, as a float;
    a row without its [receipt_id] is refused. *)
Example integer_price_is_stored_as_a_float :
  option_map
    (fun db => fst (Receipts.sql_engine db (PyStr Receipts.everything)))
    (Receipts.seeded integer_price)
  = Some (Returns (nl +:+ "(1, 'Int Price', 5.0, 1.0)"))
  /\ Sqlite.insert_values Receipts.receipts
       [("customer_name", PyStr "No Id"); ("price", Receipts.dec 100 2)]
     = Some (Raises (DatabaseError "IntegrityError")).
Proof. split; reflexivity. Qed.





(** ** The retrieval tool *)

Section Retrieval.
Context {R : Type}.
Variable json_loads : string -> option pyval.

Lemma parse_source_pure (source : pyval) (st : state R) :
  RetrieverTool.parse_source json_loads source st = (parsed_source json_loads source, st).
Proof.
  unfold RetrieverTool.parse_source, parsed_source.
  destruct (truthy source); [| reflexivity].
  destruct (json_loads _); reflexivity.
Qed.

(** The method, call by call. *)
Lemma forward_unfold (self : loc) (query source : pyval) (st : state R) :
  RetrieverTool.forward json_loads self query source st
  = match query with
    | PyStr q =>
        match parsed_source json_loads source with
        | Raises e => (Raises e, st)
        | Returns v =>
            match lookup_attr (heap st) self "vectordb" with
            | Some (VStore vs) =>
                (Returns (RetrieverTool.render (similarity_search vs q (filter_of v) 3)),
                 State (heap st) (resource st)
                       (log st ++ [SimilaritySearch q (filter_of v) 3]))
            | Some _ => (Raises (AttributeError "similarity_search"), st)
            | None => (Raises (AttributeError "vectordb"), st)
            end
        end
    | _ => (Raises (AssertionError "Your search query must be a string"), st)
    end.
Proof.
  unfold RetrieverTool.forward.
  destruct query; try reflexivity.
  unfold bind at 1. unfold ret at 1.
  unfold bind at 1. rewrite parse_source_pure.
  destruct (parsed_source json_loads source) as [v | e]; [| reflexivity].
  unfold RetrieverTool.call_similarity_search, bind, getattr, filter_of.
  destruct (lookup_attr (heap st) self "vectordb") as [[| | vs] |]; reflexivity.
Qed.

(** The text in which a one-element list of [s] is written. *)
Lemma singleton_text (s : string) :
  py_str (PyList [PyStr s]) = "[" +:+ str_repr s +:+ "]".
Proof. reflexivity. Qed.

Lemma truthy_str (s : string) : s <> "" -> truthy (PyStr s) = true.
Proof.
  intros Hs. simpl. destruct (String.eqb_spec s ""); [contradiction | reflexivity].
Qed.

Lemma parsed_source_bare (s : string) :
  s <> "" -> str_in "[" s = false ->
  parsed_source json_loads (PyStr s)
  = match json_loads (replace squote dquote (py_str (PyList [PyStr s]))) with
    | Some v => Returns v
    | None => Raises JSONDecodeError
    end.
Proof.
  intros Hs Hb. unfold parsed_source.
  rewrite (truthy_str s Hs). cbn [isinstance_str py_str]. rewrite Hb. reflexivity.
Qed.

Lemma parsed_source_bracketed (s : string) :
  s <> "" -> str_in "[" s = true ->
  parsed_source json_loads (PyStr s)
  = match json_loads (replace squote dquote s) with
    | Some v => Returns v
    | None => Raises JSONDecodeError
    end.
Proof.
  intros Hs Hb. unfold parsed_source.
  rewrite (truthy_str s Hs). cbn [isinstance_str py_str]. rewrite Hb. reflexivity.
Qed.

Lemma parsed_source_list (s : string) :
  parsed_source json_loads (PyList [PyStr s])
  = match json_loads (replace squote dquote (py_str (PyList [PyStr s]))) with
    | Some v => Returns v
    | None => Raises JSONDecodeError
    end.
Proof. reflexivity. Qed.
End Retrieval.

(** *** Blocks between markers *)

Lemma prefix_nil (s : string) : String.prefix "" s = true.
Proof. now destruct s. Qed.

Lemma prefix_cons (a b : ascii) (p s : string) :
  String.prefix (String a p) (String b s) = Ascii.eqb a b && String.prefix p s.
Proof.
  cbn [String.prefix]. destruct (ascii_dec a b) as [-> | n].
  - now rewrite Ascii.eqb_refl.
  - apply Ascii.eqb_neq in n. now rewrite n.
Qed.

(** A text without newline starts a text cut at a newline only if it starts
    the part before the cut. *)
Lemma prefix_before_newline (p a b : string) :
  char_in (ascii_of_N 10) p = false ->
  String.prefix p (a +:+ String (ascii_of_N 10) b) = String.prefix p a.
Proof.
  revert a. induction p as [| c p IH]; intros a Hp.
  - now rewrite !prefix_nil.
  - cbn [char_in] in Hp. apply orb_false_elim in Hp as [Hc Hp].
    destruct a as [| x a].
    + rewrite append_nil_l, prefix_cons, Ascii.eqb_sym, Hc. reflexivity.
    + rewrite append_cons, !prefix_cons, (IH a Hp). reflexivity.
Qed.

Lemma prefix_of_prefix (p q s : string) :
  String.prefix (p +:+ q) s = true -> String.prefix p s = true.
Proof.
  revert s. induction p as [| c p IH]; intros s H; [apply prefix_nil |].
  destruct s as [| x s]; [discriminate H |].
  rewrite append_cons, prefix_cons in H. apply andb_prop in H as [Hc H].
  rewrite prefix_cons, Hc. now apply IH.
Qed.

Section Blocks.
(** The inner text of the marker has no newline. *)
Variable inner : string.
Hypothesis inner_line : char_in (ascii_of_N 10) inner = false.

Local Abbreviation marker := (between_newlines inner).

(** Where the marker starts, its inner text follows the newline. *)
Lemma marker_starts (x : ascii) (s : string) :
  String.prefix marker (String x s) = true -> String.prefix inner s = true.
Proof.
  unfold between_newlines. rewrite prefix_cons. intros H.
  apply andb_prop in H as [_ H]. now apply prefix_of_prefix in H.
Qed.

Lemma no_marker_in_block (b rest : string) :
  str_in inner b = false -> b <> "" ->
  String.prefix marker (b +:+ marker +:+ rest) = false.
Proof.
  intros Hb Hne. destruct b as [| x b]; [congruence |].
  destruct (String.prefix marker (String x b +:+ marker +:+ rest)) eqn:E; [| reflexivity].
  rewrite append_cons in E. apply marker_starts in E.
  unfold between_newlines in E. rewrite append_cons, (prefix_before_newline _ _ _ inner_line) in E.
  rewrite str_in_unfold in Hb. apply orb_false_elim in Hb as [_ Hb].
  rewrite str_in_unfold, E in Hb. discriminate.
Qed.

Lemma no_marker_in_last_block (b : string) :
  str_in inner b = false -> String.prefix marker b = false.
Proof.
  intros Hb. destruct b as [| x b]; [reflexivity |].
  destruct (String.prefix marker (String x b)) eqn:E; [| reflexivity].
  apply marker_starts in E.
  rewrite str_in_unfold in Hb. apply orb_false_elim in Hb as [_ Hb].
  rewrite str_in_unfold, E in Hb. discriminate.
Qed.

Lemma str_in_tail (sub : string) (x : ascii) (s : string) :
  str_in sub (String x s) = false -> str_in sub s = false.
Proof. rewrite str_in_unfold. intros H. now apply orb_false_elim in H as [_ H]. Qed.

Lemma split_at_skip (sep p rest : string) :
  Str.split_at sep (String.length p) (p +:+ rest) = Str.split_at sep 0 rest
  \/ rest = "" /\ Str.split_at sep (String.length p) (p +:+ rest) = [""].
Proof.
  induction p as [| x p IH]; [now left |].
  rewrite append_cons. cbn [String.length Str.split_at]. exact IH.
Qed.

Lemma split_at_nil (sep : string) (k : nat) : Str.split_at sep k "" = [""].
Proof. now destruct k. Qed.

Lemma split_after_marker (x : ascii) (p rest : string) :
  Str.split_at (String x p) 0 (String x p +:+ rest)
  = "" :: Str.split_at (String x p) 0 rest.
Proof.
  rewrite append_cons.
  change (Str.split_at (String x p) 0 (String x (p +:+ rest)))
    with (if String.prefix (String x p) (String x (p +:+ rest))
          then "" :: Str.split_at (String x p) (String.length (String x p) - 1) (p +:+ rest)
          else match Str.split_at (String x p) 0 (p +:+ rest) with
               | piece :: pieces => String x piece :: pieces
               | [] => [String x ""]
               end).
  rewrite <- append_cons, prefix_append. cbn [String.length Nat.sub].
  rewrite Nat.sub_0_r. f_equal.
  destruct (split_at_skip (String x p) p rest) as [H | [-> H]]; [exact H |].
  now rewrite H, split_at_nil.
Qed.

Lemma split_block (b rest : string) :
  str_in inner b = false ->
  Str.split_on marker (b +:+ marker +:+ rest) = b :: Str.split_on marker rest.
Proof.
  unfold Str.split_on. induction b as [| x b IH]; intros Hb.
  - rewrite append_nil_l. apply split_after_marker.
  - assert (Hno := no_marker_in_block (String x b) rest Hb ltac:(discriminate)).
    rewrite append_cons in *.
    change (Str.split_at marker 0 (String x (b +:+ marker +:+ rest)))
      with (if String.prefix marker (String x (b +:+ marker +:+ rest))
            then "" :: Str.split_at marker (String.length marker - 1) (b +:+ marker +:+ rest)
            else match Str.split_at marker 0 (b +:+ marker +:+ rest) with
                 | piece :: pieces => String x piece :: pieces
                 | [] => [String x ""]
                 end).
    rewrite Hno, (IH (str_in_tail _ _ _ Hb)). reflexivity.
Qed.

Lemma split_last_block (b : string) :
  str_in inner b = false -> Str.split_on marker b = [b].
Proof.
  unfold Str.split_on. induction b as [| x b IH]; intros Hb; [reflexivity |].
  assert (Hno := no_marker_in_last_block (String x b) Hb).
  change (Str.split_at marker 0 (String x b))
    with (if String.prefix marker (String x b)
          then "" :: Str.split_at marker (String.length marker - 1) b
          else match Str.split_at marker 0 b with
               | piece :: pieces => String x piece :: pieces
               | [] => [String x ""]
               end).
  rewrite Hno, (IH (str_in_tail _ _ _ Hb)). reflexivity.
Qed.

(** Blocks that do not hold the inner text of the marker, joined by the
    marker, are the pieces between the markers. *)
Lemma split_joined_blocks (blocks : list string) :
  blocks <> [] ->
  Forall (fun block => str_in inner block = false) blocks ->
  Str.split_on marker (join marker blocks) = blocks.
Proof.
  intros Hne Hall. induction Hall as [| b blocks Hb Hall IH]; [congruence |].
  destruct blocks as [| b2 blocks].
  - apply (split_last_block b Hb).
  - change (join marker (b :: b2 :: blocks))
      with (b +:+ marker +:+ join marker (b2 :: blocks)).
    rewrite (split_block b _ Hb), IH; [reflexivity | discriminate].
Qed.
End Blocks.

(** C2, as stated, fails when a passage holds the marker: the tool on a
    store with one such passage (k = 1) returns the very string it returns on
    a store with the two halves of that passage (k = 2), and that string
    holds two blocks between markers, not one. *)
Lemma C2_marker_in_passage_counterexample :
  length (ranked Scenario.quoting "q" PyNone) = 1%nat
  /\ length (ranked Scenario.halves "q" PyNone) = 2%nat
  /\ fst (Scenario.retriever_on Scenario.quoting (PyStr "q") PyNone)
     = fst (Scenario.retriever_on Scenario.halves (PyStr "q") PyNone)
  /\ fst (Scenario.retriever_on Scenario.quoting (PyStr "q") PyNone)
     = Returns (("Retrieved documents:" +:+ String (ascii_of_N 10) (String (ascii_of_N 10) ""))
                +:+ "Chunk one."
                +:+ String (ascii_of_N 10) ("===Document===" +:+ String (ascii_of_N 10) "")
                +:+ "Chunk two.")
  /\ Str.split_on (String (ascii_of_N 10) ("===Document===" +:+ String (ascii_of_N 10) ""))
       ("Chunk one."
        +:+ String (ascii_of_N 10) ("===Document===" +:+ String (ascii_of_N 10) "")
        +:+ "Chunk two.")
     = ["Chunk one."; "Chunk two."].
Proof. repeat split; reflexivity. Qed.

(** C2, amended. A tool that wraps the store [vs], called with a string
    query and no source filter, returns either the fixed no-documents message
    (when the store has no match) or the text [Retrieved documents:] and two
    newlines followed by exactly [k] passages with the marker,
    [===Document===] between two newlines, between them, where [k] is the
    smaller of 3 and the number of matches the store has; and when no passage
    holds the text of the marker, cutting at the markers what follows the
    header gives the [k] passages back. *)
Theorem C2_retrieval_without_filter {R : Type} (json_loads : string -> option pyval)
    (st : state R) (self : loc) (vs : VectorStore) (q : string) :
  lookup_attr (heap st) self "vectordb" = Some (VStore vs) ->
  let k := Nat.min 3 (length (ranked vs q PyNone)) in
  let newline := ascii_of_N 10 in
  let marker := String newline ("===Document===" +:+ String newline "") in
  exists out,
    fst (RetrieverTool.forward json_loads self (PyStr q) PyNone st) = Returns out
    /\ ((k = 0%nat
         /\ out = "No documents found with this filtering. Try removing the source filter.")
        \/ ((0 < k)%nat
            /\ exists blocks,
                 length blocks = k
                 /\ blocks = List.map page_content (firstn 3 (ranked vs q PyNone))
                 /\ out = ("Retrieved documents:" +:+ String newline (String newline ""))
                          +:+ join marker blocks
                 /\ (Forall (fun block => str_in "===Document===" block = false) blocks ->
                     Str.split_on marker (join marker blocks) = blocks))).
Proof.
  intros Hvs k newline marker. rewrite forward_unfold. cbn [parsed_source truthy].
  rewrite Hvs. cbn [fst filter_of truthy].
  unfold similarity_search, RetrieverTool.render.
  assert (Hlen : length (firstn 3 (ranked vs q PyNone)) = k) by apply length_firstn.
  eexists. split; [reflexivity |].
  destruct (Nat.eqb_spec (length (firstn 3 (ranked vs q PyNone))) 0) as [E | E].
  - left. split; [congruence | reflexivity].
  - right. split; [lia |].
    exists (List.map page_content (firstn 3 (ranked vs q PyNone))).
    split; [now rewrite length_map |]. split; [reflexivity |]. split; [reflexivity |].
    apply (split_joined_blocks "===Document===" eq_refl).
    intros Hnil. apply E. now rewrite <- (length_map page_content), Hnil.
Qed.

Lemma C2_retrieval_without_filter_witness :
  exists out,
    fst (Scenario.retriever (PyStr "How do I push a model to the Hub?") PyNone) = Returns out
    /\ ((3 = 0 /\ out = "No documents found with this filtering. Try removing the source filter.")%nat
        \/ ((0 < 3)%nat
            /\ exists blocks,
                 length blocks = 3%nat
                 /\ blocks = List.map page_content (firstn 3 Scenario.passages)
                 /\ out = ("Retrieved documents:"
                           +:+ String (ascii_of_N 10) (String (ascii_of_N 10) ""))
                          +:+ join (String (ascii_of_N 10)
                                      ("===Document===" +:+ String (ascii_of_N 10) ""))
                                blocks
                 /\ (Forall (fun block => str_in "===Document===" block = false) blocks ->
                     Str.split_on
                       (String (ascii_of_N 10) ("===Document===" +:+ String (ascii_of_N 10) ""))
                       (join (String (ascii_of_N 10)
                                ("===Document===" +:+ String (ascii_of_N 10) ""))
                          blocks)
                     = blocks))).
Proof.
  apply (C2_retrieval_without_filter Json.loads Scenario.session Scenario.tool
           Scenario.vectordb "How do I push a model to the Hub?").
  reflexivity.
Defined.

(** C3. A query that is not a string makes the call fail with a type or
    validation error before the wrapped capability is called: the retrieval
    tool raises its assertion and leaves the state, log included, as it was;
    the SQL tool fails with a type error when the clause is built, having
    opened and closed a connection and executed nothing. *)
Theorem C3_non_string_query_rejected {R D : Type}
    (json_loads : string -> option pyval)
    (execute : D -> string -> outcome (list (list pyval)) * D)
    (st : state R) (sd : state D) (self : loc) (query source : pyval) :
  isinstance_str query = false ->
  RetrieverTool.forward json_loads self query source st
  = (Raises (AssertionError "Your search query must be a string"), st)
  /\ exists msg,
       SQLExecutorTool.forward execute query sd
       = (Raises (TypeError msg),
          State (heap sd) (resource sd) (log sd ++ [Connect; Close])).
Proof.
  intros Hq. split.
  - rewrite forward_unfold. destruct query; try reflexivity. discriminate Hq.
  - eexists. now apply sql_forward_non_string.
Qed.

Lemma C3_non_string_query_rejected_witness :
  Scenario.retriever (PyInt 42) (PyStr "transformers")
  = (Raises (AssertionError "Your search query must be a string"), Scenario.session)
  /\ exists msg,
       Receipts.sql_engine receipts_db (PyInt 42)
       = (Raises (TypeError msg), State ∅ receipts_db [Connect; Close]).
Proof.
  apply (C3_non_string_query_rejected Json.loads Sqlite.execute Scenario.session
           (State ∅ receipts_db []) Scenario.tool (PyInt 42) (PyStr "transformers")).
  reflexivity.
Defined.

(** The text of a one-element list starts with a bracket and is not empty. *)
Lemma singleton_text_bracketed (s : string) :
  py_str (PyList [PyStr s]) <> "" /\ str_in "[" (py_str (PyList [PyStr s])) = true.
Proof.
  rewrite singleton_text. split; [discriminate |].
  apply (str_in_prefix "[" (str_repr s +:+ "]")).
Qed.

(** C4, as stated, fails.  A bare value with a bracket in it is taken for the
    text of a list and read as it stands: [docs[en]] is no JSON text and the
    call raises, where the one-element list of it is read and searched.  And
    the empty string counts as no filter at all, where the list of it is a
    filter that here matches nothing. *)
Lemma C4_bracket_and_empty_counterexample :
  (fst (Scenario.retriever (PyStr "q") (PyStr "docs[en]")) = Raises JSONDecodeError
   /\ fst (Scenario.retriever (PyStr "q") (PyStr (py_str (PyList [PyStr "docs[en]"]))))
      = Returns RetrieverTool.no_documents)
  /\ (log (snd (Scenario.retriever (PyStr "q") (PyStr "")))
      = [SimilaritySearch "q" PyNone 3]
      /\ log (snd (Scenario.retriever (PyStr "q") (PyStr (py_str (PyList [PyStr ""])))))
         = [SimilaritySearch "q" (PyDict [("source", PyList [PyStr ""])]) 3]
      /\ fst (Scenario.retriever (PyStr "q") (PyStr ""))
         <> fst (Scenario.retriever (PyStr "q") (PyStr (py_str (PyList [PyStr ""]))))).
Proof.
  repeat split; try reflexivity.
  vm_compute. intros H. discriminate H.
Qed.

(** C4, amended. For a string query and a non-empty source [s] without the
    character [[], the call with [s] does what the call with the text of the
    one-element list of [s] does, and what the call with that list itself
    does: same result, same state, same search logged. *)
Theorem C4_bare_source_is_singleton_list {R : Type}
    (json_loads : string -> option pyval)
    (st : state R) (self : loc) (q s : string) :
  s <> "" ->
  str_in "[" s = false ->
  RetrieverTool.forward json_loads self (PyStr q) (PyStr s) st
  = RetrieverTool.forward json_loads self (PyStr q)
      (PyStr (py_str (PyList [PyStr s]))) st
  /\ RetrieverTool.forward json_loads self (PyStr q) (PyStr s) st
     = RetrieverTool.forward json_loads self (PyStr q) (PyList [PyStr s]) st.
Proof.
  intros Hs Hb.
  destruct (singleton_text_bracketed s) as [Hne Hin].
  rewrite !forward_unfold.
  rewrite (parsed_source_bare json_loads s Hs Hb).
  rewrite (parsed_source_bracketed json_loads _ Hne Hin).
  rewrite parsed_source_list.
  split; reflexivity.
Qed.

Lemma C4_bare_source_is_singleton_list_witness :
  Scenario.retriever (PyStr "q") (PyStr "datasets")
  = Scenario.retriever (PyStr "q") (PyStr "['datasets']")
  /\ Scenario.retriever (PyStr "q") (PyStr "datasets")
     = Scenario.retriever (PyStr "q") (PyList [PyStr "datasets"]).
Proof.
  apply (C4_bare_source_is_singleton_list Json.loads Scenario.session Scenario.tool
           "q" "datasets").
  - discriminate.
  - reflexivity.
Defined.




(** ** No hidden state *)

Section Frame.
Context {R D : Type}.
Variable json_loads : string -> option pyval.
Variable execute : D -> string -> outcome (list (list pyval)) * D.

(** The retrieval tool changes nothing but the log, by at most one search. *)
Lemma retriever_frame (self : loc) (query source : pyval) (st : state R) :
  let st' := snd (RetrieverTool.forward json_loads self query source st) in
  heap st' = heap st
  /\ resource st' = resource st
  /\ (log st' = log st
      \/ exists q f, query = PyStr q /\ log st' = log st ++ [SimilaritySearch q f 3]).
Proof.
  cbv zeta. rewrite forward_unfold.
  destruct query; try (cbn; auto; fail).
  destruct (parsed_source json_loads source) as [v | e]; [| cbn; auto].
  destruct (lookup_attr (heap st) self "vectordb") as [[| | vs] |];
    cbn; auto.
  split; [reflexivity |]. split; [reflexivity |]. right. eauto.
Qed.

(** Its result depends on the state only through the store it wraps. *)
Lemma retriever_reads_store_only (self : loc) (query source : pyval)
    (st st2 : state R) :
  lookup_attr (heap st2) self "vectordb" = lookup_attr (heap st) self "vectordb" ->
  fst (RetrieverTool.forward json_loads self query source st2)
  = fst (RetrieverTool.forward json_loads self query source st).
Proof.
  intros H. rewrite !forward_unfold, H.
  destruct query; try reflexivity.
  destruct (parsed_source json_loads source) as [v | e]; [| reflexivity].
  destruct (lookup_attr (heap st) self "vectordb") as [[| | vs] |]; reflexivity.
Qed.

(** The SQL tool changes the log, and the database as far as the engine
    does in executing the statement. *)
Lemma sql_frame (query : pyval) (sd : state D) :
  let sd' := snd (SQLExecutorTool.forward execute query sd) in
  heap sd' = heap sd
  /\ ((log sd' = log sd ++ [Connect; Close] /\ resource sd' = resource sd)
      \/ exists q,
           query = PyStr q
           /\ log sd' = log sd ++ [Connect; Execute q; Close]
           /\ resource sd' = snd (execute (resource sd) q)).
Proof.
  cbv zeta. destruct (isinstance_str query) eqn:Hq.
  - destruct query; try discriminate Hq.
    rewrite sql_forward_string. cbn. split; [reflexivity |]. right. eauto.
  - rewrite (sql_forward_non_string execute query sd Hq). cbn. auto.
Qed.

Lemma sql_reads_database_only (query : pyval) (sd sd2 : state D) :
  resource sd2 = resource sd ->
  fst (SQLExecutorTool.forward execute query sd2)
  = fst (SQLExecutorTool.forward execute query sd).
Proof.
  intros H. destruct (isinstance_str query) eqn:Hq.
  - destruct query; try discriminate Hq.
    rewrite !sql_forward_string. cbn [fst]. now rewrite H.
  - now rewrite !(sql_forward_non_string execute query _ Hq).
Qed.
End Frame.

(** C6. Two calls in a row with the same arguments return the same thing: for
    the retrieval tool always, since the first call leaves the objects and
    the store as they were; for the SQL tool when the first call left the
    database unchanged. *)
Theorem C6_same_call_same_output {R D : Type}
    (json_loads : string -> option pyval)
    (execute : D -> string -> outcome (list (list pyval)) * D)
    (st : state R) (self : loc) (query source : pyval)
    (sd : state D) (statement : pyval) :
  resource (snd (SQLExecutorTool.forward execute statement sd)) = resource sd ->
  fst (RetrieverTool.forward json_loads self query source
         (snd (RetrieverTool.forward json_loads self query source st)))
  = fst (RetrieverTool.forward json_loads self query source st)
  /\ fst (SQLExecutorTool.forward execute statement
            (snd (SQLExecutorTool.forward execute statement sd)))
     = fst (SQLExecutorTool.forward execute statement sd).
Proof.
  intros Hdb. split.
  - apply retriever_reads_store_only.
    destruct (retriever_frame json_loads self query source st) as (-> & _).
    reflexivity.
  - now apply sql_reads_database_only.
Qed.

Lemma C6_same_call_same_output_witness :
  fst (RetrieverTool.forward Json.loads Scenario.tool (PyStr "q") (PyStr "datasets")
         (snd (Scenario.retriever (PyStr "q") (PyStr "datasets"))))
  = fst (Scenario.retriever (PyStr "q") (PyStr "datasets"))
  /\ fst (SQLExecutorTool.forward Sqlite.execute (PyStr Receipts.most_expensive)
            (snd (Receipts.sql_engine receipts_db (PyStr Receipts.most_expensive))))
     = fst (Receipts.sql_engine receipts_db (PyStr Receipts.most_expensive)).
Proof.
  apply (C6_same_call_same_output Json.loads Sqlite.execute Scenario.session
           Scenario.tool (PyStr "q") (PyStr "datasets")
           (State ∅ receipts_db []) (PyStr Receipts.most_expensive)).
  reflexivity.
Defined.

(** C7. A call of [forward] mutates no object of the interpreter, class or
    instance: its only effect is the call of the wrapped capability, at most
    one search for the retrieval tool and at most one execution, inside one
    connection, for the SQL tool; and its result depends on the state only
    through the store or the database it wraps. *)
Theorem C7_forward_effects {R D : Type}
    (json_loads : string -> option pyval)
    (execute : D -> string -> outcome (list (list pyval)) * D)
    (st : state R) (self : loc) (query source : pyval)
    (sd : state D) (statement : pyval) :
  (let st' := snd (RetrieverTool.forward json_loads self query source st) in
   heap st' = heap st
   /\ resource st' = resource st
   /\ (log st' = log st
       \/ exists q f, query = PyStr q /\ log st' = log st ++ [SimilaritySearch q f 3])
   /\ forall st2 : state R,
        lookup_attr (heap st2) self "vectordb" = lookup_attr (heap st) self "vectordb" ->
        fst (RetrieverTool.forward json_loads self query source st2)
        = fst (RetrieverTool.forward json_loads self query source st))
  /\ (let sd' := snd (SQLExecutorTool.forward execute statement sd) in
      heap sd' = heap sd
      /\ ((log sd' = log sd ++ [Connect; Close] /\ resource sd' = resource sd)
          \/ exists q,
               statement = PyStr q
               /\ log sd' = log sd ++ [Connect; Execute q; Close]
               /\ resource sd' = snd (execute (resource sd) q))
      /\ forall sd2 : state D,
           resource sd2 = resource sd ->
           fst (SQLExecutorTool.forward execute statement sd2)
           = fst (SQLExecutorTool.forward execute statement sd)).
Proof.
  split.
  - destruct (retriever_frame json_loads self query source st) as (Hh & Hr & Hl).
    repeat split; try assumption.
    intros st2. apply retriever_reads_store_only.
  - destruct (sql_frame execute statement sd) as (Hh & Hl).
    repeat split; try assumption.
    intros sd2. apply sql_reads_database_only.
Qed.

Lemma C7_forward_effects_witness :
  (heap (snd (Scenario.retriever (PyStr "q") (PyStr "datasets"))) = heap Scenario.session
   /\ log (snd (Scenario.retriever (PyStr "q") (PyStr "datasets")))
      = [SimilaritySearch "q" (PyDict [("source", PyList [PyStr "datasets"])]) 3])
  /\ fst (RetrieverTool.forward Json.loads Scenario.tool (PyStr "q") (PyStr "datasets")
            (State (heap Scenario.session) tt [Connect]))
     = fst (Scenario.retriever (PyStr "q") (PyStr "datasets"))
  /\ fst (SQLExecutorTool.forward Sqlite.execute (PyStr Receipts.everything)
            (State (heap Scenario.session) receipts_db [Close]))
     = fst (Receipts.sql_engine receipts_db (PyStr Receipts.everything)).
Proof.
  destruct (C7_forward_effects Json.loads Sqlite.execute Scenario.session Scenario.tool
              (PyStr "q") (PyStr "datasets") (State ∅ receipts_db [])
              (PyStr Receipts.everything))
    as ((Hh & _ & _ & Hpure) & (_ & _ & Hsql)).
  split; [split; [exact Hh | reflexivity] |]. split.
  - apply Hpure. reflexivity.
  - apply Hsql. reflexivity.
Defined.

(** ** The description shared through the class *)

Section SharedInputs.
Context {R : Type}.

Lemma fresh_unused (h : gmap loc object) : h !! fresh (dom h) = None.
Proof. apply not_elem_of_dom, is_fresh. Qed.

Lemma bind_returns {A B : Type} (c : M (R := R) A) (k : A -> M B)
    (st st' : state R) (a : A) :
  c st = (Returns a, st') -> bind c k st = k a st'.
Proof. intros H. unfold bind. now rewrite H. Qed.

Lemma alloc_eq (o : object) (st : state R) :
  alloc o st
  = (Returns (fresh (dom (heap st))),
     State (<[fresh (dom (heap st)) := o]> (heap st)) (resource st) (log st)).
Proof. reflexivity. Qed.

Lemma setattr_instance (st : state R) (self cls : loc)
    (attrs : gmap string value) (name : string) (v : value) :
  heap st !! self = Some (OInstance cls attrs) ->
  setattr self name v st
  = (Returns tt,
     State (<[self := OInstance cls (<[name := v]> attrs)]> (heap st))
           (resource st) (log st)).
Proof. intros H. unfold setattr. now rewrite H. Qed.

Lemma getattr_through_class (st : state R) (self cls : loc)
    (attrs cattrs : gmap string value) (name : string) (v : value) :
  heap st !! self = Some (OInstance cls attrs) ->
  attrs !! name = None ->
  heap st !! cls = Some (OClass cattrs) ->
  cattrs !! name = Some v ->
  getattr self name st = (Returns v, st).
Proof.
  intros H1 H2 H3 H4. unfold getattr, lookup_attr. now rewrite H1, H2, H3, H4.
Qed.

Lemma getitem_dict (st : state R) (l : loc) (items : gmap string value)
    (key : string) (v : value) :
  heap st !! l = Some (ODict items) ->
  items !! key = Some v ->
  getitem (VRef l) key st = (Returns v, st).
Proof. intros H1 H2. unfold getitem. now rewrite H1, H2. Qed.

Lemma setitem_dict (st : state R) (l : loc) (items : gmap string value)
    (key : string) (v : value) :
  heap st !! l = Some (ODict items) ->
  setitem (VRef l) key v st
  = (Returns tt,
     State (<[l := ODict (<[key := v]> items)]> (heap st)) (resource st) (log st)).
Proof. intros H. unfold setitem. now rewrite H. Qed.

Lemma reported_through_class (st : state R) (cls li ls t : loc) (d : string) :
  class_inputs (heap st) cls li ls ->
  instance_of (heap st) cls t ->
  described (heap st) ls d ->
  reported_description t st = (Returns (VPy (PyStr d)), st).
Proof.
  intros (_ & cattrs & di & ds & Hc & Hi & Hli & Hs & Hls) (attrs & Ht & Hn)
    (ds' & Hls' & Hd).
  unfold reported_description.
  rewrite (bind_returns _ _ _ _ _ (getattr_through_class _ _ _ _ _ _ _ Ht Hn Hc Hi)).
  rewrite (bind_returns _ _ _ _ _ (getitem_dict _ _ _ _ _ Hli Hs)).
  apply (getitem_dict _ _ _ _ _ Hls' Hd).
Qed.

(** The constructor: a new instance, and the shared dict overwritten. *)
Lemma new_overwrites (st : state R) (cls li ls : loc) (v : value) (a : pyval) :
  class_inputs (heap st) cls li ls ->
  exists t st',
    RetrieverTool.new cls v a st = (Returns t, st')
    /\ heap st !! t = None
    /\ class_inputs (heap st') cls li ls
    /\ instance_of (heap st') cls t
    /\ described (heap st') ls (RetrieverTool.source_description a)
    /\ (forall t0, instance_of (heap st) cls t0 -> instance_of (heap st') cls t0)
    /\ lookup_attr (heap st') t "vectordb" = Some v
    /\ resource st' = resource st /\ log st' = log st.
Proof.
  intros (Hne & cattrs & di & ds & Hc & Hi & Hli & Hs & Hls).
  set (t := fresh (dom (heap st))).
  assert (Ht : heap st !! t = None) by apply fresh_unused.
  assert (Htc : t <> cls) by congruence.
  assert (Hti : t <> li) by congruence.
  assert (Hts : t <> ls) by congruence.
  assert (Hcs : ls <> cls) by congruence.
  set (attrs := <["vectordb" := v]> (<["is_initialized" := VPy (PyBool false)]> ∅)
                : gmap string value).
  set (h3 := <[t := OInstance cls attrs]>
               (<[t := OInstance cls (<["is_initialized" := VPy (PyBool false)]> ∅)]>
                  (<[t := OInstance cls ∅]> (heap st)))).
  set (d := VPy (PyStr (RetrieverTool.source_description a))).
  assert (Hattrs : attrs !! "inputs" = None) by reflexivity.
  assert (H3t : h3 !! t = Some (OInstance cls attrs)) by apply lookup_insert_eq.
  assert (H3o : forall l, t <> l -> h3 !! l = heap st !! l).
  { intros l Hl. unfold h3. now rewrite !lookup_insert_ne by exact Hl. }
  exists t, (State (<[ls := ODict (<["description" := d]> ds)]> h3) (resource st) (log st)).
  split.
  { unfold RetrieverTool.new.
    erewrite bind_returns; [| apply alloc_eq]. fold t.
    erewrite bind_returns; [reflexivity |].
    unfold RetrieverTool.__init__, Tool.__init__.
    erewrite bind_returns; [| apply setattr_instance; apply lookup_insert_eq].
    erewrite bind_returns; [| apply setattr_instance; apply lookup_insert_eq].
    erewrite bind_returns;
      [| eapply getattr_through_class;
         [exact H3t | exact Hattrs
         | cbn [heap]; rewrite !lookup_insert_ne by assumption; exact Hc
         | exact Hi]].
    erewrite bind_returns;
      [| eapply getitem_dict;
         [cbn [heap]; rewrite !lookup_insert_ne by assumption; exact Hli | exact Hs]].
    erewrite setitem_dict; [reflexivity |].
    cbn [heap]. rewrite !lookup_insert_ne by assumption. exact Hls. }
  cbn [heap resource log].
  split; [exact Ht |]. split.
  { split; [exact Hne |]. exists cattrs, di, (<["description" := d]> ds).
    rewrite !lookup_insert_ne by congruence.
    rewrite (H3o cls Htc), (H3o li Hti), lookup_insert_eq. auto. }
  split.
  { exists attrs. rewrite lookup_insert_ne by congruence. auto. }
  split.
  { exists (<["description" := d]> ds). split; apply lookup_insert_eq. }
  split.
  { intros t0 (attrs0 & Ht0 & Hn0). exists attrs0. split; [| exact Hn0].
    assert (t <> t0) by congruence.
    assert (ls <> t0) by congruence.
    rewrite lookup_insert_ne by assumption. now rewrite H3o. }
  split; [| auto].
  unfold lookup_attr. rewrite lookup_insert_ne by congruence.
  rewrite H3t. reflexivity.
Qed.

(** The class statement builds the shared dicts, the description empty. *)
Lemma class_statement_shape (st : state R) :
  exists cls li ls st0,
    RetrieverTool.class_statement st = (Returns cls, st0)
    /\ class_inputs (heap st0) cls li ls
    /\ described (heap st0) ls ""
    /\ resource st0 = resource st /\ log st0 = log st.
Proof.
  set (Q := ODict (<["type" := VPy (PyStr "text")]>
                    (<["description" := VPy (PyStr RetrieverTool.query_description)]> ∅))).
  set (ds := <["type" := VPy (PyStr "text")]>
               (<["description" := VPy (PyStr "")]> ∅) : gmap string value).
  set (lq := fresh (dom (heap st))).
  set (h1 := <[lq := Q]> (heap st)).
  set (ls := fresh (dom h1)).
  set (h2 := <[ls := ODict ds]> h1).
  set (li := fresh (dom h2)).
  set (di := <["query" := VRef lq]> (<["source" := VRef ls]> ∅) : gmap string value).
  set (h3 := <[li := ODict di]> h2).
  set (cls := fresh (dom h3)).
  set (cattrs := <["name" := VPy (PyStr RetrieverTool.name)]>
                   (<["description" := VPy (PyStr RetrieverTool.description)]>
                      (<["inputs" := VRef li]>
                         (<["output_type" := VPy (PyStr RetrieverTool.output_type)]> ∅)))
                 : gmap string value).
  assert (H2s : h2 !! ls = Some (ODict ds)) by apply lookup_insert_eq.
  assert (H2i : h2 !! li = None) by apply fresh_unused.
  assert (Hne : li <> ls) by congruence.
  assert (H3i : h3 !! li = Some (ODict di)) by apply lookup_insert_eq.
  assert (H3s : h3 !! ls = Some (ODict ds)) by (unfold h3; now rewrite lookup_insert_ne).
  assert (H3c : h3 !! cls = None) by apply fresh_unused.
  assert (Hci : cls <> li) by congruence.
  assert (Hcs : cls <> ls) by congruence.
  exists cls, li, ls, (State (<[cls := OClass cattrs]> h3) (resource st) (log st)).
  split; [reflexivity |].
  cbn [heap resource log].
  split; [| split; [| auto]].
  - split; [exact Hne |]. exists cattrs, di, ds.
    rewrite lookup_insert_eq, !lookup_insert_ne by assumption.
    split; [reflexivity |]. split; [reflexivity |].
    split; [exact H3i |]. split; [reflexivity | exact H3s].
  - exists ds. rewrite lookup_insert_ne by assumption.
    split; [exact H3s | reflexivity].
Qed.
End SharedInputs.

Lemma length_append (a b : string) :
  String.length (a +:+ b) = (String.length a + String.length b)%nat.
Proof.
  induction a as [| x a IH]; [reflexivity |].
  rewrite append_cons. simpl. now rewrite IH.
Qed.

Lemma append_inv_head (p a b : string) : p +:+ a = p +:+ b -> a = b.
Proof.
  induction p as [| x p IH]; [trivial |].
  rewrite !append_cons. intros H. injection H as H. auto.
Qed.

Lemma append_inv_tail (a b t : string) : a +:+ t = b +:+ t -> a = b.
Proof.
  revert b. induction a as [| x a IH]; intros [| y b] H.
  - reflexivity.
  - apply (f_equal String.length) in H.
    rewrite append_nil_l, append_cons in H. simpl in H.
    rewrite length_append in H. lia.
  - apply (f_equal String.length) in H.
    rewrite append_nil_l, append_cons in H. simpl in H.
    rewrite length_append in H. lia.
  - rewrite !append_cons in H. injection H as -> H. f_equal. now apply IH.
Qed.

Lemma source_description_inj (a1 a2 : pyval) :
  RetrieverTool.source_description a1 = RetrieverTool.source_description a2 ->
  py_str a1 = py_str a2.
Proof.
  unfold RetrieverTool.source_description. intros H.
  apply append_inv_head in H. now apply append_inv_tail in H.
Qed.

(** C10. The constructor writes the description of the source parameter into
    the [inputs] mapping of the class, which every instance reads: of two
    tools built one after the other, the first reports its own description
    until the second is built, and from then on both report the second's,
    which differs from the first's whenever the texts of the two
    [all_sources] differ. *)
Theorem C10_constructor_overwrites_shared_description {R : Type}
    (st : state R) (v1 v2 : value) (a1 a2 : pyval) :
  exists cls st0 t1 st1 t2 st2,
    RetrieverTool.class_statement st = (Returns cls, st0)
    /\ RetrieverTool.new cls v1 a1 st0 = (Returns t1, st1)
    /\ RetrieverTool.new cls v2 a2 st1 = (Returns t2, st2)
    /\ t1 <> t2
    /\ reported_description t1 st1
       = (Returns (VPy (PyStr (RetrieverTool.source_description a1))), st1)
    /\ reported_description t1 st2
       = (Returns (VPy (PyStr (RetrieverTool.source_description a2))), st2)
    /\ reported_description t2 st2
       = (Returns (VPy (PyStr (RetrieverTool.source_description a2))), st2)
    /\ (py_str a1 <> py_str a2 ->
        RetrieverTool.source_description a1 <> RetrieverTool.source_description a2).
Proof.
  destruct (class_statement_shape st) as (cls & li & ls & st0 & Hcls & Hshape0 & _).
  destruct (new_overwrites st0 cls li ls v1 a1 Hshape0)
    as (t1 & st1 & Hnew1 & _ & Hshape1 & Hinst1 & Hdesc1 & _).
  destruct (new_overwrites st1 cls li ls v2 a2 Hshape1)
    as (t2 & st2 & Hnew2 & Hfresh2 & Hshape2 & Hinst2 & Hdesc2 & Hkeep & _).
  exists cls, st0, t1, st1, t2, st2.
  repeat split; try assumption.
  - intros ->. destruct Hinst1 as (attrs & Ht1 & _). congruence.
  - now apply (reported_through_class st1 cls li ls).
  - apply (reported_through_class st2 cls li ls); auto.
  - now apply (reported_through_class st2 cls li ls).
  - intros Hne H. now apply Hne, source_description_inj.
Qed.

Lemma C10_constructor_overwrites_shared_description_witness :
  exists cls st0 t1 st1 t2 st2,
    RetrieverTool.class_statement (State ∅ tt []) = (Returns cls, st0)
    /\ RetrieverTool.new cls (VStore Scenario.vectordb) (PyList [PyStr "transformers"]) st0
       = (Returns t1, st1)
    /\ RetrieverTool.new cls (VStore Scenario.vectordb) (PyList [PyStr "datasets"]) st1
       = (Returns t2, st2)
    /\ t1 <> t2
    /\ fst (reported_description t1 st1)
       = Returns (VPy (PyStr (RetrieverTool.source_description (PyList [PyStr "transformers"]))))
    /\ fst (reported_description t1 st2)
       = Returns (VPy (PyStr (RetrieverTool.source_description (PyList [PyStr "datasets"]))))
    /\ fst (reported_description t2 st2)
       = Returns (VPy (PyStr (RetrieverTool.source_description (PyList [PyStr "datasets"]))))
    /\ RetrieverTool.source_description (PyList [PyStr "transformers"])
       <> RetrieverTool.source_description (PyList [PyStr "datasets"]).
Proof.
  destruct (C10_constructor_overwrites_shared_description (State ∅ tt [])
              (VStore Scenario.vectordb) (VStore Scenario.vectordb)
              (PyList [PyStr "transformers"]) (PyList [PyStr "datasets"]))
    as (cls & st0 & t1 & st1 & t2 & st2 & H0 & H1 & H2 & Hne & Hd1 & Hd2 & Hd3 & Hdiff).
  exists cls, st0, t1, st1, t2, st2.
  repeat split; try assumption.
  - now rewrite Hd1.
  - now rewrite Hd2.
  - now rewrite Hd3.
  - apply Hdiff. discriminate.
Defined.

Example two_tools_one_description :
  (cls <- RetrieverTool.class_statement ;;
   first <- RetrieverTool.new cls (VStore Scenario.vectordb) (PyList [PyStr "transformers"]) ;;
   _ <- RetrieverTool.new cls (VStore Scenario.vectordb) (PyList [PyStr "datasets"]) ;;
   reported_description first) (State ∅ tt [])
  = (Returns (VPy (PyStr "The source of the documents to search, as a str representation of a list. Possible values in the list are: ['datasets']. If this argument is not provided, all sources will be searched.")),
     snd ((cls <- RetrieverTool.class_statement ;;
           first <- RetrieverTool.new cls (VStore Scenario.vectordb) (PyList [PyStr "transformers"]) ;;
           RetrieverTool.new cls (VStore Scenario.vectordb) (PyList [PyStr "datasets"]))
            (State ∅ tt []))).
Proof. vm_compute. reflexivity. Qed.

(** ** What reaches the store for a bare source *)

Lemma plain_char_inv (a : ascii) :
  plain_char a = true ->
  Ascii.eqb a squote = false /\ Ascii.eqb a dquote = false
  /\ Ascii.eqb a backslash = false
  /\ unprintable a = false /\ (N_of_ascii a <? 32)%N = false.
Proof.
  unfold plain_char. intros H.
  repeat (apply andb_prop in H as [H ?]).
  repeat (match goal with Hn : negb _ = true |- _ => apply negb_true_iff in Hn end).
  repeat split; try assumption.
  match goal with Hu : unprintable a = false |- _ => unfold unprintable in Hu end.
  repeat (match goal with Hu : (_ || _) = false |- _ => apply orb_false_elim in Hu as [Hu ?] end).
  assumption.
Qed.

Lemma repr_char_plain (a : ascii) :
  plain_char a = true -> repr_char squote a = String a "".
Proof.
  intros H. apply plain_char_inv in H as (Hs & _ & Hb & Hu & Hc).
  unfold repr_char. rewrite Hs, Hb, Hu. cbn [orb].
  destruct (N_of_ascii a =? 9)%N eqn:E9.
  { apply N.eqb_eq in E9. rewrite E9 in Hc. discriminate. }
  destruct (N_of_ascii a =? 10)%N eqn:E10.
  { apply N.eqb_eq in E10. rewrite E10 in Hc. discriminate. }
  destruct (N_of_ascii a =? 13)%N eqn:E13.
  { apply N.eqb_eq in E13. rewrite E13 in Hc. discriminate. }
  reflexivity.
Qed.

Lemma repr_chars_plain (s : string) : plain s = true -> repr_chars squote s = s.
Proof.
  induction s as [| a s IH]; [reflexivity |]. cbn [plain repr_chars].
  intros H. apply andb_prop in H as [Ha Hs].
  now rewrite (repr_char_plain a Ha), IH.
Qed.

Lemma char_in_plain (s : string) : plain s = true -> char_in squote s = false.
Proof.
  induction s as [| a s IH]; [reflexivity |]. cbn [plain char_in].
  intros H. apply andb_prop in H as [Ha Hs].
  apply plain_char_inv in Ha as (Ha & _). rewrite Ascii.eqb_sym, Ha. now apply IH.
Qed.

Lemma str_repr_plain (s : string) :
  plain s = true -> str_repr s = String squote (s +:+ String squote "").
Proof.
  intros H. unfold str_repr.
  rewrite (char_in_plain s H). cbn [andb].
  now rewrite (repr_chars_plain s H).
Qed.

Lemma replace_append (old new : ascii) (a b : string) :
  replace old new (a +:+ b) = replace old new a +:+ replace old new b.
Proof.
  induction a as [| x a IH]; [reflexivity |].
  rewrite append_cons. cbn [replace]. now rewrite IH.
Qed.

Lemma replace_plain (s : string) : plain s = true -> replace squote dquote s = s.
Proof.
  induction s as [| a s IH]; [reflexivity |]. cbn [plain replace].
  intros H. apply andb_prop in H as [Ha Hs].
  apply plain_char_inv in Ha as (Ha & _). now rewrite Ha, IH.
Qed.

Lemma scanstring_plain (s rest : string) :
  plain s = true ->
  Json.scanstring (s +:+ String dquote rest) = Some (s, rest).
Proof.
  induction s as [| a s IH]; [reflexivity |].
  intros H. cbn [plain] in H. apply andb_prop in H as [Ha Hs].
  apply plain_char_inv in Ha as (_ & Hd & Hb & _ & Hc).
  rewrite append_cons. cbn [Json.scanstring].
  rewrite Hd, Hb, Hc, (IH Hs). reflexivity.
Qed.

Lemma scan_once_string (fuel : nat) (s body rest : string) :
  Json.scanstring s = Some (body, rest) ->
  Json.scan_once (S fuel) (String dquote s) = Some (PyStr body, rest).
Proof.
  intros H.
  change (Json.scan_once (S fuel) (String dquote s))
    with (match Json.scanstring s with
          | Some (body, s2) => Some (PyStr body, s2)
          | None => None
          end).
  now rewrite H.
Qed.

Lemma scan_array_last (fuel : nat) (s rest : string) (v : pyval) :
  Json.scan_once fuel s = Some (v, String "]" rest) ->
  Json.scan_array (S fuel) s = Some ([v], rest).
Proof. intros H. cbn [Json.scan_array]. now rewrite H. Qed.

Lemma scan_once_array_of_string (fuel : nat) (s rest : string) (vs : list pyval) :
  Json.scan_array fuel (String dquote s) = Some (vs, rest) ->
  Json.scan_once (S fuel) (String "[" (String dquote s)) = Some (PyList vs, rest).
Proof.
  intros H.
  change (Json.scan_once (S fuel) (String "[" (String dquote s)))
    with (match Json.scan_array fuel (String dquote s) with
          | Some (vs, s3) => Some (PyList vs, s3)
          | None => None
          end).
  now rewrite H.
Qed.

(** The text the tool builds from a plain bare value is read back as the
    one-element list of that value. *)
Lemma lenient_parse_plain (s : string) :
  plain s = true -> str_in "[" s = false ->
  lenient_parse Json.loads s = Some (PyList [PyStr s]).
Proof.
  intros Hp Hb. unfold lenient_parse, list_form. rewrite Hb.
  rewrite (str_repr_plain s Hp).
  assert (Htext :
    replace squote dquote ("[" +:+ String squote (s +:+ String squote "") +:+ "]")
    = String "[" (String dquote (s +:+ String dquote "]"))).
  { change ("[" +:+ String squote (s +:+ String squote "") +:+ "]")
      with (String "[" (String squote ((s +:+ String squote "") +:+ "]"))).
    rewrite append_assoc.
    change (String squote "" +:+ "]") with (String squote "]").
    cbn [replace]. rewrite replace_append, (replace_plain s Hp). reflexivity. }
  rewrite Htext. clear Htext.
  unfold Json.loads.
  change (Json.skip_ws (String "[" (String dquote (s +:+ String dquote "]"))))
    with (String "[" (String dquote (s +:+ String dquote "]"))).
  assert (Hf : exists f,
             (2 * String.length (String "[" (String dquote (s +:+ String dquote "]"))) + 2)%nat
             = S (S (S f))).
  { cbn [String.length]. eexists. rewrite Nat.mul_succ_r.
    rewrite Nat.add_comm. cbn [Nat.add]. reflexivity. }
  destruct Hf as [f ->].
  rewrite (scan_once_array_of_string (S (S f)) _ "" [PyStr s]); [reflexivity |].
  apply scan_array_last, scan_once_string, scanstring_plain, Hp.
Qed.

(** X2. A bare source made of plain characters (printable, no quote and no
    backslash), without [[], reaches the store as the one-element list of
    itself: the search is made with the filter [{"source": [s]}] and k = 3,
    once. *)
Lemma bare_source_filter_is_singleton {R : Type} (st : state R) (self : loc)
    (vs : VectorStore) (q s : string) :
  plain s = true -> s <> "" -> str_in "[" s = false ->
  lookup_attr (heap st) self "vectordb" = Some (VStore vs) ->
  RetrieverTool.forward Json.loads self (PyStr q) (PyStr s) st
  = (Returns (RetrieverTool.render
                (similarity_search vs q (PyDict [("source", PyList [PyStr s])]) 3)),
     State (heap st) (resource st)
           (log st ++ [SimilaritySearch q (PyDict [("source", PyList [PyStr s])]) 3])).
Proof.
  intros Hp Hs Hb Hvs.
  rewrite forward_unfold.
  assert (Hparsed : parsed_source Json.loads (PyStr s) = Returns (PyList [PyStr s])).
  { rewrite (parsed_source_bare Json.loads s Hs Hb).
    assert (Hl := lenient_parse_plain s Hp Hb).
    unfold lenient_parse, list_form in Hl. rewrite Hb in Hl.
    rewrite singleton_text, Hl. reflexivity. }
  rewrite Hparsed, Hvs. reflexivity.
Qed.

(** * Further properties of the retrieval tool *)

(** ** The text of a list of sources, read back *)

Lemma replace_join_repr (l : list string) :
  Forall (fun s => plain s = true) l ->
  replace squote dquote (join ", " (List.map str_repr l))
  = join ", " (List.map (fun s => String dquote (s +:+ String dquote "")) l).
Proof.
  induction 1 as [| s l Hs Hl IH]; [reflexivity |].
  assert (Hone : replace squote dquote (str_repr s)
                 = String dquote (s +:+ String dquote "")).
  { rewrite (str_repr_plain s Hs). cbn [replace].
    rewrite replace_append, (replace_plain s Hs). reflexivity. }
  destruct l as [| s2 l]; [exact Hone |].
  change (join ", " (List.map str_repr (s :: s2 :: l)))
    with (str_repr s +:+ ", " +:+ join ", " (List.map str_repr (s2 :: l))).
  rewrite !replace_append, Hone, IH. reflexivity.
Qed.

Lemma scan_array_more (f : nat) (s tail rest : string) (vs : list pyval) :
  plain s = true ->
  Json.scan_array (S f) (String dquote tail) = Some (vs, rest) ->
  Json.scan_array (S (S f))
    (String dquote (s +:+ String dquote (String "," (String " " (String dquote tail)))))
  = Some (PyStr s :: vs, rest).
Proof.
  intros Hs H.
  change (Json.scan_array (S (S f))
            (String dquote (s +:+ String dquote (String "," (String " " (String dquote tail))))))
    with (match
            Json.scan_once (S f)
              (String dquote (s +:+ String dquote (String "," (String " " (String dquote tail)))))
          with
          | Some (v, s1) =>
              match Json.skip_ws s1 with
              | String "]" s2 => Some ([v], s2)
              | String "," s2 =>
                  match Json.scan_array (S f) (Json.skip_ws s2) with
                  | Some (vs, s3) => Some (v :: vs, s3)
                  | None => None
                  end
              | _ => None
              end
          | None => None
          end).
  rewrite (scan_once_string f _ s _ (scanstring_plain s _ Hs)).
  change (match Json.scan_array (S f) (String dquote tail) with
          | Some (vs, s3) => Some (PyStr s :: vs, s3)
          | None => None
          end = Some (PyStr s :: vs, rest)).
  now rewrite H.
Qed.

Lemma quoted_join_head (s : string) (l : list string) :
  exists tail,
    join ", " (List.map (fun s => String dquote (s +:+ String dquote "")) (s :: l))
    = String dquote tail.
Proof. destruct l; eexists; reflexivity. Qed.

(** The members of an array of plain strings, up to the closing bracket. *)
Lemma scan_array_strings (l : list string) :
  Forall (fun s => plain s = true) l ->
  l <> [] ->
  forall (fuel : nat) (rest : string),
    (length l < fuel)%nat ->
    Json.scan_array fuel
      (join ", " (List.map (fun s => String dquote (s +:+ String dquote "")) l)
       +:+ String "]" rest)
    = Some (List.map PyStr l, rest).
Proof.
  induction 1 as [| s l Hs Hl IH]; [congruence |].
  intros _ fuel rest Hfuel.
  destruct fuel as [| [| f]]; [simpl in Hfuel; lia | simpl in Hfuel; lia |].
  destruct l as [| s2 l].
  - apply scan_array_last.
    change (join ", " (List.map (fun s => String dquote (s +:+ String dquote "")) [s])
            +:+ String "]" rest)
      with (String dquote ((s +:+ String dquote "") +:+ String "]" rest)).
    rewrite append_assoc. apply scan_once_string, scanstring_plain, Hs.
  - assert (Hrest := IH ltac:(discriminate) (S f) rest ltac:(simpl in Hfuel |- *; lia)).
    destruct (quoted_join_head s2 l) as [tail Htail].
    change (join ", " (List.map (fun s => String dquote (s +:+ String dquote "")) (s :: s2 :: l)))
      with (String dquote (s +:+ String dquote "")
            +:+ ", "
            +:+ join ", " (List.map (fun s => String dquote (s +:+ String dquote "")) (s2 :: l))).
    rewrite Htail in Hrest |- *.
    rewrite !append_cons in Hrest.
    rewrite !append_assoc, !append_cons, !append_assoc, !append_cons, !append_nil_l.
    now apply scan_array_more.
Qed.

Lemma quoted_join_length (l : list string) :
  (length l
   <= String.length
        (join ", " (List.map (fun s => String dquote (s +:+ String dquote "")) l)))%nat.
Proof.
  induction l as [| s l IH]; [simpl; lia |].
  destruct l as [| s2 l].
  - cbn [List.map join String.concat String.length length]. lia.
  - change (join ", " (List.map (fun s => String dquote (s +:+ String dquote "")) (s :: s2 :: l)))
      with (String dquote (s +:+ String dquote "")
            +:+ ", "
            +:+ join ", " (List.map (fun s => String dquote (s +:+ String dquote "")) (s2 :: l))).
    rewrite !length_append. cbn [String.length length] in IH |- *. lia.
Qed.

(** The text of a list of plain strings, its single quotes turned into
    double quotes, is read back as that list. *)
Lemma loads_list_text (l : list string) :
  Forall (fun s => plain s = true) l ->
  Json.loads (replace squote dquote (py_str (PyList (List.map PyStr l))))
  = Some (PyList (List.map PyStr l)).
Proof.
  intros Hl. destruct l as [| s l]; [reflexivity |].
  change (py_str (PyList (List.map PyStr (s :: l))))
    with ("[" +:+ join ", " (List.map py_repr (List.map PyStr (s :: l))) +:+ "]").
  rewrite List.map_map.
  change (List.map (fun x => py_repr (PyStr x)) (s :: l)) with (List.map str_repr (s :: l)).
  rewrite !replace_append, (replace_join_repr _ Hl).
  change (replace squote dquote "[") with "[".
  change (replace squote dquote "]") with "]".
  assert (Hlen := quoted_join_length (s :: l)).
  assert (Hscan := scan_array_strings (s :: l) Hl ltac:(discriminate)).
  destruct (quoted_join_head s l) as [tail Htail].
  rewrite Htail in Hlen, Hscan |- *.
  rewrite !append_cons, append_nil_l.
  unfold Json.loads.
  change (Json.skip_ws (String "[" (String dquote (tail +:+ "]"))))
    with (String "[" (String dquote (tail +:+ "]"))).
  remember (2 * String.length (String "[" (String dquote (tail +:+ "]"))) + 2)%nat as fuel eqn:Ef.
  assert (Hfuel : (S (length (s :: l)) < fuel)%nat).
  { subst fuel. cbn [String.length] in Hlen |- *. rewrite length_append. lia. }
  destruct fuel as [| fuel]; [lia |].
  rewrite (scan_once_array_of_string fuel _ "" (List.map PyStr (s :: l))); [reflexivity |].
  specialize (Hscan fuel "" ltac:(lia)).
  rewrite append_cons in Hscan. exact Hscan.
Qed.

(** X1. A non-empty list of plain source names (printable characters, no
    quote and no backslash among them), handed to the tool as the text Python
    prints for it, or as the list itself, is the filter of the search: the
    store is asked for the query with [{"source": names}] and k = 3, once. *)
Theorem X1_list_text_is_the_filter {R : Type} (st : state R) (self : loc)
    (vs : VectorStore) (q : string) (names : list string) :
  Forall (fun s => plain s = true) names ->
  names <> [] ->
  lookup_attr (heap st) self "vectordb" = Some (VStore vs) ->
  let filter := PyDict [("source", PyList (List.map PyStr names))] in
  RetrieverTool.forward Json.loads self (PyStr q)
    (PyStr (py_str (PyList (List.map PyStr names)))) st
  = (Returns (RetrieverTool.render (similarity_search vs q filter 3)),
     State (heap st) (resource st) (log st ++ [SimilaritySearch q filter 3]))
  /\ RetrieverTool.forward Json.loads self (PyStr q) (PyList (List.map PyStr names)) st
     = (Returns (RetrieverTool.render (similarity_search vs q filter 3)),
        State (heap st) (resource st) (log st ++ [SimilaritySearch q filter 3])).
Proof.
  intros Hplain Hne Hvs filter.
  destruct names as [| s names]; [congruence |].
  assert (Hl := loads_list_text (s :: names) Hplain).
  assert (Hlist : parsed_source Json.loads (PyList (List.map PyStr (s :: names)))
                  = Returns (PyList (List.map PyStr (s :: names)))).
  { unfold parsed_source. cbn [truthy List.map length Nat.eqb negb isinstance_str andb].
    cbn [List.map] in Hl. now rewrite Hl. }
  assert (Htext : parsed_source Json.loads
                    (PyStr (py_str (PyList (List.map PyStr (s :: names)))))
                  = Returns (PyList (List.map PyStr (s :: names)))).
  { assert (Hb : str_in "[" (py_str (PyList (List.map PyStr (s :: names)))) = true).
    { apply (str_in_prefix "[" _). }
    assert (Hn : py_str (PyList (List.map PyStr (s :: names))) <> "") by discriminate.
    rewrite (parsed_source_bracketed Json.loads _ Hn Hb). now rewrite Hl. }
  rewrite !forward_unfold, Hlist, Htext, Hvs.
  split; reflexivity.
Qed.

Lemma X1_list_text_is_the_filter_witness :
  fst (Scenario.retriever (PyStr "q") (PyStr "['datasets', 'hub-docs']"))
  = Returns (RetrieverTool.render
               (similarity_search Scenario.vectordb "q"
                  (PyDict [("source", PyList [PyStr "datasets"; PyStr "hub-docs"])]) 3))
  /\ fst (Scenario.retriever (PyStr "q") (PyList [PyStr "datasets"; PyStr "hub-docs"]))
     = fst (Scenario.retriever (PyStr "q") (PyStr "['datasets', 'hub-docs']")).
Proof.
  destruct (X1_list_text_is_the_filter Scenario.session Scenario.tool Scenario.vectordb
              "q" ["datasets"; "hub-docs"]) as [H1 H2].
  - repeat constructor.
  - discriminate.
  - reflexivity.
  - unfold Scenario.retriever. cbn [List.map py_str] in H1, H2.
    change (py_repr (PyList [PyStr "datasets"; PyStr "hub-docs"]))
      with "['datasets', 'hub-docs']" in H1.
    rewrite H1, H2. split; reflexivity.
Defined.

Lemma bare_source_filter_is_singleton_witness :
  Scenario.retriever (PyStr "q") (PyStr "hub-docs")
  = (Returns (RetrieverTool.header +:+ "Spaces host demos."),
     State (heap Scenario.session) tt
       [SimilaritySearch "q" (PyDict [("source", PyList [PyStr "hub-docs"])]) 3]).
Proof.
  unfold Scenario.retriever.
  rewrite (bare_source_filter_is_singleton Scenario.session Scenario.tool Scenario.vectordb
             "q" "hub-docs");
    [reflexivity | reflexivity | discriminate | reflexivity | reflexivity].
Defined.

(** X3. A source text that the JSON reader turns into a false value (the
    empty list, 0, null, false, the empty string or object) is dropped: the
    call does what the call without source does, a search of all sources. *)
Theorem X3_false_filter_is_no_filter {R : Type}
    (json_loads : string -> option pyval)
    (st : state R) (self : loc) (q s : string) (v : pyval) :
  s <> "" ->
  lenient_parse json_loads s = Some v ->
  truthy v = false ->
  RetrieverTool.forward json_loads self (PyStr q) (PyStr s) st
  = RetrieverTool.forward json_loads self (PyStr q) PyNone st.
Proof.
  intros Hs Hv Hf.
  assert (Hp : parsed_source json_loads (PyStr s) = Returns v).
  { unfold lenient_parse, list_form in Hv.
    destruct (str_in "[" s) eqn:Hb.
    - rewrite (parsed_source_bracketed json_loads s Hs Hb). now rewrite Hv.
    - rewrite (parsed_source_bare json_loads s Hs Hb), singleton_text. now rewrite Hv. }
  rewrite !forward_unfold, Hp.
  cbn [parsed_source truthy]. unfold filter_of. rewrite Hf. reflexivity.
Qed.

Lemma X3_false_filter_is_no_filter_witness :
  Scenario.retriever (PyStr "q") (PyStr "[]") = Scenario.retriever (PyStr "q") PyNone
  /\ log (snd (Scenario.retriever (PyStr "q") (PyStr "[]")))
     = [SimilaritySearch "q" PyNone 3].
Proof.
  split; [| reflexivity].
  apply (X3_false_filter_is_no_filter Json.loads Scenario.session Scenario.tool
           "q" "[]" (PyList [])).
  - discriminate.
  - reflexivity.
  - reflexivity.
Defined.

Lemma header_is_not_the_message (body : string) :
  RetrieverTool.header +:+ body <> RetrieverTool.no_documents.
Proof. discriminate. Qed.

Lemma render_no_documents (docs : list Document) :
  RetrieverTool.render docs = RetrieverTool.no_documents <-> docs = [].
Proof.
  unfold RetrieverTool.render. destruct docs as [| d docs]; cbn [length Nat.eqb].
  - split; reflexivity.
  - split; [intros H; now apply header_is_not_the_message in H | discriminate].
Qed.

Lemma firstn_3_nil {A : Type} (l : list A) : firstn 3 l = [] <-> l = [].
Proof. destruct l; cbn; split; congruence. Qed.

(** X4. The caller can tell the two outcomes apart: the tool returns the
    no-documents message exactly when the store has no match for the query
    under the filter it was given, and any other result starts with the
    header. *)
Theorem X4_message_iff_no_match {R : Type}
    (json_loads : string -> option pyval)
    (st : state R) (self : loc) (vs : VectorStore) (q : string) (source v : pyval) :
  lookup_attr (heap st) self "vectordb" = Some (VStore vs) ->
  parsed_source json_loads source = Returns v ->
  exists out,
    fst (RetrieverTool.forward json_loads self (PyStr q) source st) = Returns out
    /\ (out = RetrieverTool.no_documents <-> ranked vs q (filter_of v) = [])
    /\ (ranked vs q (filter_of v) <> [] -> String.prefix RetrieverTool.header out = true).
Proof.
  intros Hvs Hp. rewrite forward_unfold, Hp, Hvs. cbn [fst].
  eexists. split; [reflexivity |]. unfold similarity_search. split.
  - rewrite render_no_documents. apply firstn_3_nil.
  - intros Hne. unfold RetrieverTool.render.
    destruct (firstn 3 (ranked vs q (filter_of v))) as [| d ds] eqn:E.
    + exfalso. apply Hne. now apply firstn_3_nil.
    + cbn [length Nat.eqb]. apply prefix_append.
Qed.

Lemma X4_message_iff_no_match_witness :
  exists out,
    fst (Scenario.retriever (PyStr "q") (PyStr "course")) = Returns out
    /\ (out = RetrieverTool.no_documents
        <-> ranked Scenario.vectordb "q" (PyDict [("source", PyList [PyStr "course"])]) = [])
    /\ (ranked Scenario.vectordb "q" (PyDict [("source", PyList [PyStr "course"])]) <> [] ->
        String.prefix RetrieverTool.header out = true).
Proof.
  apply (X4_message_iff_no_match Json.loads Scenario.session Scenario.tool
           Scenario.vectordb "q" (PyStr "course") (PyList [PyStr "course"])).
  - reflexivity.
  - reflexivity.
Defined.

(** ** What the constructor shares and what it does not *)

(** The constructor changes two objects, the new instance and the shared
    dict of the source parameter, and no other. *)
Lemma new_touches_two_objects {R : Type} (st : state R) (cls li ls : loc)
    (v : value) (a : pyval) :
  class_inputs (heap st) cls li ls ->
  exists t st',
    RetrieverTool.new cls v a st = (Returns t, st')
    /\ heap st !! t = None
    /\ (exists attrs,
          heap st' !! t = Some (OInstance cls attrs) /\ attrs !! "vectordb" = Some v)
    /\ (forall l, l <> t -> l <> ls -> heap st' !! l = heap st !! l)
    /\ class_inputs (heap st') cls li ls
    /\ resource st' = resource st /\ log st' = log st.
Proof.
  intros Hshape.
  assert (Hshape' := Hshape).
  destruct Hshape' as (Hne & cattrs & di & ds & Hc & Hi & Hli & Hs & Hls).
  set (t := fresh (dom (heap st))).
  assert (Ht : heap st !! t = None) by apply fresh_unused.
  assert (Htc : t <> cls) by congruence.
  assert (Hti : t <> li) by congruence.
  assert (Hts : t <> ls) by congruence.
  set (attrs := <["vectordb" := v]> (<["is_initialized" := VPy (PyBool false)]> ∅)
                : gmap string value).
  set (h3 := <[t := OInstance cls attrs]>
               (<[t := OInstance cls (<["is_initialized" := VPy (PyBool false)]> ∅)]>
                  (<[t := OInstance cls ∅]> (heap st)))).
  set (d := VPy (PyStr (RetrieverTool.source_description a))).
  assert (Hattrs : attrs !! "inputs" = None) by reflexivity.
  assert (H3t : h3 !! t = Some (OInstance cls attrs)) by apply lookup_insert_eq.
  assert (H3o : forall l, t <> l -> h3 !! l = heap st !! l).
  { intros l Hl. unfold h3. now rewrite !lookup_insert_ne by exact Hl. }
  assert (Hnew : RetrieverTool.new cls v a st
                 = (Returns t,
                    State (<[ls := ODict (<["description" := d]> ds)]> h3)
                          (resource st) (log st))).
  { unfold RetrieverTool.new.
    erewrite bind_returns; [| apply alloc_eq]. fold t.
    erewrite bind_returns; [reflexivity |].
    unfold RetrieverTool.__init__, Tool.__init__.
    erewrite bind_returns; [| apply setattr_instance; apply lookup_insert_eq].
    erewrite bind_returns; [| apply setattr_instance; apply lookup_insert_eq].
    erewrite bind_returns;
      [| eapply getattr_through_class;
         [exact H3t | exact Hattrs
         | cbn [heap]; rewrite !lookup_insert_ne by assumption; exact Hc
         | exact Hi]].
    erewrite bind_returns;
      [| eapply getitem_dict;
         [cbn [heap]; rewrite !lookup_insert_ne by assumption; exact Hli | exact Hs]].
    erewrite setitem_dict; [reflexivity |].
    cbn [heap]. rewrite !lookup_insert_ne by assumption. exact Hls. }
  destruct (new_overwrites st cls li ls v a Hshape)
    as (t' & st' & Hnew' & _ & Hshape1 & _ & _ & _ & _ & _).
  rewrite Hnew in Hnew'. injection Hnew' as <- <-.
  eexists t, _. split; [exact Hnew |]. cbn [heap resource log].
  split; [exact Ht |]. split.
  { exists attrs. rewrite lookup_insert_ne by congruence. split; [exact H3t | reflexivity]. }
  split.
  { intros l Hlt Hll. rewrite lookup_insert_ne by congruence. apply H3o. congruence. }
  split; [exact Hshape1 | auto].
Qed.

(** An instance met before the constructor runs keeps its attributes. *)
Lemma lookup_attr_kept {R : Type} (st st' : state R) (cls li ls t t0 : loc)
    (name : string) (v0 : value) (attrs0 : gmap string value) :
  class_inputs (heap st) cls li ls ->
  heap st !! t = None ->
  (forall l, l <> t -> l <> ls -> heap st' !! l = heap st !! l) ->
  heap st !! t0 = Some (OInstance cls attrs0) ->
  attrs0 !! name = Some v0 ->
  lookup_attr (heap st') t0 name = Some v0.
Proof.
  intros (_ & cattrs & di & ds & Hc & Hi & Hli & Hs & Hls) Ht Hkeep Ht0 Hn.
  unfold lookup_attr. rewrite Hkeep by congruence. now rewrite Ht0, Hn.
Qed.

(** X5. The store is held by the instance, not by the class: of two tools
    built one after the other on two stores, each searches its own store,
    also once the other exists; and building them calls no store and leaves
    the external resource as it was. *)
Theorem X5_each_tool_searches_its_own_store {R : Type}
    (json_loads : string -> option pyval)
    (st : state R) (vs1 vs2 : VectorStore) (a1 a2 : pyval) (q : string) :
  exists cls st0 t1 st1 t2 st2,
    RetrieverTool.class_statement st = (Returns cls, st0)
    /\ RetrieverTool.new cls (VStore vs1) a1 st0 = (Returns t1, st1)
    /\ RetrieverTool.new cls (VStore vs2) a2 st1 = (Returns t2, st2)
    /\ fst (RetrieverTool.forward json_loads t1 (PyStr q) PyNone st2)
       = Returns (RetrieverTool.render (similarity_search vs1 q PyNone 3))
    /\ fst (RetrieverTool.forward json_loads t2 (PyStr q) PyNone st2)
       = Returns (RetrieverTool.render (similarity_search vs2 q PyNone 3))
    /\ log st2 = log st
    /\ resource st2 = resource st.
Proof.
  destruct (class_statement_shape st)
    as (cls & li & ls & st0 & Hcls & Hshape0 & _ & Hr0 & Hl0).
  destruct (new_touches_two_objects st0 cls li ls (VStore vs1) a1 Hshape0)
    as (t1 & st1 & Hnew1 & Hfresh1 & Hv1 & Hkeep1 & Hshape1 & Hr1 & Hl1).
  destruct (new_touches_two_objects st1 cls li ls (VStore vs2) a2 Hshape1)
    as (t2 & st2 & Hnew2 & Hfresh2 & Hv2 & Hkeep2 & _ & Hr2 & Hl2).
  exists cls, st0, t1, st1, t2, st2.
  split; [exact Hcls |]. split; [exact Hnew1 |]. split; [exact Hnew2 |].
  destruct Hv1 as (attrs1 & Ht1 & Hv1). destruct Hv2 as (attrs2 & Ht2 & Hv2).
  assert (Hv1' : lookup_attr (heap st2) t1 "vectordb" = Some (VStore vs1)).
  { apply (lookup_attr_kept st1 st2 cls li ls t2 t1 "vectordb" _ attrs1); assumption. }
  assert (Hv2' : lookup_attr (heap st2) t2 "vectordb" = Some (VStore vs2)).
  { unfold lookup_attr. now rewrite Ht2, Hv2. }
  split; [| split; [| split; congruence]].
  - rewrite forward_unfold. cbn [parsed_source truthy]. now rewrite Hv1'.
  - rewrite forward_unfold. cbn [parsed_source truthy]. now rewrite Hv2'.
Qed.

(** ** The sources of the knowledge base *)

Lemma join_holds_each_part (sep x : string) (parts : list string) :
  In x parts -> exists a b, join sep parts = a +:+ x +:+ b.
Proof.
  induction parts as [| p parts IH]; [intros [] |].
  intros [-> | Hin].
  - destruct parts as [| p2 parts].
    + exists "", "". cbn [join String.concat]. now rewrite append_nil_l, append_nil_r.
    + exists "", (sep +:+ join sep (p2 :: parts)). reflexivity.
  - destruct (IH Hin) as (a & b & E).
    destruct parts as [| p2 parts]; [destruct Hin |].
    exists (p +:+ sep +:+ a), b.
    change (join sep (p :: p2 :: parts)) with (p +:+ sep +:+ join sep (p2 :: parts)).
    rewrite E, !append_assoc. reflexivity.
Qed.

(** X6. Whatever order the set gives them, the description that the
    constructor writes for the source parameter names every source of the
    processed documents, each in the form Python prints a string. *)
Theorem X6_description_names_every_source (docs : list Document)
    (sources : list string) (d : Document) :
  KnowledgeBase.all_sources_of docs sources ->
  In d docs ->
  str_in (str_repr (source_of d))
    (RetrieverTool.source_description (PyList (List.map PyStr sources))) = true.
Proof.
  intros [_ Hall] Hd.
  assert (Hin : In (str_repr (source_of d)) (List.map py_repr (List.map PyStr sources))).
  { rewrite List.map_map. apply (in_map (fun x => py_repr (PyStr x))).
    apply Hall. now apply in_map. }
  destruct (join_holds_each_part ", " _ _ Hin) as (a & b & E).
  unfold RetrieverTool.source_description.
  change (py_str (PyList (List.map PyStr sources)))
    with ("[" +:+ join ", " (List.map py_repr (List.map PyStr sources)) +:+ "]").
  rewrite E, !append_assoc.
  rewrite <- (append_assoc _ "[" _), <- (append_assoc _ a _).
  apply str_in_middle.
Qed.

Lemma X6_description_names_every_source_witness :
  str_in "'datasets'"
    (RetrieverTool.source_description
       (PyList [PyStr "hub-docs"; PyStr "transformers"; PyStr "datasets"])) = true.
Proof.
  apply (X6_description_names_every_source Scenario.passages
           ["hub-docs"; "transformers"; "datasets"]
           {| page_content := "Datasets are memory-mapped Arrow tables.";
              source_of := "datasets" |}).
  - split.
    + apply (bool_decide_unpack (NoDup ["hub-docs"; "transformers"; "datasets"])).
      vm_compute. exact I.
    + intros x. cbn. intuition.
  - cbn. auto.
Defined.

(** ** The second component of a source path *)

Lemma split_not_nil (sep : ascii) (s : string) : Str.split sep s <> [].
Proof.
  destruct s as [| a s]; cbn [Str.split]; [discriminate |].
  destruct (Ascii.eqb a sep); [discriminate |].
  destruct (Str.split sep s); discriminate.
Qed.

(** A text without the separator is one piece. *)
Lemma split_without_sep (sep : ascii) (s : string) :
  char_in sep s = false -> Str.split sep s = [s].
Proof.
  induction s as [| a s IH]; [reflexivity |].
  cbn [char_in Str.split]. intros H.
  apply orb_false_elim in H as [Ha Hs].
  rewrite Ascii.eqb_sym, Ha, (IH Hs). reflexivity.
Qed.

(** The first separator ends the first piece. *)
Lemma split_at_first_sep (sep : ascii) (a rest : string) :
  char_in sep a = false ->
  Str.split sep (a +:+ String sep rest) = a :: Str.split sep rest.
Proof.
  induction a as [| x a IH]; intros H.
  - rewrite append_nil_l. cbn [Str.split]. now rewrite Ascii.eqb_refl.
  - cbn [char_in] in H. apply orb_false_elim in H as [Hx Ha].
    rewrite append_cons. cbn [Str.split].
    rewrite Ascii.eqb_sym, Hx, (IH Ha). reflexivity.
Qed.

Lemma char_in_append_sep (sep : ascii) (a rest : string) :
  char_in sep (a +:+ String sep rest) = true.
Proof.
  induction a as [| x a IH].
  - rewrite append_nil_l. cbn [char_in]. now rewrite Ascii.eqb_refl.
  - rewrite append_cons. cbn [char_in]. rewrite IH. apply orb_true_r.
Qed.

(** Every text is a first piece, and after a separator the rest. *)
Lemma first_piece (sep : ascii) (s : string) :
  char_in sep s = false
  \/ exists a rest, char_in sep a = false /\ s = a +:+ String sep rest.
Proof.
  induction s as [| x s IH]; [now left |].
  cbn [char_in]. destruct (Ascii.eqb sep x) eqn:E.
  - right. exists "", s. apply Ascii.eqb_eq in E as ->. split; reflexivity.
  - destruct IH as [H | (a & rest & Ha & ->)]; [now left |].
    right. exists (String x a), rest. cbn [char_in]. rewrite E, Ha. split; reflexivity.
Qed.

Lemma second_component_at_end (a b : string) :
  char_in "/" a = false -> char_in "/" b = false ->
  KnowledgeBase.second_component (a +:+ String "/" b) = Some b.
Proof.
  intros Ha Hb. unfold KnowledgeBase.second_component.
  now rewrite (split_at_first_sep _ a b Ha), (split_without_sep _ b Hb).
Qed.

Lemma second_component_inside (a b rest : string) :
  char_in "/" a = false -> char_in "/" b = false ->
  KnowledgeBase.second_component (a +:+ String "/" (b +:+ String "/" rest)) = Some b.
Proof.
  intros Ha Hb. unfold KnowledgeBase.second_component.
  now rewrite (split_at_first_sep _ a _ Ha), (split_at_first_sep _ b rest Hb).
Qed.

Lemma second_component_some (source name : string) :
  KnowledgeBase.second_component source = Some name ->
  exists a,
    char_in "/" a = false /\ char_in "/" name = false
    /\ (source = a +:+ "/" +:+ name
        \/ exists rest, source = a +:+ "/" +:+ name +:+ "/" +:+ rest).
Proof.
  destruct (first_piece "/" source) as [Hno | (a & rest & Ha & ->)].
  - unfold KnowledgeBase.second_component.
    rewrite (split_without_sep _ source Hno). discriminate.
  - destruct (first_piece "/" rest) as [Hb | (b & rest' & Hb & ->)].
    + rewrite (second_component_at_end a rest Ha Hb). intros [= <-].
      exists a. auto.
    + rewrite (second_component_inside a b rest' Ha Hb). intros [= <-].
      exists a. split; [exact Ha |]. split; [exact Hb |]. right. exists rest'. reflexivity.
Qed.

Lemma second_component_none (source : string) :
  KnowledgeBase.second_component source = None <-> char_in "/" source = false.
Proof.
  split.
  - intros Hnone.
    destruct (first_piece "/" source) as [Hno | (a & rest & Ha & ->)]; [exact Hno |].
    exfalso.
    destruct (first_piece "/" rest) as [Hb | (b & rest' & Hb & ->)].
    + rewrite (second_component_at_end a rest Ha Hb) in Hnone. discriminate.
    + rewrite (second_component_inside a b rest' Ha Hb) in Hnone. discriminate.
  - intros Hno. unfold KnowledgeBase.second_component.
    now rewrite (split_without_sep _ source Hno).
Qed.

(** X7. [source.split("/")[1]] fails with an IndexError exactly when the
    source has no slash; otherwise it is the text between the first slash and
    the second (or the end), which has no slash in it. *)
Theorem X7_second_component (source : string) :
  (KnowledgeBase.second_component source = None <-> char_in "/" source = false)
  /\ forall name,
       KnowledgeBase.second_component source = Some name <->
       exists a,
         char_in "/" a = false /\ char_in "/" name = false
         /\ (source = a +:+ "/" +:+ name
             \/ exists rest, source = a +:+ "/" +:+ name +:+ "/" +:+ rest).
Proof.
  split; [apply second_component_none |].
  intros name. split; [apply second_component_some |].
  intros (a & Ha & Hn & [-> | (rest & ->)]).
  - apply (second_component_at_end a name Ha Hn).
  - apply (second_component_inside a name rest Ha Hn).
Qed.

Lemma source_docs_some (kb : list KnowledgeBase.row) (docs : list Document) :
  KnowledgeBase.source_docs kb = Some docs ->
  List.map page_content docs = List.map KnowledgeBase.text kb
  /\ Forall (fun d => char_in "/" (source_of d) = false) docs.
Proof.
  revert docs. induction kb as [| doc kb IH]; intros docs H;
    cbn [KnowledgeBase.source_docs] in H.
  - injection H as <-. split; [reflexivity | constructor].
  - destruct (KnowledgeBase.second_component (KnowledgeBase.source doc)) as [name |] eqn:E;
      [| discriminate].
    destruct (KnowledgeBase.source_docs kb) as [docs' |]; [| discriminate].
    injection H as <-.
    destruct (IH docs' eq_refl) as [Hc Hs].
    split; [cbn; now rewrite Hc |].
    constructor; [| exact Hs]. cbn.
    apply second_component_some in E as (a & _ & Hn & _).
    exact Hn.
Qed.


Lemma source_docs_none (kb : list KnowledgeBase.row) :
  KnowledgeBase.source_docs kb = None
  <-> exists doc, In doc kb /\ char_in "/" (KnowledgeBase.source doc) = false.
Proof.
  induction kb as [| doc kb IH]; cbn [KnowledgeBase.source_docs].
  - split; [discriminate | intros (d & [] & _)].
  - destruct (KnowledgeBase.second_component (KnowledgeBase.source doc)) as [name |] eqn:E.
    + assert (Hslash : char_in "/" (KnowledgeBase.source doc) <> false).
      { intros Hc. apply second_component_none in Hc. congruence. }
      destruct (KnowledgeBase.source_docs kb) as [docs |].
      * split; [discriminate |].
        intros (d & [<- | Hin] & Hd); [contradiction |].
        assert (Hn : @Some (list Document) docs = None) by (apply IH; eauto).
        discriminate Hn.
      * split; [| reflexivity]. intros _.
        destruct (proj1 IH eq_refl) as (d & Hin & Hd). exists d. cbn. auto.
    + split; [| reflexivity]. intros _. exists doc. split; [now left |].
      now apply second_component_none.
Qed.

(** X8. Building [source_docs] fails, with nothing built, exactly when some
    row of the knowledge base has a source without a slash; when it succeeds
    there is one document per row, in order, with the row's text, and no
    source name has a slash in it. *)
Theorem X8_source_docs (kb : list KnowledgeBase.row) :
  (KnowledgeBase.source_docs kb = None
   <-> exists doc, In doc kb /\ char_in "/" (KnowledgeBase.source doc) = false)
  /\ forall docs,
       KnowledgeBase.source_docs kb = Some docs ->
       List.map page_content docs = List.map KnowledgeBase.text kb
       /\ List.map (fun d => Some (source_of d)) docs
          = List.map (fun r => KnowledgeBase.second_component (KnowledgeBase.source r)) kb
       /\ Forall (fun d => char_in "/" (source_of d) = false) docs.
Proof.
  split; [apply source_docs_none |].
  intros docs H.
  destruct (source_docs_some kb docs H) as [Hc Hs].
  split; [exact Hc |]. split; [| exact Hs].
  clear Hc Hs. revert docs H.
  induction kb as [| doc kb IH]; intros docs H; cbn [KnowledgeBase.source_docs] in H.
  - injection H as <-. reflexivity.
  - destruct (KnowledgeBase.second_component (KnowledgeBase.source doc)) as [name |] eqn:E;
      [| discriminate].
    destruct (KnowledgeBase.source_docs kb) as [docs' |]; [| discriminate].
    injection H as <-. cbn [List.map source_of]. rewrite E. f_equal. now apply IH.
Qed.

(** * Further properties of the text-to-SQL notebook *)

Lemma char_in_append (c : ascii) (a b : string) :
  char_in c (a +:+ b) = char_in c a || char_in c b.
Proof.
  induction a as [| x a IH]; [reflexivity |].
  rewrite append_cons. cbn [char_in]. rewrite IH. apply orb_assoc.
Qed.

(** Joining with a separator and splitting at it gives the parts back, when
    no part holds the separator. *)
Lemma split_join (sep : ascii) (parts : list string) :
  parts <> [] ->
  Forall (fun p => char_in sep p = false) parts ->
  Str.split sep (join (String sep "") parts) = parts.
Proof.
  intros Hne Hall. induction Hall as [| p parts Hp Hall IH]; [congruence |].
  destruct parts as [| p2 parts].
  - apply (split_without_sep sep p Hp).
  - change (join (String sep "") (p :: p2 :: parts))
      with (p +:+ String sep "" +:+ join (String sep "") (p2 :: parts)).
    rewrite append_cons, append_nil_l, (split_at_first_sep sep p _ Hp), IH;
      [reflexivity | discriminate].
Qed.

Lemma column_lines_split (columns_info : list (string * string)) :
  columns_info <> [] ->
  Forall (fun col => char_in newline (fst col) = false
                     /\ char_in newline (snd col) = false) columns_info ->
  Str.split newline (join nl (List.map SqlNotebook.column_line columns_info))
  = List.map SqlNotebook.column_line columns_info.
Proof.
  intros Hne Hcols. apply (split_join newline).
  - destruct columns_info; [congruence | discriminate].
  - apply Forall_map. eapply Forall_impl; [exact Hcols |].
    intros [name type] [Hn Ht]. unfold SqlNotebook.column_line. cbn [fst snd compose] in *.
    rewrite !char_in_append, Hn, Ht. reflexivity.
Qed.

(** X9. The table description is one line per column after the line
    [Columns:], in the inspector's order: for names and types without a
    newline, splitting it at the newlines gives that heading and the column
    lines back; with no column at all it ends in an empty line. *)
Theorem X9_table_description_lines (columns_info : list (string * string)) :
  Forall (fun col => char_in newline (fst col) = false
                     /\ char_in newline (snd col) = false) columns_info ->
  Str.split newline (SqlNotebook.table_description columns_info)
  = "Columns:" :: match columns_info with
                  | [] => [""]
                  | _ => List.map SqlNotebook.column_line columns_info
                  end.
Proof.
  intros Hcols. unfold SqlNotebook.table_description.
  change ("Columns:" +:+ nl +:+ ?x) with ("Columns:" +:+ String newline x).
  rewrite (split_at_first_sep newline "Columns:" _ eq_refl). f_equal.
  destruct columns_info as [| col cols]; [reflexivity |].
  apply column_lines_split; [discriminate | exact Hcols].
Qed.

Lemma X9_table_description_lines_witness :
  Str.split newline
    (SqlNotebook.table_description
       [("receipt_id", "INTEGER"); ("customer_name", "VARCHAR(16)");
        ("price", "FLOAT"); ("tip", "FLOAT")])
  = ["Columns:"; "  - receipt_id: INTEGER"; "  - customer_name: VARCHAR(16)";
     "  - price: FLOAT"; "  - tip: FLOAT"].
Proof.
  apply (X9_table_description_lines
           [("receipt_id", "INTEGER"); ("customer_name", "VARCHAR(16)");
            ("price", "FLOAT"); ("tip", "FLOAT")]).
  repeat constructor.
Defined.

(** ** The description of the SQL tool *)

Lemma sql_new_spec {R : Type} (cls : loc) (st : state R) :
  exists t st',
    SqlNotebook.new cls st = (Returns t, st')
    /\ heap st !! t = None
    /\ heap st' !! t
       = Some (OInstance cls (<["is_initialized" := VPy (PyBool false)]> ∅))
    /\ (forall l, l <> t -> heap st' !! l = heap st !! l)
    /\ resource st' = resource st /\ log st' = log st.
Proof.
  set (t := fresh (dom (heap st))).
  assert (Ht : heap st !! t = None) by apply fresh_unused.
  exists t. eexists. split.
  { unfold SqlNotebook.new, Tool.__init__.
    erewrite bind_returns; [| apply alloc_eq]. fold t.
    erewrite bind_returns; [reflexivity |].
    apply setattr_instance. apply lookup_insert_eq. }
  cbn [heap resource log]. split; [exact Ht |]. split; [apply lookup_insert_eq |].
  split; [| auto].
  intros l Hl. now rewrite !lookup_insert_ne by congruence.
Qed.

Lemma sql_class_statement_spec {R : Type} (td : string) (st : state R) :
  exists cls st0 cattrs,
    SqlNotebook.class_statement td st = (Returns cls, st0)
    /\ heap st0 !! cls = Some (OClass cattrs)
    /\ cattrs !! "description" = Some (VPy (PyStr (SqlNotebook.description td)))
    /\ resource st0 = resource st /\ log st0 = log st.
Proof.
  do 3 eexists. split; [reflexivity |]. cbn [heap resource log].
  split; [apply lookup_insert_eq |]. split; [reflexivity | auto].
Qed.

Lemma getattr_own {R : Type} (st : state R) (self cls : loc)
    (attrs : gmap string value) (name : string) (v : value) :
  heap st !! self = Some (OInstance cls attrs) ->
  attrs !! name = Some v ->
  getattr self name st = (Returns v, st).
Proof. intros H1 H2. unfold getattr, lookup_attr. now rewrite H1, H2. Qed.

(** X10. Assigning [description] on one SQL tool sets an attribute of that
    instance: the tool reports the new text, while the class, the tool built
    before and a tool built afterwards keep the description of the class
    statement. *)
Theorem X10_description_is_set_on_the_instance {R : Type}
    (st : state R) (td updated : string) :
  exists cls st0 first st1 sql_tool st2 later st3,
    SqlNotebook.class_statement td st = (Returns cls, st0)
    /\ SqlNotebook.new cls st0 = (Returns first, st1)
    /\ SqlNotebook.updated_tool cls updated st1 = (Returns sql_tool, st2)
    /\ SqlNotebook.new cls st2 = (Returns later, st3)
    /\ getattr sql_tool "description" st3 = (Returns (VPy (PyStr updated)), st3)
    /\ getattr first "description" st3
       = (Returns (VPy (PyStr (SqlNotebook.description td))), st3)
    /\ getattr later "description" st3
       = (Returns (VPy (PyStr (SqlNotebook.description td))), st3)
    /\ lookup_attr (heap st3) cls "description"
       = Some (VPy (PyStr (SqlNotebook.description td))).
Proof.
  destruct (sql_class_statement_spec td st) as (cls & st0 & cattrs & Hcls & Hc0 & Hd & _).
  destruct (sql_new_spec cls st0) as (t1 & st1 & Hnew1 & Hf1 & Ht1 & Hk1 & _).
  destruct (sql_new_spec cls st1) as (t2 & st2' & Hnew2 & Hf2 & Ht2 & Hk2 & _).
  set (attrs2 := <["description" := VPy (PyStr updated)]>
                   (<["is_initialized" := VPy (PyBool false)]> ∅) : gmap string value).
  set (st2 := State (<[t2 := OInstance cls attrs2]> (heap st2')) (resource st2') (log st2')).
  assert (Hupd : SqlNotebook.updated_tool cls updated st1 = (Returns t2, st2)).
  { unfold SqlNotebook.updated_tool.
    erewrite bind_returns; [| exact Hnew2].
    erewrite bind_returns; [reflexivity |].
    apply setattr_instance. exact Ht2. }
  destruct (sql_new_spec cls st2) as (t3 & st3 & Hnew3 & Hf3 & Ht3 & Hk3 & _).
  set (attrs1 := <["is_initialized" := VPy (PyBool false)]> ∅ : gmap string value) in *.
  assert (Hct1 : cls <> t1) by congruence.
  assert (Hc1 : heap st1 !! cls = Some (OClass cattrs)) by (rewrite Hk1; assumption).
  assert (Hct2 : cls <> t2) by congruence.
  assert (Ht12 : t1 <> t2) by congruence.
  assert (Hc2' : heap st2' !! cls = Some (OClass cattrs)) by (rewrite Hk2; assumption).
  assert (H21 : heap st2' !! t1 = Some (OInstance cls attrs1)) by (rewrite Hk2; assumption).
  assert (H2o : forall l, l <> t2 -> heap st2 !! l = heap st2' !! l).
  { intros l Hl. unfold st2. cbn [heap]. now rewrite lookup_insert_ne by congruence. }
  assert (H2t2 : heap st2 !! t2 = Some (OInstance cls attrs2)) by apply lookup_insert_eq.
  assert (Hc2 : heap st2 !! cls = Some (OClass cattrs)) by (rewrite H2o; assumption).
  assert (H22 : heap st2 !! t1 = Some (OInstance cls attrs1)) by (rewrite H2o; assumption).
  assert (Hct3 : cls <> t3) by congruence.
  assert (Ht13 : t1 <> t3) by congruence.
  assert (Ht23 : t2 <> t3) by congruence.
  assert (Hc3 : heap st3 !! cls = Some (OClass cattrs)) by (rewrite Hk3; assumption).
  exists cls, st0, t1, st1, t2, st2, t3, st3.
  split; [exact Hcls |]. split; [exact Hnew1 |]. split; [exact Hupd |].
  split; [exact Hnew3 |]. split; [| split; [| split]].
  - apply (getattr_own st3 t2 cls attrs2); [| reflexivity].
    rewrite Hk3; assumption.
  - eapply getattr_through_class; [| | exact Hc3 | exact Hd].
    + rewrite Hk3; [exact H22 | assumption].
    + reflexivity.
  - eapply getattr_through_class; [exact Ht3 | reflexivity | exact Hc3 | exact Hd].
  - unfold lookup_attr. now rewrite Hc3.
Qed.

(** ** The seeding loop *)

Lemma insert_rows_returns (rows : list (list (string * pyval))) :
  forall t t',
    SqlNotebook.insert_rows t rows = Some (Returns tt, t') ->
    exists stored,
      stored_rows (Sqlite.columns t) rows = Some stored
      /\ Sqlite.columns t' = Sqlite.columns t
      /\ Sqlite.primary_key t' = Sqlite.primary_key t
      /\ Sqlite.rows t' = Sqlite.rows t ++ stored.
Proof.
  induction rows as [| row rows IH]; intros t t' H; cbn [SqlNotebook.insert_rows] in H.
  - injection H as <-. exists []. now rewrite app_nil_r.
  - destruct (Sqlite.insert_values t row) as [[t1 | e] |] eqn:E; try discriminate.
    apply insert_values_returns in E as (s & Hs & Hc & Hk & Hr).
    apply IH in H as (ss & Hss & Hc' & Hk' & Hr').
    exists (s :: ss). cbn [stored_rows].
    rewrite Hc in Hss. rewrite Hs, Hss, Hc', Hk', Hr', Hc, Hk, Hr, <- app_assoc. auto.
Qed.


Lemma compare_string_refl (s : string) : String.compare s s = Eq.
Proof.
  induction s as [| a s IH]; [reflexivity |].
  cbn [String.compare]. unfold Ascii.compare. now rewrite N.compare_refl.
Qed.

Lemma compare_values_refl (v : pyval) : Sqlite.compare_values v v = Eq.
Proof.
  unfold Sqlite.compare_values. rewrite Z.compare_refl.
  destruct v; try (cbn; apply Z.compare_refl).
  apply compare_string_refl.
Qed.

Lemma same_key_refl (k : list pyval) : Sqlite.same_key k k = true.
Proof.
  unfold Sqlite.same_key.
  assert (H : Sqlite.compare_keys k k = Eq).
  { induction k as [| v k IH]; [reflexivity |].
    cbn [Sqlite.compare_keys]. now rewrite compare_values_refl. }
  now rewrite H.
Qed.

(** The schema decides what is a table of the model, what is stored for
    given values, and which cells make the key. *)
Lemma same_schema (t t' : Sqlite.table) :
  Sqlite.columns t' = Sqlite.columns t ->
  Sqlite.primary_key t' = Sqlite.primary_key t ->
  Sqlite.keyed t' = Sqlite.keyed t
  /\ forall r, Sqlite.key_of t' r = Sqlite.key_of t r.
Proof.
  intros Hc Hk. unfold Sqlite.keyed, Sqlite.key_of, Sqlite.names.
  rewrite Hc, Hk. auto.
Qed.

(** A row whose key is among the stored rows is refused. *)
Lemma insert_values_taken (t : Sqlite.table) (values : list (string * pyval))
    (r : Sqlite.row) :
  Sqlite.keyed t = true ->
  Sqlite.values_row (Sqlite.columns t) values = Some r ->
  In r (Sqlite.rows t) ->
  Sqlite.insert_values t values = Some (Raises (DatabaseError "IntegrityError")).
Proof.
  intros Hkeyed Hr Hin. unfold Sqlite.insert_values. rewrite Hkeyed, Hr.
  assert (Hex : existsb (fun r' => Sqlite.same_key (Sqlite.key_of t r') (Sqlite.key_of t r))
                  (Sqlite.rows t) = true).
  { apply existsb_exists. exists r. split; [exact Hin | apply same_key_refl]. }
  now rewrite Hex, orb_true_r.
Qed.

(** X11. Running the seeding loop a second time with the same rows, at
    least one, fails at its first insert and leaves the table as the first
    run left it. *)
Theorem X11_seeding_twice_fails (t t' : Sqlite.table)
    (rows : list (list (string * pyval))) :
  SqlNotebook.insert_rows t rows = Some (Returns tt, t') ->
  rows <> [] ->
  SqlNotebook.insert_rows t' rows = Some (Raises (DatabaseError "IntegrityError"), t').
Proof.
  intros H Hne. destruct rows as [| row rows]; [congruence |].
  assert (Hkeyed : Sqlite.keyed t = true).
  { cbn [SqlNotebook.insert_rows] in H. unfold Sqlite.insert_values in H.
    destruct (Sqlite.keyed t); [reflexivity | discriminate]. }
  apply insert_rows_returns in H as (stored & Hs & Hc & Hk & Hr).
  cbn [stored_rows] in Hs.
  destruct (Sqlite.values_row (Sqlite.columns t) row) as [r |] eqn:Er; [| discriminate].
  destruct (stored_rows (Sqlite.columns t) rows) as [ss |]; [| discriminate].
  injection Hs as <-.
  destruct (same_schema t t' Hc Hk) as [Hkeyed' _].
  cbn [SqlNotebook.insert_rows].
  rewrite (insert_values_taken t' row r); [reflexivity | congruence | congruence |].
  rewrite Hr. apply in_or_app. right. now left.
Qed.

Lemma X11_seeding_twice_fails_witness :
  exists t',
    SqlNotebook.insert_rows Receipts.receipts Receipts.rows = Some (Returns tt, t')
    /\ length (Sqlite.rows t') = 4%nat
    /\ SqlNotebook.insert_rows t' Receipts.rows
       = Some (Raises (DatabaseError "IntegrityError"), t').
Proof.
  eexists. split; [reflexivity |]. split; [reflexivity |].
  apply (X11_seeding_twice_fails Receipts.receipts); [reflexivity | discriminate].
Defined.



(** ** One line per row, whatever the values *)

Lemma no_newline_digits (d : Decimal.uint) :
  char_in newline (NilEmpty.string_of_uint d) = false.
Proof. induction d; cbn [NilEmpty.string_of_uint char_in]; try rewrite IHd; reflexivity. Qed.

Lemma no_newline_nat_digits (n : N) : char_in newline (nat_digits n) = false.
Proof.
  unfold nat_digits, NilZero.string_of_uint.
  destruct (N.to_uint n); try reflexivity; apply no_newline_digits.
Qed.

Lemma no_newline_substring (s : string) :
  char_in newline s = false ->
  forall n m, char_in newline (substring n m s) = false.
Proof.
  induction s as [| a s IH]; intros H n m.
  - destruct n, m; reflexivity.
  - cbn [char_in] in H. apply orb_false_elim in H as [Ha Hs].
    destruct n as [| n]; destruct m as [| m]; cbn [substring char_in];
      try reflexivity; try (apply IH; exact Hs).
    rewrite Ha. apply IH, Hs.
Qed.

Lemma no_newline_rev_onto (s acc : string) :
  char_in newline s = false -> char_in newline acc = false ->
  char_in newline (string_rev_onto acc s) = false.
Proof.
  revert acc. induction s as [| a s IH]; intros acc Hs Hacc; [exact Hacc |].
  cbn [char_in] in Hs. apply orb_false_elim in Hs as [Ha Hs].
  cbn [string_rev_onto]. apply IH; [exact Hs |]. cbn [char_in]. now rewrite Ha.
Qed.

Lemma no_newline_drop_zeros (s : string) :
  char_in newline s = false -> char_in newline (drop_zeros s) = false.
Proof.
  induction s as [| a s IH]; intros H; [reflexivity |].
  cbn [char_in] in H. apply orb_false_elim in H as [Ha Hs].
  assert (Hkeep : char_in newline (String a s) = false) by (cbn [char_in]; now rewrite Ha).
  cbn [drop_zeros].
  destruct a as [[] [] [] [] [] [] [] []]; try exact Hkeep; apply IH, Hs.
Qed.

Lemma no_newline_strip (s : string) :
  char_in newline s = false -> char_in newline (strip_trailing_zeros s) = false.
Proof.
  intros H. unfold strip_trailing_zeros, string_rev.
  apply no_newline_rev_onto; [| reflexivity].
  apply no_newline_drop_zeros, no_newline_rev_onto; [exact H | reflexivity].
Qed.

Lemma no_newline_zeros (n : nat) : char_in newline (zeros n) = false.
Proof. induction n; [reflexivity | exact IHn]. Qed.

Lemma no_newline_int (n : Z) : char_in newline (int_repr n) = false.
Proof.
  unfold int_repr. rewrite char_in_append, no_newline_nat_digits.
  destruct (n <? 0); reflexivity.
Qed.

Lemma no_newline_pad2 (s : string) :
  char_in newline s = false -> char_in newline (pad2 s) = false.
Proof.
  intros H. unfold pad2. destruct (Nat.ltb _ _); [| exact H].
  now rewrite char_in_append, H.
Qed.

Lemma no_newline_float (f : pyfloat) : char_in newline (float_repr f) = false.
Proof.
  unfold float_repr.
  destruct (f_mant f =? 0); [reflexivity |].
  assert (HD : char_in newline (strip_trailing_zeros (nat_digits (Z.abs_N (f_mant f)))) = false)
    by apply no_newline_strip, no_newline_nat_digits.
  cbv zeta.
  repeat match goal with
         | |- context [if ?b then _ else _] => destruct b
         end;
    rewrite ?char_in_append, ?no_newline_zeros, ?HD,
      ?(no_newline_substring _ HD), ?no_newline_pad2, ?no_newline_nat_digits;
    try reflexivity; try apply no_newline_nat_digits.
Qed.

Lemma no_newline_repr_char (q a : ascii) :
  q = squote \/ q = dquote -> char_in newline (repr_char q a) = false.
Proof.
  intros [-> | ->]; destruct a as [[] [] [] [] [] [] [] []]; reflexivity.
Qed.

Lemma no_newline_repr_chars (q : ascii) (s : string) :
  q = squote \/ q = dquote -> char_in newline (repr_chars q s) = false.
Proof.
  intros Hq. induction s as [| a s IH]; [reflexivity |].
  cbn [repr_chars]. now rewrite char_in_append, (no_newline_repr_char q a Hq), IH.
Qed.

Lemma no_newline_str_repr (s : string) : char_in newline (str_repr s) = false.
Proof.
  unfold str_repr.
  set (q := if char_in squote s && negb (char_in dquote s) then dquote else squote).
  assert (Hq : q = squote \/ q = dquote).
  { unfold q. destruct (char_in squote s && negb (char_in dquote s)); auto. }
  assert (Hq' : Ascii.eqb newline q = false) by (destruct Hq as [-> | ->]; reflexivity).
  cbn [char_in]. rewrite Hq', char_in_append, (no_newline_repr_chars q s Hq).
  cbn [char_in orb]. now rewrite Hq'.
Qed.

Lemma no_newline_scalar (v : pyval) :
  scalar v = true -> char_in newline (py_repr v) = false.
Proof.
  destruct v; try discriminate; intros _; cbn [py_repr].
  - reflexivity.
  - apply no_newline_int.
  - apply no_newline_float.
  - apply no_newline_str_repr.
Qed.

Lemma no_newline_trunc (v : pyval) :
  scalar v = true -> char_in newline (SQLExecutorTool.trunc v) = false.
Proof.
  intros Hv. assert (H := no_newline_scalar v Hv).
  unfold SQLExecutorTool.trunc. cbv zeta.
  destruct (Nat.ltb 300 _); [| exact H].
  now rewrite !char_in_append, !(no_newline_substring _ H), no_newline_nat_digits.
Qed.

Lemma no_newline_join (sep : string) (parts : list string) :
  char_in newline sep = false ->
  Forall (fun p => char_in newline p = false) parts ->
  char_in newline (join sep parts) = false.
Proof.
  intros Hsep Hall. induction Hall as [| p parts Hp Hall IH]; [reflexivity |].
  destruct parts as [| p2 parts]; [exact Hp |].
  change (join sep (p :: p2 :: parts)) with (p +:+ sep +:+ join sep (p2 :: parts)).
  now rewrite !char_in_append, Hp, Hsep, IH.
Qed.

Lemma no_newline_str_row (r : list pyval) :
  forallb scalar r = true -> char_in newline (SQLExecutorTool.str_row r) = false.
Proof.
  intros Hr. unfold SQLExecutorTool.str_row.
  rewrite !char_in_append, no_newline_join; [destruct (Nat.eqb _ 1); reflexivity | reflexivity |].
  apply Forall_map. apply Forall_forall. intros v Hv. cbn [compose].
  apply no_newline_trunc. rewrite forallb_forall in Hr. apply Hr.
  now apply list_elem_of_In.
Qed.

Lemma split_at_newline (x : string) :
  Str.split newline (String newline x) = "" :: Str.split newline x.
Proof. reflexivity. Qed.

Lemma row_lines_cons (r : list pyval) (rows : list (list pyval)) :
  row_lines (r :: rows) = String newline (SQLExecutorTool.str_row r +:+ row_lines rows).
Proof. reflexivity. Qed.

Lemma split_row_lines (rows : list (list pyval)) :
  forallb (forallb scalar) rows = true ->
  Str.split newline (row_lines rows) = "" :: List.map SQLExecutorTool.str_row rows.
Proof.
  induction rows as [| r rows IH]; [reflexivity |].
  cbn [forallb]. intros H. apply andb_prop in H as [Hr Hrows].
  specialize (IH Hrows).
  rewrite row_lines_cons, split_at_newline. cbn [List.map]. f_equal.
  destruct rows as [| r2 rows].
  - change (row_lines []) with "". rewrite append_nil_r.
    apply split_without_sep, no_newline_str_row, Hr.
  - rewrite row_lines_cons in IH |- *.
    rewrite split_at_newline in IH.
    assert (IH' : Str.split newline (SQLExecutorTool.str_row r2 +:+ row_lines rows)
                  = List.map SQLExecutorTool.str_row (r2 :: rows))
      by exact (f_equal (@List.tl string) IH).
    rewrite (split_at_first_sep newline _ _ (no_newline_str_row r Hr)), IH'.
    reflexivity.
Qed.

(** X13. Each row of the result stands on a line of its own, whatever its
    values: [repr] escapes the newlines of a text, so splitting the tool's
    output at the newlines gives an empty first piece and then exactly the
    texts of the rows, in order. *)
Theorem X13_output_splits_into_rows {D : Type}
    (execute : D -> string -> outcome (list (list pyval)) * D)
    (st : state D) (q : string) (result : list (list pyval)) :
  fst (execute (resource st) q) = Returns result ->
  forallb (forallb scalar) result = true ->
  exists out,
    fst (SQLExecutorTool.forward execute (PyStr q) st) = Returns out
    /\ Str.split newline out = "" :: List.map SQLExecutorTool.str_row result.
Proof.
  intros Hq Hs. rewrite sql_forward_string. cbn [fst]. rewrite Hq.
  eexists. split; [reflexivity |]. now apply split_row_lines.
Qed.

Lemma X13_output_splits_into_rows_witness :
  exists out,
    fst (Receipts.sql_engine receipts_db (PyStr Receipts.everything)) = Returns out
    /\ Str.split newline out
       = [""; "(1, 'Alan Payne', 12.06, 1.2)"; "(2, 'Alex Mason', 23.86, 0.24)";
          "(3, 'Woodrow Wilson', 53.43, 5.43)"; "(4, 'Margaret James', 21.11, 1.0)"].
Proof.
  apply (X13_output_splits_into_rows Sqlite.execute (State ∅ receipts_db [])
           Receipts.everything
           [ [PyInt 1; PyStr "Alan Payne"; Receipts.dec 1206 2; Receipts.dec 120 2];
             [PyInt 2; PyStr "Alex Mason"; Receipts.dec 2386 2; Receipts.dec 24 2];
             [PyInt 3; PyStr "Woodrow Wilson"; Receipts.dec 5343 2; Receipts.dec 543 2];
             [PyInt 4; PyStr "Margaret James"; Receipts.dec 2111 2; Receipts.dec 100 2] ]).
  - reflexivity.
  - reflexivity.
Defined.

(** * Properties of the generation cells *)

Section GenerationCells.
Context {W : Type}.
Variable from_pretrained : string -> pyval -> string.
Variable post : W -> string -> pyval -> pyval * W.

Abbreviation formatted_for model instructions :=
  (List.map (fun instruction => Generation.format_prompt instruction (from_pretrained model))
     instructions).

Lemma format_loop_app (models1 models2 instructions : list string)
    (acc : Generation.formatted) :
  Generation.format_loop from_pretrained (models1 ++ models2) instructions acc
  = Generation.format_loop from_pretrained models2 instructions
      (Generation.format_loop from_pretrained models1 instructions acc).
Proof.
  revert acc. induction models1 as [| m models1 IH]; intros acc; [reflexivity |].
  cbn [app Generation.format_loop]. apply IH.
Qed.

Lemma format_loop_lookup (models instructions : list string) (acc : Generation.formatted)
    (m : string) :
  Generation.prompts_formatted_dic
    (Generation.format_loop from_pretrained models instructions acc) !! m
  = if decide (m ∈ models) then Some (formatted_for m instructions)
    else Generation.prompts_formatted_dic acc !! m.
Proof.
  revert acc. induction models as [| m0 models IH]; intros acc.
  - cbn [Generation.format_loop]. destruct (decide (m ∈ [])) as [H | H]; [| reflexivity].
    now apply elem_of_nil in H.
  - cbn [Generation.format_loop]. rewrite IH. cbn [Generation.prompts_formatted_dic].
    destruct (decide (m ∈ models)) as [E | E].
    + destruct (decide (m ∈ m0 :: models)) as [H | H]; [reflexivity |].
      exfalso. apply H. apply elem_of_cons. now right.
    + destruct (decide (m0 = m)) as [-> | Hne].
      * rewrite lookup_insert_eq.
        destruct (decide (m ∈ m :: models)) as [H | H]; [reflexivity |].
        exfalso. apply H. apply elem_of_cons. now left.
      * rewrite lookup_insert_ne by exact Hne.
        destruct (decide (m ∈ m0 :: models)) as [H | H]; [| reflexivity].
        apply elem_of_cons in H. destruct H as [H | H]; [congruence | contradiction].
Qed.

Lemma format_loop_last (models instructions : list string) (acc : Generation.formatted) :
  Generation.prompt_formatted
    (Generation.format_loop from_pretrained models instructions acc)
  = match last models with
    | Some m => Some (formatted_for m instructions)
    | None => Generation.prompt_formatted acc
    end.
Proof.
  revert acc. induction models as [| m0 models IH]; intros acc; [reflexivity |].
  cbn [Generation.format_loop]. rewrite IH. cbn [Generation.prompt_formatted].
  rewrite last_cons. destruct (last models); reflexivity.
Qed.

Abbreviation requests_to model prompts :=
  (List.map (fun prompt => (Generation.api_url model, Generation.payload prompt)) prompts).

(** The inner loop: the requests are those of the first [k] prompts, in
    order; all of them when it returns, and then one text is added for each
    prompt. *)
Lemma generate_spec (model : string) (prompts : list string) (output_lst : list pyval)
    (s : Generation.session) :
  exists k : nat,
    (k <= length prompts)%nat
    /\ Generation.sent (snd (Generation.generate post (Generation.api_url model)
                               prompts output_lst s))
       = Generation.sent s ++ requests_to model (firstn k prompts)
    /\ match fst (Generation.generate post (Generation.api_url model) prompts output_lst s)
       with
       | inr outs =>
           k = length prompts
           /\ length outs = (length output_lst + length prompts)%nat
       | inl e => (0 < k)%nat /\ e <> Generation.NameError "prompt_formatted"
       end.
Proof.
  revert output_lst s. induction prompts as [| p prompts IH]; intros output_lst s.
  - exists 0%nat. cbn. rewrite app_nil_r. repeat split; lia.
  - cbn [Generation.generate]. unfold Generation.query.
    destruct (post (Generation.world s) (Generation.api_url model) (Generation.payload p))
      as [output w] eqn:Epost.
    set (s' := {| Generation.world := w;
                  Generation.sent := Generation.sent s
                                     ++ [(Generation.api_url model, Generation.payload p)] |}).
    destruct (Generation.first_item output) as [e | item] eqn:Efirst.
    + exists 1%nat. cbn [fst snd firstn List.map length]. repeat split; [lia | lia | ].
      destruct output as [| | | | [|] | [|] | [|] |]; cbn in Efirst; congruence.
    + destruct (Generation.generated_text item) as [e | text] eqn:Etext.
      * exists 1%nat. cbn [fst snd firstn List.map length]. repeat split; [lia | lia | ].
        unfold Generation.generated_text in Etext.
        destruct item; try congruence.
        destruct (List.find _ kvs); congruence.
      * destruct (IH (output_lst ++ [text]) s') as (k & Hk & Hsent & Hres).
        exists (S k). cbn [length firstn List.map]. split; [lia |]. split.
        -- rewrite Hsent. subst s'. cbn [Generation.sent].
           now rewrite <- app_assoc.
        -- destruct (fst (Generation.generate post (Generation.api_url model) prompts
                            (output_lst ++ [text]) s')) as [e | outs];
             [split; [lia | apply Hres] |].
           destruct Hres as [-> Hlen]. split; [reflexivity |].
           rewrite Hlen, length_app. cbn [length]. lia.
Qed.

(** The outer loop when it ends without an exception. *)
Lemma generation_loop_returns (models prompts : list string)
    (dic : gmap string (list pyval)) (s : Generation.session) :
  Generation.raised (Generation.generation_loop post models (Some prompts) dic s) = None ->
  Generation.sent (Generation.after
                     (Generation.generation_loop post models (Some prompts) dic s))
  = Generation.sent s ++ flat_map (fun m => requests_to m prompts) models
  /\ (forall m, m ∈ models ->
        exists outs,
          Generation.output_dic
            (Generation.generation_loop post models (Some prompts) dic s) !! m
          = Some outs
          /\ length outs = length prompts)
  /\ (forall m, m ∉ models ->
        Generation.output_dic
          (Generation.generation_loop post models (Some prompts) dic s) !! m
        = dic !! m).
Proof.
  revert dic s. induction models as [| m0 models IH]; intros dic s Hraised.
  - cbn. rewrite app_nil_r. split; [reflexivity |]. split; [| reflexivity].
    intros m Hm. now apply elem_of_nil in Hm.
  - cbn [Generation.generation_loop] in *.
    destruct (generate_spec m0 prompts [] s) as (k & Hk & Hsent & Hres).
    destruct (Generation.generate post (Generation.api_url m0) prompts [] s)
      as [[e | outs] s'] eqn:Egen; cbn [fst snd] in *; [discriminate |].
    destruct Hres as [-> Hlen]. cbn [length] in Hlen.
    destruct (IH _ _ Hraised) as (Hsent' & Hin & Hout). split; [| split].
    + rewrite Hsent', Hsent, firstn_all. cbn [flat_map]. now rewrite <- app_assoc.
    + intros m Hm. destruct (decide (m ∈ models)) as [Hm' | Hm'].
      * now apply Hin.
      * apply elem_of_cons in Hm. destruct Hm as [-> | Hm]; [| contradiction].
        exists outs. rewrite (Hout _ Hm'), lookup_insert_eq. split; [reflexivity | exact Hlen].
    + intros m Hm. rewrite Hout.
      * apply lookup_insert_ne. intros ->. apply Hm. apply elem_of_cons. now left.
      * intros H. apply Hm. apply elem_of_cons. now right.
Qed.

(** The outer loop when an exception ends it. *)
Lemma generation_loop_raises (models prompts : list string)
    (dic : gmap string (list pyval)) (s : Generation.session) (e : Generation.error) :
  Generation.raised (Generation.generation_loop post models (Some prompts) dic s) = Some e ->
  exists (done : list string) (failing : string) (rest : list string) (k : nat),
    models = done ++ failing :: rest
    /\ (0 < k <= length prompts)%nat
    /\ Generation.sent (Generation.after
                          (Generation.generation_loop post models (Some prompts) dic s))
       = Generation.sent s ++ flat_map (fun m => requests_to m prompts) done
         ++ requests_to failing (firstn k prompts)
    /\ (forall m, m ∉ done ->
          Generation.output_dic
            (Generation.generation_loop post models (Some prompts) dic s) !! m
          = dic !! m)
    /\ e <> Generation.NameError "prompt_formatted".
Proof.
  revert dic s. induction models as [| m0 models IH]; intros dic s Hraised.
  - discriminate.
  - cbn [Generation.generation_loop] in *.
    destruct (generate_spec m0 prompts [] s) as (k & Hk & Hsent & Hres).
    destruct (Generation.generate post (Generation.api_url m0) prompts [] s)
      as [[e0 | outs] s'] eqn:Egen; cbn [fst snd] in *.
    + cbn in Hraised. injection Hraised as <-.
      exists [], m0, models, k. cbn [app flat_map Generation.after Generation.output_dic].
      destruct Hres as [Hpos He]. repeat split; auto.
    + destruct Hres as [-> Hlen].
      destruct (IH _ _ Hraised) as (done & failing & rest & k & -> & Hk' & Hsent' & Hdic & He).
      exists (m0 :: done), failing, rest, k. repeat split; auto; try lia.
      * rewrite Hsent', Hsent, firstn_all. cbn [flat_map].
        now rewrite <- !app_assoc.
      * intros m Hm. rewrite Hdic.
        -- apply lookup_insert_ne. intros ->. apply Hm. apply elem_of_cons. now left.
        -- intros H. apply Hm. apply elem_of_cons. now right.
Qed.

Lemma format_cell_bound (models instructions : list string) :
  Generation.prompt_formatted (Generation.format_cell from_pretrained models instructions)
  = match last models with
    | Some m => Some (formatted_for m instructions)
    | None => None
    end.
Proof.
  unfold Generation.format_cell. now rewrite format_loop_last.
Qed.

(** X14. The loop of the formatting cell leaves, for each model of the list, the
    instructions rendered by that model's own chat template, nothing for
    any other name, and leaves the variable [prompt_formatted] bound to the
    list of the last model (unbound when the list of models is empty). *)
Theorem X14_formatting_cell (models instructions : list string) :
  (forall m,
     Generation.prompts_formatted_dic
       (Generation.format_cell from_pretrained models instructions) !! m
     = if decide (m ∈ models) then Some (formatted_for m instructions) else None)
  /\ Generation.prompt_formatted (Generation.format_cell from_pretrained models instructions)
     = match last models with
       | Some m => Some (formatted_for m instructions)
       | None => None
       end.
Proof.
  unfold Generation.format_cell. split.
  - intros m. rewrite format_loop_lookup. cbn [Generation.prompts_formatted_dic].
    destruct (decide (m ∈ models)); [reflexivity | apply lookup_empty].
  - apply format_loop_last.
Qed.

(** X15. The loop of the generation cell iterates over [prompt_formatted], not over
    [prompts_formatted_dic[model]]: when it ends without an exception, the
    requests it has sent are, model after model and instruction after
    instruction, the prompts rendered by the chat template of the LAST
    model of the list, posted to the URL of each model. *)
Theorem X15_every_model_receives_the_last_models_prompts
    (models instructions : list string) (last_model : string) (s : Generation.session) :
  last models = Some last_model ->
  Generation.raised
    (Generation.generation_cell post models
       (Generation.format_cell from_pretrained models instructions) s) = None ->
  Generation.sent
    (Generation.after
       (Generation.generation_cell post models
          (Generation.format_cell from_pretrained models instructions) s))
  = Generation.sent s
    ++ flat_map
         (fun model =>
            List.map
              (fun instruction =>
                 (Generation.api_url model,
                  Generation.payload
                    (Generation.format_prompt instruction (from_pretrained last_model))))
              instructions)
         models.
Proof.
  intros Hlast. unfold Generation.generation_cell.
  rewrite format_cell_bound, Hlast. intros Hraised.
  destruct (generation_loop_returns _ _ _ _ Hraised) as (Hsent & _).
  rewrite Hsent. f_equal. apply flat_map_ext. intros m.
  now rewrite List.map_map.
Qed.

(** X16. When the loop of the generation cell ends without an exception and at least
    two models are compared, the dataset cell finds its three columns, and
    each of the two response columns has exactly one entry per
    instruction. *)
Theorem X16_dataset_columns_have_equal_length
    (models instructions : list string) (s : Generation.session) :
  (2 <= length models)%nat ->
  Generation.raised
    (Generation.generation_cell post models
       (Generation.format_cell from_pretrained models instructions) s) = None ->
  exists response_model_1 response_model_2,
    dataset_columns models instructions
      (Generation.output_dic
         (Generation.generation_cell post models
            (Generation.format_cell from_pretrained models instructions) s))
    = inr (instructions, response_model_1, response_model_2)
    /\ length response_model_1 = length instructions
    /\ length response_model_2 = length instructions.
Proof.
  intros Hlen. unfold Generation.generation_cell.
  destruct models as [| m1 [| m2 rest]]; cbn [length] in Hlen; try lia.
  rewrite format_cell_bound.
  destruct (last (m1 :: m2 :: rest)) as [last_model |] eqn:Hlast; [| discriminate].
  intros Hraised.
  destruct (generation_loop_returns _ _ _ _ Hraised) as (_ & Hin & _).
  destruct (Hin m1) as (r1 & Hr1 & Hl1); [apply elem_of_cons; now left |].
  destruct (Hin m2) as (r2 & Hr2 & Hl2);
    [apply elem_of_cons; right; apply elem_of_cons; now left |].
  exists r1, r2. unfold dataset_columns. cbn [nth_error].
  rewrite Hr1, Hr2. rewrite Hl1, Hl2, length_map. auto.
Qed.

(** X17. When an exception ends the loop of the generation cell, it is one of
    [output[0]["generated_text"]] (the name [prompt_formatted] is bound);
    the models before the failing one have been sent every prompt, the
    failing one the prompts up to the one whose answer was malformed, the
    models after it nothing; and [output_dic] has no entry for the failing
    model or a later one, unless the same name also comes earlier in the
    list: the generations already obtained for the failing model are
    lost. *)
Theorem X17_exception_ends_the_generation_cell
    (models instructions : list string) (s : Generation.session) (e : Generation.error) :
  Generation.raised
    (Generation.generation_cell post models
       (Generation.format_cell from_pretrained models instructions) s) = Some e ->
  exists (prompts done : list string) (failing : string) (rest : list string) (k : nat),
    Generation.prompt_formatted (Generation.format_cell from_pretrained models instructions)
    = Some prompts
    /\ models = done ++ failing :: rest
    /\ (0 < k <= length instructions)%nat
    /\ Generation.sent
         (Generation.after
            (Generation.generation_cell post models
               (Generation.format_cell from_pretrained models instructions) s))
       = Generation.sent s ++ flat_map (fun m => requests_to m prompts) done
         ++ requests_to failing (firstn k prompts)
    /\ (forall m, m ∉ done ->
          Generation.output_dic
            (Generation.generation_cell post models
               (Generation.format_cell from_pretrained models instructions) s) !! m
          = None)
    /\ e <> Generation.NameError "prompt_formatted".
Proof.
  unfold Generation.generation_cell.
  rewrite format_cell_bound.
  destruct (last models) as [last_model |] eqn:Hlast.
  - intros Hraised.
    destruct (generation_loop_raises _ _ _ _ _ Hraised)
      as (done & failing & rest & k & Hmodels & Hk & Hsent & Hdic & He).
    exists (formatted_for last_model instructions), done, failing, rest, k.
    rewrite length_map in Hk.
    split; [reflexivity |]. split; [exact Hmodels |]. split; [exact Hk |].
    split; [exact Hsent |]. split; [| exact He].
    intros m Hm. rewrite (Hdic m Hm). apply lookup_empty.
  - apply last_None in Hlast. subst models. discriminate.
Qed.

End GenerationCells.

Lemma X15_every_model_receives_the_last_models_prompts_witness :
  Generation.sent
    (Generation.after
       (Generation.generation_cell Services.answering Services.models_to_compare
          (Generation.format_cell Services.template Services.models_to_compare ["Sort a list"])
          {| Generation.world := 0%nat; Generation.sent := [] |}))
  = [ (Generation.api_url "mistralai/Mixtral-8x7B-Instruct-v0.1",
       Generation.payload
         (Generation.format_prompt "Sort a list"
            (Services.template "meta-llama/Meta-Llama-3-70B-Instruct")));
      (Generation.api_url "meta-llama/Meta-Llama-3-70B-Instruct",
       Generation.payload
         (Generation.format_prompt "Sort a list"
            (Services.template "meta-llama/Meta-Llama-3-70B-Instruct"))) ].
Proof.
  apply (X15_every_model_receives_the_last_models_prompts Services.template
           Services.answering Services.models_to_compare ["Sort a list"]
           "meta-llama/Meta-Llama-3-70B-Instruct"
           {| Generation.world := 0%nat; Generation.sent := [] |}).
  - reflexivity.
  - vm_compute. reflexivity.
Defined.

Lemma X16_dataset_columns_have_equal_length_witness :
  exists response_model_1 response_model_2,
    dataset_columns Services.models_to_compare ["Sort a list"; "Reverse a string"]
      (Generation.output_dic
         (Generation.generation_cell Services.answering Services.models_to_compare
            (Generation.format_cell Services.template Services.models_to_compare
               ["Sort a list"; "Reverse a string"])
            {| Generation.world := 0%nat; Generation.sent := [] |}))
    = inr (["Sort a list"; "Reverse a string"], response_model_1, response_model_2)
    /\ length response_model_1 = 2%nat
    /\ length response_model_2 = 2%nat.
Proof.
  apply (X16_dataset_columns_have_equal_length Services.template Services.answering
           Services.models_to_compare ["Sort a list"; "Reverse a string"]
           {| Generation.world := 0%nat; Generation.sent := [] |}).
  - cbn. lia.
  - vm_compute. reflexivity.
Defined.

Lemma X17_exception_ends_the_generation_cell_witness :
  exists (prompts done : list string) (failing : string) (rest : list string) (k : nat),
    Generation.prompt_formatted
      (Generation.format_cell Services.template Services.models_to_compare
         ["Sort a list"; "Reverse a string"])
    = Some prompts
    /\ Services.models_to_compare = done ++ failing :: rest
    /\ (0 < k <= 2)%nat
    /\ Generation.sent
         (Generation.after
            (Generation.generation_cell
               (Services.failing_for "meta-llama/Meta-Llama-3-70B-Instruct")
               Services.models_to_compare
               (Generation.format_cell Services.template Services.models_to_compare
                  ["Sort a list"; "Reverse a string"])
               {| Generation.world := 0%nat; Generation.sent := [] |}))
       = [] ++ flat_map
                 (fun m =>
                    List.map (fun prompt => (Generation.api_url m, Generation.payload prompt))
                      prompts)
                 done
         ++ List.map (fun prompt => (Generation.api_url failing, Generation.payload prompt))
              (firstn k prompts)
    /\ (forall m, m ∉ done ->
          Generation.output_dic
            (Generation.generation_cell
               (Services.failing_for "meta-llama/Meta-Llama-3-70B-Instruct")
               Services.models_to_compare
               (Generation.format_cell Services.template Services.models_to_compare
                  ["Sort a list"; "Reverse a string"])
               {| Generation.world := 0%nat; Generation.sent := [] |}) !! m
          = None)
    /\ Generation.KeyError (PyInt 0) <> Generation.NameError "prompt_formatted".
Proof.
  apply (X17_exception_ends_the_generation_cell Services.template
           (Services.failing_for "meta-llama/Meta-Llama-3-70B-Instruct")
           Services.models_to_compare ["Sort a list"; "Reverse a string"]
           {| Generation.world := 0%nat; Generation.sent := [] |}
           (Generation.KeyError (PyInt 0))).
  vm_compute. reflexivity.
Defined.

(** * The print cell and the tool *)

Lemma printed_from (rows : list (list pyval)) (out : string) :
  fold_left (fun out row => out +:+ (SQLExecutorTool.str_row row +:+ nl)) rows out
  = out +:+ SqlNotebook.printed rows.
Proof.
  unfold SqlNotebook.printed. revert out.
  induction rows as [| r rows IH]; intros out; cbn [fold_left].
  - now rewrite append_nil_r.
  - rewrite IH, (IH (EmptyString +:+ _)), append_nil_l. now rewrite !append_assoc.
Qed.

Lemma printed_cons (r : list pyval) (rows : list (list pyval)) :
  SqlNotebook.printed (r :: rows)
  = (SQLExecutorTool.str_row r +:+ nl) +:+ SqlNotebook.printed rows.
Proof.
  unfold SqlNotebook.printed at 1. cbn [fold_left].
  now rewrite printed_from, append_nil_l.
Qed.

Lemma printed_row_lines (rows : list (list pyval)) :
  row_lines rows +:+ nl = nl +:+ SqlNotebook.printed rows.
Proof.
  induction rows as [| r rows IH].
  - reflexivity.
  - rewrite printed_cons. cbn [row_lines].
    rewrite !append_assoc. now rewrite IH.
Qed.

(** X18. The tool shows a table as the print cell of the notebook does: run
    from the same state on [SELECT * from receipts], both raise the same
    exception or both return, the output of the tool being the printed
    text with its newlines moved from the end of each row to its front;
    and both leave the same state behind. *)
Theorem X18_tool_output_is_the_printed_table {D : Type}
    (execute : D -> string -> outcome (list (list pyval)) * D) (st : state D) :
  match fst (SqlNotebook.print_cell execute st),
        fst (SQLExecutorTool.forward execute (PyStr SqlNotebook.select_all) st) with
  | Returns printed, Returns output => output +:+ nl = nl +:+ printed
  | Raises e1, Raises e2 => e1 = e2
  | _, _ => False
  end
  /\ snd (SqlNotebook.print_cell execute st)
     = snd (SQLExecutorTool.forward execute (PyStr SqlNotebook.select_all) st).
Proof.
  rewrite sql_forward_string.
  unfold SqlNotebook.print_cell, SQLExecutorTool.connect, SQLExecutorTool.text,
    SQLExecutorTool.con_execute, finally, bind, ret, emit.
  cbn. destruct (execute (resource st) SqlNotebook.select_all) as [[rows | e] d]; cbn.
  - split; [apply printed_row_lines |]. now rewrite <- !app_assoc.
  - split; [reflexivity |]. now rewrite <- !app_assoc.
Qed.

(** Splitting at a separator distributes over a text cut at one. *)
Lemma split_app_sep (sep : ascii) (a b : string) :
  Str.split sep (a +:+ String sep b) = Str.split sep a ++ Str.split sep b.
Proof.
  induction a as [| x a IH].
  - rewrite append_nil_l. cbn [Str.split]. now rewrite Ascii.eqb_refl.
  - rewrite append_cons. cbn [Str.split]. rewrite IH.
    destruct (Ascii.eqb x sep); [reflexivity |].
    destruct (Str.split sep a) as [| piece pieces] eqn:E; [| reflexivity].
    now apply split_not_nil in E.
Qed.

Lemma table_block_lines (get_columns : string -> list (string * string)) (table : string) :
  char_in newline table = false ->
  Forall (fun col => char_in newline (fst col) = false
                     /\ char_in newline (snd col) = false) (get_columns table) ->
  "" :: Str.split newline (SqlNotebook.table_block get_columns table)
  = table_lines get_columns table.
Proof.
  intros Ht Hcols. unfold table_lines. cbn [app]. f_equal.
  assert (Hblock : SqlNotebook.table_block get_columns table
                   = ("Table '" +:+ table +:+ "':")
                     +:+ String newline
                           ("Columns:"
                            +:+ String newline
                                  (join nl (List.map SqlNotebook.column_line
                                              (get_columns table))))).
  { unfold SqlNotebook.table_block, SqlNotebook.table_description.
    rewrite !append_assoc. reflexivity. }
  rewrite Hblock.
  rewrite split_at_first_sep by (rewrite !char_in_append, Ht; reflexivity).
  f_equal.
  rewrite (split_at_first_sep newline "Columns:" _ eq_refl). f_equal.
  destruct (get_columns table) as [| col cols] eqn:E; [reflexivity |].
  apply column_lines_split; [discriminate | exact Hcols].
Qed.

Lemma updated_loop_lines (get_columns : string -> list (string * string))
    (tables : list string) (updated : string) :
  Forall (fun table =>
            char_in newline table = false
            /\ Forall (fun col => char_in newline (fst col) = false
                                  /\ char_in newline (snd col) = false)
                 (get_columns table)) tables ->
  Str.split newline
    (fold_left
       (fun updated table =>
          updated +:+ ((nl +:+ nl) +:+ SqlNotebook.table_block get_columns table))
       tables updated)
  = Str.split newline updated ++ flat_map (table_lines get_columns) tables.
Proof.
  intros Hall. revert updated.
  induction Hall as [| table tables [Ht Hcols] Hall IH]; intros updated.
  - cbn. now rewrite app_nil_r.
  - cbn [fold_left flat_map]. rewrite IH.
    change ((nl +:+ nl) +:+ ?x) with (String newline (String newline x)).
    rewrite split_app_sep. rewrite <- app_assoc. f_equal. f_equal.
    rewrite <- (table_block_lines get_columns table Ht Hcols).
    cbn [Str.split]. now rewrite Ascii.eqb_refl.
Qed.

(** X19. The updated description reads back line by line: after the two
    lines of its heading, each table of the loop contributes, in order, an
    empty line, the line [Table 'name':], the line [Columns:] and one line
    per column (an empty line when it has none), provided that no table
    name, column name or column type holds a newline. *)
Theorem X19_updated_description_lines (get_columns : string -> list (string * string))
    (tables : list string) :
  Forall (fun table =>
            char_in newline table = false
            /\ Forall (fun col => char_in newline (fst col) = false
                                  /\ char_in newline (snd col) = false)
                 (get_columns table)) tables ->
  Str.split newline (SqlNotebook.updated_description get_columns tables)
  = [ "Allows you to perform SQL queries on the table. Beware that this tool's output is a string representation of the execution output.";
      "It can use the following tables:" ]
    ++ flat_map (table_lines get_columns) tables.
Proof.
  intros Hall. unfold SqlNotebook.updated_description.
  rewrite (updated_loop_lines get_columns tables _ Hall). f_equal.
Qed.

Lemma X19_updated_description_lines_witness :
  Str.split newline (SqlNotebook.updated_description notebook_columns ["receipts"; "waiters"])
  = [ "Allows you to perform SQL queries on the table. Beware that this tool's output is a string representation of the execution output.";
      "It can use the following tables:";
      "";
      "Table 'receipts':";
      "Columns:";
      "  - receipt_id: INTEGER";
      "  - customer_name: VARCHAR(16)";
      "  - price: FLOAT";
      "  - tip: FLOAT";
      "";
      "Table 'waiters':";
      "Columns:";
      "  - receipt_id: INTEGER";
      "  - waiter_name: VARCHAR(16)" ].
Proof.
  apply (X19_updated_description_lines notebook_columns ["receipts"; "waiters"]).
  repeat constructor.
Defined.

(** * The endpoint URLs *)

Lemma append_same_head (a b c : string) : a +:+ b = a +:+ c -> b = c.
Proof.
  induction a as [| x a IH]; [now rewrite !append_nil_l |].
  rewrite !append_cons. intros H. injection H as H. now apply IH.
Qed.

(** X20. The notebook builds the URL of the messages API in two ways,
    [os.path.join(BASE_URL, "v1/")] for the OpenAI and LangChain clients and
    [BASE_URL + "/v1/"] for LlamaIndex. With POSIX paths the two agree
    exactly when [BASE_URL] is not empty and does not end in a slash. *)
Theorem X20_the_two_base_urls_agree (BASE_URL : string) :
  Tgi.base_url BASE_URL = Tgi.api_base BASE_URL
  <-> BASE_URL <> "" /\ Str.endswith BASE_URL "/" = false.
Proof.
  unfold Tgi.base_url, Tgi.api_base, Posixpath.join.
  change (Str.startswith "v1/" "/") with false. cbn match.
  destruct (String.eqb_spec BASE_URL "") as [-> | Hne].
  - cbn. split; [discriminate | intros [H _]; congruence].
  - cbn [orb]. destruct (Str.endswith BASE_URL "/") eqn:E.
    + split; [| intros [_ H]; discriminate].
      intros H. apply append_same_head in H. discriminate.
    + split; [now split | reflexivity].
Qed.

(** * The workflow that checks the names *)

Lemma has_upper_append (a b : string) :
  Workflow.has_upper (a +:+ b) = Workflow.has_upper a || Workflow.has_upper b.
Proof.
  induction a as [| x a IH]; [reflexivity |].
  rewrite append_cons. cbn [Workflow.has_upper]. rewrite IH. apply orb_assoc.
Qed.

(** A name has a capital exactly when one of its lines has. *)
Lemma has_upper_split (s : string) :
  Workflow.has_upper s = existsb Workflow.has_upper (Str.split newline s).
Proof.
  induction s as [| a s IH]; [reflexivity |].
  cbn [Workflow.has_upper Str.split]. destruct (Ascii.eqb a newline) eqn:E.
  - apply Ascii.eqb_eq in E. subst a. cbn [existsb Workflow.has_upper]. exact IH.
  - rewrite IH. destruct (Str.split newline s) as [| piece pieces] eqn:Es.
    + now apply split_not_nil in Es.
    + cbn [existsb Workflow.has_upper]. apply orb_assoc.
Qed.

Lemma lines_append_newline (a rest : string) :
  Workflow.lines (a +:+ String newline rest) = Str.split newline a ++ Workflow.lines rest.
Proof.
  induction a as [| x a IH].
  - rewrite append_nil_l. reflexivity.
  - rewrite append_cons. cbn [Workflow.lines Str.split]. rewrite IH.
    change (ascii_of_N 10) with newline.
    destruct (Ascii.eqb x newline); [reflexivity |].
    destruct (Str.split newline a) as [| piece pieces] eqn:Es; [| reflexivity].
    now apply split_not_nil in Es.
Qed.

Section Locale.
Variable valid : string -> bool.

Lemma find_lines (entries : list Workflow.entry) :
  existsb (selected valid) (Workflow.lines (Workflow.find entries))
  = existsb (fun e => examined e
                      && existsb (selected valid) (Str.split newline (Workflow.basename e)))
      entries.
Proof.
  induction entries as [| e entries IH]; [reflexivity |].
  cbn [Workflow.find existsb]. fold (examined e). destruct (examined e).
  - rewrite append_assoc. change (nl +:+ ?x) with (String newline x).
    rewrite lines_append_newline, existsb_app, IH. reflexivity.
  - exact IH.
Qed.

Lemma command_substitution_keeps_capitals (s : string) :
  Workflow.has_upper s = true -> Workflow.command_substitution s <> "".
Proof.
  induction s as [| a s IH]; [discriminate |].
  cbn [Workflow.has_upper Workflow.command_substitution]. intros H.
  destruct (Ascii.eqb a (ascii_of_N 10)) eqn:Ea; [| discriminate].
  apply Ascii.eqb_eq in Ea. subst a. cbn [orb andb] in *.
  destruct (String.eqb_spec (Workflow.command_substitution s) "") as [E | E];
    [| discriminate].
  exfalso. now apply (IH H).
Qed.

Lemma grep_selects (input : string) :
  Workflow.command_substitution (Workflow.grep valid input) = ""
  <-> existsb (selected valid) (Workflow.lines input) = false.
Proof.
  unfold Workflow.grep. fold (selected valid).
  induction (Workflow.lines input) as [| line ls IH].
  - cbn. tauto.
  - cbn [List.filter existsb]. destruct (selected valid line) eqn:E.
    + cbn [orb]. split; [| discriminate]. intros H. exfalso.
      revert H. apply command_substitution_keeps_capitals.
      unfold selected in E. apply andb_prop in E as [E _].
      cbn [List.map]. destruct (List.map _ (List.filter _ ls)).
      * cbn [String.concat]. now rewrite has_upper_append, E.
      * cbn [String.concat]. now rewrite has_upper_append, has_upper_append, E.
    + exact IH.
Qed.

(** X21. The check fails (exit status 1) exactly when some regular file
    under [notebooks/] whose base name ends in [.ipynb] has, on one line of
    that base name, one of the letters A to Z, the line being text in the
    locale of the runner (any line in the C locale; in a UTF-8 locale a name
    that is not valid UTF-8 is withheld by grep and passes). Capitals in the
    names of directories, in files with another extension (an upper-case
    [.IPYNB] included) and capital letters outside A to Z are not
    reported. *)
Theorem X21_check_fails_iff_a_notebook_name_has_a_capital
    (entries : list Workflow.entry) :
  snd (Workflow.check valid entries) = 1%nat
  <-> exists e line,
        In e entries
        /\ Workflow.regular e = true
        /\ Str.endswith (Workflow.basename e) ".ipynb" = true
        /\ In line (Str.split newline (Workflow.basename e))
        /\ Workflow.has_upper line = true
        /\ valid line = true.
Proof.
  unfold Workflow.check, Workflow.files.
  pose proof (grep_selects (Workflow.find entries)) as Hgrep.
  rewrite find_lines in Hgrep.
  destruct (String.eqb_spec
              (Workflow.command_substitution
                 (Workflow.grep valid (Workflow.find entries))) "")
    as [E | E]; cbn [negb snd].
  - split; [discriminate |].
    intros (e & line & Hin & Hreg & Hname & Hline & Hup & Hvalid). exfalso.
    apply Hgrep in E. apply not_true_iff_false in E. apply E.
    apply existsb_exists. exists e. split; [exact Hin |].
    unfold examined, Workflow.name_matches. rewrite Hreg, Hname. cbn [andb].
    apply existsb_exists. exists line. split; [exact Hline |].
    unfold selected. now rewrite Hup, Hvalid.
  - split; [intros _ | reflexivity].
    destruct (existsb (fun e => examined e
                                && existsb (selected valid)
                                     (Str.split newline (Workflow.basename e)))
                entries) eqn:Ex.
    + apply existsb_exists in Ex. destruct Ex as (e & Hin & He).
      apply andb_prop in He as [He Hsel]. apply andb_prop in He as [Hreg Hname].
      apply existsb_exists in Hsel as (line & Hline & Hsel).
      unfold selected in Hsel. apply andb_prop in Hsel as [Hup Hvalid].
      exists e, line. auto 10.
    + exfalso. apply E. now apply Hgrep.
Qed.

End Locale.

Lemma X21_check_fails_iff_a_notebook_name_has_a_capital_witness :
  snd (Workflow.check c_locale
         [capital_directory; notebook_directory; capital_notebook; capital_extension])
  = 1%nat.
Proof.
  apply (proj2 (X21_check_fails_iff_a_notebook_name_has_a_capital c_locale
                  [capital_directory; notebook_directory; capital_notebook;
                   capital_extension])).
  exists capital_notebook, "Agents.ipynb".
  repeat split; try reflexivity.
  - right. right. now left.
  - now left.
Defined.

(** What the step prints and returns on the examples; a line that is not
    text in the locale is withheld. *)
Example workflow_examples :
  Workflow.check c_locale [capital_directory; capital_notebook]
  = ("The following files are not lowercase:" +:+ nl +:+ "Agents.ipynb" +:+ nl, 1%nat)
  /\ Workflow.check c_locale [capital_directory; notebook_directory; capital_extension]
     = ("All filenames are lowercase." +:+ nl, 0%nat)
  /\ Workflow.check (fun _ => false) [capital_notebook]
     = ("All filenames are lowercase." +:+ nl, 0%nat).
Proof. repeat split; reflexivity. Qed.
